(** * aps-events-generator: the event rendering pipeline

    A shallow embedding of [svg_generator.py], [validators.py] and the batch
    part of [generate.py], together with the properties of the layout engine,
    the date normaliser and the digest builder.

    Conventions.
    - A Python [str] is a Rocq [string]; a character stands for the code
      point of the same number, so the texts covered are those over code
      points below 256.
    - JSON data (what [response.json()] returns) is a [pyval].
    - A Python call that may raise returns a [result]; [Raise e] is the
      exception that escapes the call.
    - Python floats are binary64 primitive floats. *)

From Stdlib Require Import ZArith String Ascii List Bool Lia.
From Stdlib Require Import Floats Uint63 DecimalString DecimalPos DecimalZ.
Import ListNotations.

Set Warnings "-register-all,-inexact-float".

Open Scope string_scope.
Open Scope Z_scope.

(* ================================================================== *)
(** * Python values and the builtins the program uses *)
(* ================================================================== *)

Module Py.

Inductive exn : Type :=
| ValueError
| TypeError
| AttributeError
| OSError.

Inductive result (A : Type) : Type :=
| Ok (a : A)
| Raise (e : exn).

Arguments Ok {A} a.
Arguments Raise {A} e.

Definition bind {A B : Type} (r : result A) (k : A -> result B) : result B :=
  match r with
  | Ok a => k a
  | Raise e => Raise e
  end.

(** JSON values as Python objects. *)
Inductive pyval : Type :=
| PNone
| PBool (b : bool)
| PInt (z : Z)
| PFloat (f : float)
| PStr (s : string)
| PList (l : list pyval)
| PDict (d : list (string * pyval)).

(** A dictionary is kept as its list of items. *)
Definition dict : Type := list (string * pyval).

(** [bool(v)]. *)
Definition truthy (v : pyval) : bool :=
  match v with
  | PNone => false
  | PBool b => b
  | PInt z => negb (z =? 0)
  | PFloat f => negb (PrimFloat.eqb f 0%float)
  | PStr s => negb (s =? "")%string
  | PList l => match l with [] => false | _ => true end
  | PDict d => match d with [] => false | _ => true end
  end.

(** [d.get(key)] without a default: [None] stands for a missing key. *)
Fixpoint dict_lookup (d : dict) (key : string) : option pyval :=
  match d with
  | [] => None
  | (k, v) :: d' => if (k =? key)%string then Some v else dict_lookup d' key
  end.

(** [d.get(key)]: a missing key gives [None]. *)
Definition get (d : dict) (key : string) : pyval :=
  match dict_lookup d key with
  | Some v => v
  | None => PNone
  end.

(** [d.get(key, default)]. *)
Definition get_default (d : dict) (key : string) (default : pyval) : pyval :=
  match dict_lookup d key with
  | Some v => v
  | None => default
  end.

(** [c.isspace()] on code points below 256. *)
Definition isspace (c : ascii) : bool :=
  let n := nat_of_ascii c in
  ((9 <=? n) && (n <=? 13) || (28 <=? n) && (n <=? 32)
   || (n =? 133) || (n =? 160))%nat.

Fixpoint lstrip (s : string) : string :=
  match s with
  | EmptyString => EmptyString
  | String c s' => if isspace c then lstrip s' else s
  end.

Fixpoint rstrip (s : string) : string :=
  match s with
  | EmptyString => EmptyString
  | String c s' =>
      match rstrip s' with
      | EmptyString => if isspace c then EmptyString else String c EmptyString
      | r => String c r
      end
  end.

(** [s.strip()]. *)
Definition strip (s : string) : string := rstrip (lstrip s).

(** [s.startswith(p)]. *)
Fixpoint startswith (p s : string) : bool :=
  match p, s with
  | EmptyString, _ => true
  | String a p', String b s' => Ascii.eqb a b && startswith p' s'
  | String _ _, EmptyString => false
  end.

(** [s.find(p)]; [None] stands for -1. *)
Fixpoint find (p s : string) : option nat :=
  if startswith p s then Some O
  else match s with
       | EmptyString => None
       | String _ s' => option_map S (find p s')
       end.

(** [p in s]. *)
Definition contains (p s : string) : bool :=
  match find p s with
  | Some _ => true
  | None => false
  end.

Fixpoint take (n : nat) (s : string) : string :=
  match n, s with
  | S n', String c s' => String c (take n' s')
  | _, _ => EmptyString
  end.

(** [s.split(p)[0]] for a non-empty separator [p]. *)
Definition split_head (p s : string) : string :=
  match find p s with
  | Some n => take n s
  | None => s
  end.

(** [sep.join(parts)] on a list of strings. *)
Fixpoint join (sep : string) (parts : list string) : string :=
  match parts with
  | [] => ""
  | [p] => p
  | p :: rest => p ++ sep ++ join sep rest
  end.

(** [sep.join(parts)] on a list of objects: an item that is not a [str]
    raises [TypeError]. *)
Fixpoint strings_of (parts : list pyval) : result (list string) :=
  match parts with
  | [] => Ok []
  | PStr s :: rest => bind (strings_of rest) (fun l => Ok (s :: l))
  | _ :: _ => Raise TypeError
  end.

Definition join_values (sep : string) (parts : list pyval) : result string :=
  bind (strings_of parts) (fun l => Ok (join sep l)).

(** [str(n)] for an integer. *)
Definition str_of_int (z : Z) : string := NilZero.string_of_int (Z.to_int z).

(** [str(v)], which is also what an f-string puts for [{v}].  The text of a
    float, a list or a dictionary is left to [str_other]. *)
Definition str (str_other : pyval -> string) (v : pyval) : string :=
  match v with
  | PStr s => s
  | PNone => "None"
  | PBool true => "True"
  | PBool false => "False"
  | PInt z => str_of_int z
  | _ => str_other v
  end.

(** The line feed. *)
Definition LF : string := String (ascii_of_nat 10) EmptyString.

End Py.

Import Py.

(* ================================================================== *)
(** * The [svg] package: the element classes the generator builds *)
(* ================================================================== *)

Module Svg.

(** The attributes of a [Text] element that the generator sets; an
    attribute left out of the constructor call is [None]. *)
Record text_attrs : Type := mkText {
  x : float;
  y : float;
  text : pyval;
  font_size : Z;
  font_weight : option string;
  fill : string;
  text_anchor : option string;
  dominant_baseline : option string;
  text_rendering : option string
}.

Inductive element : Type :=
| Rect (x y width height : Z) (fill : string)
| Image (href : string) (x y width height : Z) (preserveAspectRatio : string)
| Text (t : text_attrs).

Record SVG : Type := mkSVG {
  width : Z;
  height : Z;
  viewBox : string;
  elements : list element
}.

End Svg.

(* ================================================================== *)
(** * svg_generator.py *)
(* ================================================================== *)

Module SvgGenerator.

Import Svg.

Definition TEXT_COLOUR : string := "#FFFFFF".

(** An [int] used in float arithmetic. *)
Definition to_float (z : Z) : float := PrimFloat.of_uint63 (Uint63.of_Z z).

Definition time_patterns : list string := ["T"; " at "; " @ "].

(** The [for pattern in time_patterns] loop on a string: the first pattern
    found in the string cuts it and ends the loop. *)
Fixpoint cut_at_time (patterns : list string) (date_str : string) : string :=
  match patterns with
  | [] => date_str
  | pattern :: rest =>
      if contains pattern date_str
      then split_head pattern date_str
      else cut_at_time rest date_str
  end.

(** [parse_date_without_time].  A falsy argument is returned as it is.  A
    truthy argument that is not a string raises: [pattern in date_str] is a
    [TypeError] on a number or a boolean; on a list or a dictionary the
    membership test passes and [split], or else the final [strip], is an
    [AttributeError]. *)
Definition parse_date_without_time (date_str : pyval) : result pyval :=
  if negb (truthy date_str) then Ok date_str
  else match date_str with
       | PStr s => Ok (PStr (strip (cut_at_time time_patterns s)))
       | PList _ | PDict _ => Raise AttributeError
       | _ => Raise TypeError
       end.

(** One entry of [content_elements]. *)
Record block : Type := mkBlock {
  b_text : pyval;
  b_font_size : Z;
  b_font_weight : option string;
  b_fill : string;
  b_y_offset : float
}.

Inductive log_record : Type :=
| LogDebug (event_title : pyval)
| LogWarning (message : string).

Definition default_logo_path : string := "files/APS logo-black.svg".

Definition width : Z := 1024.
Definition height : Z := 1024.
Definition logo_size : Z := 120.
Definition logo_padding : Z := 40.
Definition line_height_multiplier : float := 1.2%float.

Definition background : element := Rect 0 0 width height "#000000".

Definition logo (logo_path : string) : element :=
  Image logo_path logo_padding logo_padding logo_size logo_size "xMidYMid meet".

Definition events_text : element :=
  Text {| x := (to_float width / 2)%float;
          y := (to_float logo_padding + to_float logo_size / 2)%float;
          text := PStr "Palaeo Events!";
          font_size := 64;
          font_weight := Some "bold";
          fill := TEXT_COLOUR;
          text_anchor := Some "middle";
          dominant_baseline := Some "middle";
          text_rendering := None |}.

(** The state threaded through the five field sections:
    [content_elements] and [current_y_offset].  The offset starts as the
    integer 0 and is a float from the first addition on; it is kept as a
    float throughout, which gives the same coordinates. *)
Definition layout_state : Type := (list block * float)%type.

(** The content blocks and the total height, or the exception of the date
    section. *)
Definition collect_content (event_data : dict) : result layout_state :=
  let content_elements : list block := [] in
  let current_y_offset := 0%float in
  (* Title *)
  let title := get event_data "title" in
  let '(content_elements, current_y_offset) :=
    if truthy title
    then ((content_elements ++
            [mkBlock title 72 (Some "bold") TEXT_COLOUR current_y_offset])%list,
          (current_y_offset + 72 * line_height_multiplier)%float)
    else (content_elements, current_y_offset) in
  (* Subtitle *)
  let subtitle := get event_data "subtitle" in
  let '(content_elements, current_y_offset) :=
    if truthy subtitle
    then ((content_elements ++
            [mkBlock subtitle 48 None TEXT_COLOUR current_y_offset])%list,
          (current_y_offset + 48 * line_height_multiplier)%float)
    else (content_elements, current_y_offset) in
  (* Host *)
  let host := get event_data "host" in
  let '(content_elements, current_y_offset) :=
    if truthy host
    then ((content_elements ++
            [mkBlock host 40 None TEXT_COLOUR current_y_offset])%list,
          (current_y_offset + 40 * line_height_multiplier)%float)
    else (content_elements, current_y_offset) in
  (* Date *)
  let date := get event_data "date" in
  bind (if truthy date
        then bind (parse_date_without_time date) (fun date_without_time =>
               Ok ((content_elements ++
                      [mkBlock date_without_time 40 None TEXT_COLOUR
                         current_y_offset])%list,
                   (current_y_offset + 40 * line_height_multiplier)%float))
        else Ok (content_elements, current_y_offset))
       (fun '(content_elements, current_y_offset) =>
  (* Location *)
  let location := get event_data "location" in
  let '(content_elements, current_y_offset) :=
    if truthy location
    then ((content_elements ++
            [mkBlock location 40 None TEXT_COLOUR current_y_offset])%list,
          (current_y_offset + 40 * line_height_multiplier)%float)
    else (content_elements, current_y_offset) in
  Ok (content_elements, current_y_offset)).

Definition content_x : float := (to_float width / 2)%float.

Definition content_start_y (total_content_height : float) : float :=
  ((to_float height - total_content_height) / 2)%float.

(** The [Text] built from one entry of [content_elements]. *)
Definition text_elem (start_y : float) (elem_data : block) : element :=
  Text {| x := content_x;
          y := (start_y + b_y_offset elem_data)%float;
          text := b_text elem_data;
          font_size := b_font_size elem_data;
          font_weight := b_font_weight elem_data;
          fill := b_fill elem_data;
          text_anchor := Some "middle";
          dominant_baseline := None;
          text_rendering := Some "optimizeLegibility" |}.

(** [generate_svg], with what it reads from its surroundings made explicit:
    [path_exists] is [Path(logo_path).exists()], which answers with a
    boolean, or raises the [OSError] of its [stat] call when that is not one
    of the errors that mean a missing file (a name that is too long, a
    directory that may not be searched).  The call is not guarded, so its
    exception leaves [generate_svg].  The function returns the log records
    it emits and the document, or the exception it raises. *)
Definition generate_svg (path_exists : string -> result bool)
    (event_data : dict) (logo_path : string) : list log_record * result SVG :=
  let event_title := get_default event_data "title" (PStr "Unknown") in
  let log := [LogDebug event_title] in
  match path_exists logo_path with
  | Raise e => (log, Raise e)
  | Ok found =>
      let log :=
        if negb found
        then (log ++ [LogWarning ("Logo file not found: " ++ logo_path
                                  ++ ". Continuing without logo.")])%list
        else log in
      let elements := [] in
      let elements := (elements ++ [background])%list in
      let elements := (elements ++ [logo logo_path])%list in
      let elements := (elements ++ [events_text])%list in
      (log,
       bind (collect_content event_data)
         (fun '(content_elements, current_y_offset) =>
            let total_content_height := current_y_offset in
            let start_y := content_start_y total_content_height in
            let elements :=
              (elements ++ map (text_elem start_y) content_elements)%list in
            Ok {| Svg.width := width;
                  Svg.height := height;
                  viewBox := "0 0 " ++ str_of_int width ++ " "
                             ++ str_of_int height;
                  elements := elements |}))
  end.

End SvgGenerator.

(* ================================================================== *)
(** * The standard library's [datetime.strptime] and [strftime]

    The part of [datetime] and [_strptime] that the seven formats of the
    digest builder reach, in the C locale: the directives [%Y], [%m], [%d],
    [%B], [%b] and [%A], their regular expressions, the backtracking match
    of [re], and the proleptic Gregorian calendar. *)
(* ================================================================== *)

Module Datetime.

(** A [datetime] whose time of day is midnight, which is what a format
    without time directives gives. *)
Record datetime : Type := mkDatetime {
  year : Z;
  month : Z;
  day : Z
}.

Definition MINYEAR : Z := 1.
Definition MAXYEAR : Z := 9999.

Definition is_leap (y : Z) : bool :=
  (y mod 4 =? 0) && (negb (y mod 100 =? 0) || (y mod 400 =? 0)).

Definition DAYS_IN_MONTH : list Z :=
  [-1; 31; 28; 31; 30; 31; 30; 31; 31; 30; 31; 30; 31].

Definition DAYS_BEFORE_MONTH : list Z :=
  [-1; 0; 31; 59; 90; 120; 151; 181; 212; 243; 273; 304; 334].

Definition days_in_month (y m : Z) : Z :=
  if (m =? 2) && is_leap y then 29
  else nth (Z.to_nat m) DAYS_IN_MONTH 0.

Definition days_before_year (y : Z) : Z :=
  let y := y - 1 in
  y * 365 + y / 4 - y / 100 + y / 400.

Definition days_before_month (y m : Z) : Z :=
  nth (Z.to_nat m) DAYS_BEFORE_MONTH 0
  + (if (m >? 2) && is_leap y then 1 else 0).

Definition ymd2ord (y m d : Z) : Z :=
  days_before_year y + days_before_month y m + d.

(** The checks of the [date] constructor. *)
Definition check_date_fields (y m d : Z) : bool :=
  (MINYEAR <=? y) && (y <=? MAXYEAR) && (1 <=? m) && (m <=? 12)
  && (1 <=? d) && (d <=? days_in_month y m).

Definition toordinal (dt : datetime) : Z :=
  ymd2ord (year dt) (month dt) (day dt).

(** [dt.weekday()]: Monday is 0. *)
Definition weekday (dt : datetime) : Z := (toordinal dt + 6) mod 7.

Definition day_name : list string :=
  ["Monday"; "Tuesday"; "Wednesday"; "Thursday"; "Friday"; "Saturday";
   "Sunday"].

Definition month_name : list string :=
  [""; "January"; "February"; "March"; "April"; "May"; "June"; "July";
   "August"; "September"; "October"; "November"; "December"].

Definition month_abbr : list string :=
  [""; "Jan"; "Feb"; "Mar"; "Apr"; "May"; "Jun"; "Jul"; "Aug"; "Sep"; "Oct";
   "Nov"; "Dec"].

(** [dt.strftime('%A')] and [dt.strftime('%B')]. *)
Definition strftime_A (dt : datetime) : string :=
  nth (Z.to_nat (weekday dt)) day_name "".

Definition strftime_B (dt : datetime) : string :=
  nth (Z.to_nat (month dt)) month_name "".

(** ** Regular expressions *)

Definition lower_ascii (c : ascii) : ascii :=
  let n := nat_of_ascii c in
  if ((65 <=? n) && (n <=? 90))%nat then ascii_of_nat (n + 32) else c.

Fixpoint lower (s : string) : string :=
  match s with
  | EmptyString => EmptyString
  | String c s' => String (lower_ascii c) (lower s')
  end.

(** The regular expressions [TimeRE] builds.  [Chr] is a literal character
    under [IGNORECASE]; [Spaces1] is [\s+]; [Group] is [(?P<name>...)]. *)
Inductive regex : Type :=
| Nothing
| Eps
| Chr (c : ascii)
| Range (lo hi : ascii)
| Spaces1
| Cat (r1 r2 : regex)
| Alt (r1 r2 : regex)
| Group (name : ascii) (r : regex).

Definition Digit : regex := Range "0" "9".

Fixpoint literal (s : string) : regex :=
  match s with
  | EmptyString => Eps
  | String c s' => Cat (Chr c) (literal s')
  end.

Definition groupdict : Type := list (ascii * string).

(** What is left of the string after [\s+] has taken k >= 1 characters, the
    longest run first. *)
Fixpoint spaces_greedy (s : string) : list string :=
  match s with
  | EmptyString => []
  | String c s' => if isspace c then (spaces_greedy s' ++ [s'])%list else []
  end.

(** The text consumed between [s] and its suffix [rest]. *)
Definition consumed (s rest : string) : string :=
  take (String.length s - String.length rest) s.

(** All the ways [r] matches a prefix of [s], in the order in which the
    backtracking matcher of [re] reaches them: each is the groups captured
    and the rest of the string. *)
Fixpoint rmatch (r : regex) (s : string) : list (groupdict * string) :=
  match r with
  | Nothing => []
  | Eps => [([], s)]
  | Chr c =>
      match s with
      | String a s' =>
          if Ascii.eqb (lower_ascii a) (lower_ascii c) then [([], s')] else []
      | EmptyString => []
      end
  | Range lo hi =>
      match s with
      | String a s' =>
          if ((nat_of_ascii lo <=? nat_of_ascii a)
              && (nat_of_ascii a <=? nat_of_ascii hi))%nat
          then [([], s')] else []
      | EmptyString => []
      end
  | Spaces1 => map (fun rest => ([], rest)) (spaces_greedy s)
  | Cat r1 r2 =>
      flat_map (fun '(g1, s1) =>
                  map (fun '(g2, s2) => ((g1 ++ g2)%list, s2)) (rmatch r2 s1))
               (rmatch r1 s)
  | Alt r1 r2 => (rmatch r1 s ++ rmatch r2 s)%list
  | Group name r =>
      map (fun '(g, rest) => ((name, consumed s rest) :: g, rest)) (rmatch r s)
  end.

(** ** The locale tables and the directives *)

Definition f_weekday : list string := map lower day_name.
Definition f_month : list string := map lower month_name.
Definition a_month : list string := map lower month_abbr.

Fixpoint insert_by_length (x : string) (l : list string) : list string :=
  match l with
  | [] => [x]
  | y :: l' =>
      if (String.length y <? String.length x)%nat then x :: l
      else y :: insert_by_length x l'
  end.

(** [sorted(to_convert, key=len, reverse=True)]. *)
Definition sorted_by_length (l : list string) : list string :=
  fold_left (fun acc x => insert_by_length x acc) l [].

(** [__seqToRE]: the names, longest first, as alternatives. *)
Definition seqToRE (to_convert : list string) : regex :=
  fold_right (fun name r => Alt (literal name) r) Nothing
             (sorted_by_length to_convert).

Definition re_d : regex :=
  Alt (Cat (Chr "3") (Range "0" "1"))
 (Alt (Cat (Range "1" "2") Digit)
 (Alt (Cat (Chr "0") (Range "1" "9"))
 (Alt (Range "1" "9")
      (Cat (Chr " ") (Range "1" "9"))))).

Definition re_m : regex :=
  Alt (Cat (Chr "1") (Range "0" "2"))
 (Alt (Cat (Chr "0") (Range "1" "9"))
      (Range "1" "9")).

Definition re_Y : regex := Cat Digit (Cat Digit (Cat Digit Digit)).

(** The entry of [TimeRE] for a directive; [None] is a directive the
    formats of this program do not use. *)
Definition directive (c : ascii) : option regex :=
  if Ascii.eqb c "d" then Some re_d
  else if Ascii.eqb c "m" then Some re_m
  else if Ascii.eqb c "Y" then Some re_Y
  else if Ascii.eqb c "A" then Some (seqToRE f_weekday)
  else if Ascii.eqb c "B" then Some (seqToRE (tl f_month))
  else if Ascii.eqb c "b" then Some (seqToRE (tl a_month))
  else None.

(** [TimeRE.pattern]: a run of white space of the format becomes [\s+], a
    directive its group, any other character itself.  [in_space] says that
    the character before was white space.  [None] is a format that
    [_strptime] refuses with [ValueError]. *)
Fixpoint pattern_from (in_space : bool) (format : string) : option regex :=
  match format with
  | EmptyString => Some Eps
  | String c rest =>
      if Ascii.eqb c "%" then
        match rest with
        | EmptyString => None
        | String d rest' =>
            match directive d, pattern_from false rest' with
            | Some r, Some k => Some (Cat (Group d r) k)
            | _, _ => None
            end
        end
      else if isspace c then
        match pattern_from true rest with
        | Some k => Some (if in_space then k else Cat Spaces1 k)
        | None => None
        end
      else
        match pattern_from false rest with
        | Some k => Some (Cat (Chr c) k)
        | None => None
        end
  end.

Definition pattern (format : string) : option regex := pattern_from false format.

(** ** [_strptime] *)

Definition digit_value (c : ascii) : Z := Z.of_nat (nat_of_ascii c) - 48.

(** [int(s)] on the text of a numeric group: digits, after white space
    that [int] skips. *)
Fixpoint int_from (acc : Z) (s : string) : Z :=
  match s with
  | EmptyString => acc
  | String c s' =>
      if isspace c then int_from acc s' else int_from (acc * 10 + digit_value c) s'
  end.

Definition int (s : string) : Z := int_from 0 s.

(** [l.index(x)]. *)
Fixpoint index (x : string) (l : list string) : Z :=
  match l with
  | [] => 0
  | y :: l' => if (y =? x)%string then 0 else 1 + index x l'
  end.

(** The values [_strptime] collects from the groups. *)
Record parsed : Type := mkParsed {
  p_year : option Z;
  p_month : Z;
  p_day : Z;
  p_weekday : option Z
}.

Definition parsed_init : parsed := mkParsed None 1 1 None.

(** One turn of the loop over the keys of the group dictionary. *)
Definition set_group (p : parsed) (kv : ascii * string) : parsed :=
  let '(group_key, found) := kv in
  if Ascii.eqb group_key "Y" then
    mkParsed (Some (int found)) (p_month p) (p_day p) (p_weekday p)
  else if Ascii.eqb group_key "m" then
    mkParsed (p_year p) (int found) (p_day p) (p_weekday p)
  else if Ascii.eqb group_key "B" then
    mkParsed (p_year p) (index (lower found) f_month) (p_day p) (p_weekday p)
  else if Ascii.eqb group_key "b" then
    mkParsed (p_year p) (index (lower found) a_month) (p_day p) (p_weekday p)
  else if Ascii.eqb group_key "d" then
    mkParsed (p_year p) (p_month p) (int found) (p_weekday p)
  else if Ascii.eqb group_key "A" then
    mkParsed (p_year p) (p_month p) (p_day p)
             (Some (index (lower found) f_weekday))
  else p.

(** The date of the collected values.  A weekday that was read is not
    used: with neither a week number nor a day of the year, the date is
    the year, the month and the day.  An impossible date is the
    [ValueError] of the [date] constructor. *)
Definition date_of_parsed (p : parsed) : result datetime :=
  let year :=
    match p_year p with
    | Some y => y
    | None => if (p_month p =? 2) && (p_day p =? 29) then 1904 else 1900
    end in
  if check_date_fields year (p_month p) (p_day p)
  then Ok (mkDatetime year (p_month p) (p_day p))
  else Raise ValueError.

(** [_strptime] on a string: the first match of the format's regular
    expression at the start of the string; a match that does not reach the
    end of the string is refused ("unconverted data remains"). *)
Definition strptime_str (data_string format : string) : result datetime :=
  match pattern format with
  | None => Raise ValueError
  | Some format_regex =>
      match rmatch format_regex data_string with
      | [] => Raise ValueError
      | (found_dict, rest) :: _ =>
          if (rest =? "")%string
          then date_of_parsed (fold_left set_group found_dict parsed_init)
          else Raise ValueError
      end
  end.

(** [datetime.strptime(data_string, format)]: an argument that is not a
    string is a [TypeError]. *)
Definition strptime (data_string : pyval) (format : string) : result datetime :=
  match data_string with
  | PStr s => strptime_str s format
  | _ => Raise TypeError
  end.

End Datetime.

(* ================================================================== *)
(** * validators.py *)
(* ================================================================== *)

Module Validators.

(** The loop of [validate_api_response] over the elements of the response,
    with the list [validated_events] built so far. *)
Fixpoint validate_loop (validated_events : list dict) (rest : list pyval)
  : result (list dict) :=
  match rest with
  | [] => Ok validated_events
  | event :: rest' =>
      match event with
      | PDict d => validate_loop (validated_events ++ [d])%list rest'
      | _ => Raise ValueError
      end
  end.

Definition validate_api_response (response_data : pyval) : result (list dict) :=
  match response_data with
  | PList l => validate_loop [] l
  | _ => Raise ValueError
  end.

End Validators.

(* ================================================================== *)
(** * generate.py *)
(* ================================================================== *)

Module Generate.

Import Svg SvgGenerator Datetime Validators.

Definition date_formats : list string :=
  ["%Y-%m-%d";
   "%B %d, %Y";
   "%b %d, %Y";
   "%m/%d/%Y";
   "%d/%m/%Y";
   "%A, %B %d, %Y";
   "%A, %b %d, %Y"].

(** The [for fmt in date_formats] loop: a [ValueError] moves on to the next
    format, a parsed date ends the loop, any other exception escapes. *)
Fixpoint try_formats (date_str : pyval) (formats : list string)
  : result (option datetime) :=
  match formats with
  | [] => Ok None
  | fmt :: rest =>
      match strptime date_str fmt with
      | Ok parsed_date => Ok (Some parsed_date)
      | Raise ValueError => try_formats date_str rest
      | Raise e => Raise e
      end
  end.

(** The first part of the loop body of [generate_content_txt]:
    [(day_name, formatted_date)] for the value of the [date] field. *)
Definition date_parts (date_str : pyval) : result (pyval * pyval) :=
  let day_name := PStr "" in
  let formatted_date := date_str in
  if truthy date_str then
    bind (try_formats date_str date_formats) (fun parsed_date =>
      match parsed_date with
      | Some parsed_date =>
          let day_name := strftime_A parsed_date in
          let day_num := day parsed_date in
          let month_name := strftime_B parsed_date in
          Ok (PStr day_name, PStr (month_name ++ " " ++ str_of_int day_num))
      | None => Ok (day_name, formatted_date)
      end)
  else Ok (day_name, formatted_date).

Definition footer : list string :=
  [""; "For more information: see https://albertapaleo.org/events/calendar";
   ""; "#palaeontology #paleontology #fossils #dinosaurs #events"].

(** The name of the file of the event at [index]: [event_{index:02d}.svg]. *)
Definition filename (index : nat) : string :=
  let digits := str_of_int (Z.of_nat index) in
  "event_" ++ (if (index <? 10)%nat then "0" ++ digits else digits) ++ ".svg".

(** What the batch loop did for one event. *)
Inductive report : Type :=
| Created (file : string) (content : string)
| WouldCreate (file : string)
| Failed (e : exn).

(** The result of a run of [main] from the fetched response on: the
    reports of the batch loop, one per event processed; the digest text that
    was written to [content.txt] (in a dry run: that would be written), if
    any; the exit status. *)
Record outcome : Type := mkOutcome {
  reports : list report;
  content_txt : option string;
  exit_status : Z
}.

Section WithSurroundings.

(** [str] of a float, a list or a dictionary. *)
Variable str_other : pyval -> string.
(** [Path(p).exists()]: a boolean, or the [OSError] it raises. *)
Variable path_exists : string -> result bool.
(** [str(svg_content)] of the [svg] package. *)
Variable serialize : SVG -> result string.
(** [Path.write_text]. *)
Variable write_text : string -> string -> result unit.

(** The rest of the loop body of [generate_content_txt]: the line of one
    event. *)
Definition event_line (event_data : dict) : result string :=
  let date_str := get_default event_data "date" (PStr "") in
  bind (date_parts date_str) (fun '(day_name, formatted_date) =>
  let title := get_default event_data "title" (PStr "Event") in
  let location := get_default event_data "location" (PStr "") in
  let host := get_default event_data "host" (PStr "") in
  let str := Py.str str_other in
  let event_line_parts : list pyval := [] in
  let event_line_parts :=
    if truthy day_name && truthy formatted_date then
      (event_line_parts ++
         [PStr (str day_name ++ ", " ++ str formatted_date ++ ": "
                ++ str title)])%list
    else if truthy formatted_date then
      (event_line_parts ++
         [PStr (str formatted_date ++ ": " ++ str title)])%list
    else
      (event_line_parts ++ [title])%list in
  let event_line_parts :=
    if truthy location
    then (event_line_parts ++ [PStr ("@ " ++ str location)])%list
    else event_line_parts in
  let event_line_parts :=
    if truthy host
    then (event_line_parts ++ [PStr ("(" ++ str host ++ ")")])%list
    else event_line_parts in
  join_values " " event_line_parts).

(** The [for event_data in events_data] loop, with the [lines] so far. *)
Fixpoint content_loop (lines : list string) (events_data : list dict)
  : result (list string) :=
  match events_data with
  | [] => Ok lines
  | event_data :: rest =>
      bind (event_line event_data) (fun line =>
        content_loop (lines ++ [line])%list rest)
  end.

Definition generate_content_txt (events_data : list dict) : result string :=
  bind (content_loop [] events_data) (fun lines =>
    Ok (join LF (lines ++ footer)%list)).

(** The [try] body of the batch loop for one event. *)
Definition process_event (dry_run : bool) (index : nat) (event_data : dict)
  : result report :=
  bind (snd (generate_svg path_exists event_data default_logo_path))
    (fun svg_content =>
       bind (serialize svg_content) (fun text =>
         if dry_run then Ok (WouldCreate (filename index))
         else bind (write_text (filename index) text) (fun _ =>
                Ok (Created (filename index) text)))).

(** The batch loop: [except Exception] reports the error and goes on to the
    next event. *)
Fixpoint batch_loop (dry_run : bool) (index : nat) (events_data : list dict)
  : list report :=
  match events_data with
  | [] => []
  | event_data :: rest =>
      (match process_event dry_run index event_data with
       | Ok r => r
       | Raise e => Failed e
       end) :: batch_loop dry_run (S index) rest
  end.

(** [main] from the fetched response on.  A failed validation leaves through
    [sys.exit(1)] before the loop; so does an exception of
    [generate_content_txt], or of writing its file, after the loop. *)
Definition main (dry_run : bool) (response : pyval) : outcome :=
  match validate_api_response response with
  | Raise _ => mkOutcome [] None 1
  | Ok events_data =>
      match events_data with
      | [] => mkOutcome [] None 0
      | _ =>
          let reports := batch_loop dry_run O events_data in
          match generate_content_txt events_data with
          | Raise _ => mkOutcome reports None 1
          | Ok text =>
              if dry_run then mkOutcome reports (Some text) 0
              else match write_text "content.txt" text with
                   | Ok _ => mkOutcome reports (Some text) 0
                   | Raise _ => mkOutcome reports None 1
                   end
          end
      end
  end.

End WithSurroundings.

End Generate.

(* ================================================================== *)
(** * More of [datetime]: dates from ordinals, adding days, comparing,
      and [strftime('%Y-%m-%d')] *)
(* ================================================================== *)

Module Calendar.

Import Datetime.

(** Exceptions besides those of [exn]: the [OverflowError] of date
    arithmetic and the [RequestException] of the [requests] package. *)
Inductive error : Type :=
| Builtin (e : exn)
| OverflowError
| RequestException.

(** The result of a call that may raise an [error]. *)
Inductive attempt (A : Type) : Type :=
| Returns (a : A)
| Raises (e : error).

Arguments Returns {A} a.
Arguments Raises {A} e.

Definition lift {A : Type} (r : result A) : attempt A :=
  match r with
  | Ok a => Returns a
  | Raise e => Raises (Builtin e)
  end.

Definition and_then {A B : Type} (r : attempt A) (k : A -> attempt B)
  : attempt B :=
  match r with
  | Returns a => k a
  | Raises e => Raises e
  end.

Definition DI400Y : Z := 146097.
Definition DI100Y : Z := 36524.
Definition DI4Y : Z := 1461.
Definition MAXORDINAL : Z := 3652059.

(** [_ord2ymd]: the year, month and day of the ordinal [n], where the
    ordinal 1 is January 1 of the year 1. *)
Definition ord2ymd (n : Z) : Z * Z * Z :=
  let n := n - 1 in
  let n400 := n / DI400Y in
  let n := n mod DI400Y in
  let year := n400 * 400 + 1 in
  let n100 := n / DI100Y in
  let n := n mod DI100Y in
  let n4 := n / DI4Y in
  let n := n mod DI4Y in
  let n1 := n / 365 in
  let n := n mod 365 in
  let year := year + n100 * 100 + n4 * 4 + n1 in
  if (n1 =? 4) || (n100 =? 4) then (year - 1, 12, 31)
  else
    let leapyear := (n1 =? 3) && (negb (n4 =? 24) || (n100 =? 3)) in
    let month := Z.shiftr (n + 50) 5 in
    let preceding :=
      nth (Z.to_nat month) DAYS_BEFORE_MONTH 0
      + (if (month >? 2) && leapyear then 1 else 0) in
    let '(month, preceding) :=
      if preceding >? n
      then (month - 1,
            preceding
            - (nth (Z.to_nat (month - 1)) DAYS_IN_MONTH 0
               + (if (month - 1 =? 2) && leapyear then 1 else 0)))
      else (month, preceding) in
    let n := n - preceding in
    (year, month, n + 1).

(** [datetime.fromordinal(n)], the time of day left at midnight. *)
Definition fromordinal (n : Z) : result datetime :=
  let '(y, m, d) := ord2ymd n in
  if check_date_fields y m d then Ok (mkDatetime y m d) else Raise ValueError.

(** [dt + timedelta(days=days)]: a result outside the ordinals 1 to
    [MAXORDINAL] is an [OverflowError]. *)
Definition add_days (dt : datetime) (days : Z) : attempt datetime :=
  let delta_days := toordinal dt + days in
  if (0 <? delta_days) && (delta_days <=? MAXORDINAL)
  then lift (fromordinal delta_days)
  else Raises OverflowError.

(** The comparison of two datetimes: that of their fields, the year
    first. *)
Definition datetime_cmp (a b : datetime) : comparison :=
  match year a ?= year b with
  | Eq => match month a ?= month b with
          | Eq => day a ?= day b
          | c => c
          end
  | c => c
  end.

(** [a > b]. *)
Definition datetime_gt (a b : datetime) : bool :=
  match datetime_cmp a b with
  | Gt => true
  | _ => false
  end.

(** The digit [n], for [n] from 0 to 9. *)
Definition digit (n : Z) : ascii := ascii_of_nat (48 + Z.to_nat n).

(** [n] written with two digits, as [%m] and [%d] write it. *)
Definition two_digits (n : Z) : string :=
  String (digit (n / 10)) (String (digit (n mod 10)) EmptyString).

(** [n] written with four digits. *)
Definition four_digits (n : Z) : string :=
  two_digits (n / 100) ++ two_digits (n mod 100).

Section Strftime.

(** What [%Y] writes for a year below 1000, which the C library decides
    (with or without leading zeros). *)
Variable small_year : Z -> string.

Definition strftime_Y (dt : datetime) : string :=
  if 1000 <=? year dt then four_digits (year dt) else small_year (year dt).

(** [dt.strftime('%Y-%m-%d')]. *)
Definition strftime_Ymd (dt : datetime) : string :=
  strftime_Y dt ++ "-" ++ two_digits (month dt) ++ "-" ++ two_digits (day dt).

End Strftime.

End Calendar.

(* ================================================================== *)
(** * validators.py: the date validators *)
(* ================================================================== *)

Module DateValidators.

Import Datetime Calendar.

(** [validate_date_format]: the [ValueError] of [strptime] is raised again
    as a [ValueError]; any other exception escapes as it is. *)
Definition validate_date_format (date_str : pyval) : result pyval :=
  match strptime date_str "%Y-%m-%d" with
  | Ok _ => Ok date_str
  | Raise ValueError => Raise ValueError
  | Raise e => Raise e
  end.

Definition validate_date_range (start_date end_date : pyval)
  : result (pyval * pyval) :=
  bind (strptime start_date "%Y-%m-%d") (fun start_dt =>
  bind (strptime end_date "%Y-%m-%d") (fun end_dt =>
    if datetime_gt start_dt end_dt then Raise ValueError
    else Ok (start_date, end_date))).

End DateValidators.

(* ================================================================== *)
(** * api_client.py *)
(* ================================================================== *)

Module ApiClient.

Import Calendar.

(** What [session.get] comes back with once the retries of the adapter are
    over: an exception of [requests], or a response with its status code
    and its body, [None] for a body that is not JSON. *)
Inductive http_result : Type :=
| Timeout
| ConnectionError
| OtherRequestException
| Response (status_code : Z) (json : option pyval).

(** [response.raise_for_status()] raises [HTTPError] on a client or server
    error status. *)
Definition raises_for_status (status_code : Z) : bool :=
  ((400 <=? status_code) && (status_code <? 500))
  || ((500 <=? status_code) && (status_code <? 600)).

(** [len(v)]; [None] stands for the [TypeError] of an object without a
    length. *)
Definition len (v : pyval) : option nat :=
  match v with
  | PStr s => Some (String.length s)
  | PList l => Some (List.length l)
  | PDict d => Some (List.length d)
  | _ => None
  end.

(** [get_events].  Every exception of [requests], raised by [session.get],
    by the status checks or by [raise_for_status], leaves as a
    [RequestException]; a body that is not JSON is a [ValueError]; the
    [len(events)] of the log line is a [TypeError] on a body without a
    length; neither is caught. *)
Definition get_events (response : http_result) : attempt pyval :=
  match response with
  | Timeout => Raises RequestException
  | ConnectionError => Raises RequestException
  | OtherRequestException => Raises RequestException
  | Response status_code json =>
      if status_code =? 404 then Raises RequestException
      else if status_code =? 401 then Raises RequestException
      else if status_code =? 403 then Raises RequestException
      else if raises_for_status status_code then Raises RequestException
      else match json with
           | None => Raises (Builtin ValueError)
           | Some events =>
               match len events with
               | None => Raises (Builtin TypeError)
               | Some _ => Returns events
               end
           end
  end.

End ApiClient.

(* ================================================================== *)
(** * generate.py: the command line part of [main] *)
(* ================================================================== *)

Module Cli.

Import Datetime Calendar DateValidators Validators ApiClient.

Inductive logging_level : Type :=
| WARNING
| DEBUG
| INFO.

(** The level [setup_logging] configures. *)
Definition setup_logging (verbose quiet : bool) : logging_level :=
  if quiet then WARNING
  else if verbose then DEBUG
  else INFO.

Section WithLocale.

Variable small_year : Z -> string.

Definition calculate_end_date (start_date : pyval) : attempt string :=
  and_then (lift (strptime start_date "%Y-%m-%d")) (fun start_dt =>
  and_then (add_days start_dt 7) (fun end_dt =>
    Returns (strftime_Ymd small_year end_dt))).

(** The dates of [main]: the start date is validated; an end date that was
    given (and is not the empty string) is validated and the range checked;
    otherwise the end date is computed from the start date. *)
Definition date_range (start_date : string) (end_date : option string)
  : attempt (string * string) :=
  and_then (lift (validate_date_format (PStr start_date))) (fun _ =>
    match end_date with
    | Some given =>
        if truthy (PStr given) then
          and_then (lift (validate_date_format (PStr given))) (fun _ =>
          and_then (lift (validate_date_range (PStr start_date) (PStr given)))
            (fun _ => Returns (start_date, given)))
        else
          and_then (calculate_end_date (PStr start_date)) (fun computed =>
            Returns (start_date, computed))
    | None =>
        and_then (calculate_end_date (PStr start_date)) (fun computed =>
          Returns (start_date, computed))
    end).

End WithLocale.

(** The fetch step of [main]: [get_events], then
    [validate_api_response]. *)
Definition fetch_events (response : http_result) : attempt (list dict) :=
  and_then (get_events response) (fun events_data =>
    lift (validate_api_response events_data)).

End Cli.

Import Svg SvgGenerator Datetime Validators Generate.
Import Calendar DateValidators ApiClient Cli.

(* ================================================================== *)
(** * The vocabulary of the specification

    Occurrences in strings, event records and their present fields, the
    stack of blocks, the digest line, and the sample records the statements
    below use. *)
(* ================================================================== *)

(** [p] occurs in [s]. *)
Definition occurs (p s : string) : Prop :=
  exists pre post, s = pre ++ p ++ post.

(** [pre] is what comes before the first occurrence of [p] in [s]. *)
Definition before_first (p s pre : string) : Prop :=
  (exists post, s = pre ++ p ++ post) /\
  forall pre' post', s = pre' ++ p ++ post' ->
    (String.length pre <= String.length pre')%nat.

(** The five optional fields, in the order of the layout. *)
Definition field_order : list string :=
  ["title"; "subtitle"; "host"; "date"; "location"].

(** An optional text: a string, or nothing. *)
Definition optional_text (v : pyval) : bool :=
  match v with
  | PNone | PStr _ => true
  | _ => false
  end.

(** An event record in the sense of the data model: each of the five fields
    is a string, is null, or is missing. *)
Definition event_record (event_data : dict) : bool :=
  forallb (fun k => optional_text (get event_data k)) field_order.

(** A field is present when it is a non-empty string. *)
Definition present (v : pyval) : bool :=
  match v with
  | PStr s => negb (s =? "")%string
  | _ => false
  end.

(** The present fields of a record, in the order of the layout. *)
Definition present_fields (event_data : dict) : list string :=
  filter (fun k => present (get event_data k)) field_order.

(** The font size of a field: 72 for the title, 48 for the subtitle, 40 for
    the others. *)
Definition field_font_size (k : string) : Z :=
  if (k =? "title")%string then 72
  else if (k =? "subtitle")%string then 48
  else 40.

(** The font weight of a field: bold for the title, none for the others. *)
Definition field_font_weight (k : string) : option string :=
  if (k =? "title")%string then Some "bold" else None.

(** The text a block shows: the field, and for the date the field with its
    time removed. *)
Definition display_text (event_data : dict) (k : string) : pyval :=
  if (k =? "date")%string then
    match get event_data k with
    | PStr s => PStr (strip (cut_at_time time_patterns s))
    | v => v
    end
  else get event_data k.

(** The height a block takes: its font size times 1.2. *)
Definition block_height (k : string) : float :=
  (to_float (field_font_size k) * 1.2)%float.

(** The sum of the heights of the blocks of [ks], added up from [start]
    in the order of the blocks. *)
Definition heights_from (start : float) (ks : list string) : float :=
  fold_left (fun acc k => (acc + block_height k)%float) ks start.

(** The total height of the blocks of [ks]. *)
Definition total_height (ks : list string) : float := heights_from 0%float ks.

(** The blocks of the fields [ks], stacked from the offset [offset]. *)
Fixpoint stacked_blocks (event_data : dict) (offset : float) (ks : list string)
  : list block :=
  match ks with
  | [] => []
  | k :: ks' =>
      mkBlock (display_text event_data k) (field_font_size k)
              (field_font_weight k) TEXT_COLOUR offset
      :: stacked_blocks event_data (offset + block_height k)%float ks'
  end.

(** The attributes of the [Text] that [generate_svg] builds from a block. *)
Definition block_attrs (start_y : float) (b : block) : text_attrs :=
  {| x := content_x;
     y := (start_y + b_y_offset b)%float;
     text := b_text b;
     font_size := b_font_size b;
     font_weight := b_font_weight b;
     fill := b_fill b;
     text_anchor := Some "middle";
     dominant_baseline := None;
     text_rendering := Some "optimizeLegibility" |}.

(** The record of the specification's digest example. *)
Definition sample_event : dict :=
  [("title", PStr "Talk"); ("date", PStr "2024-12-05");
   ("location", PStr "Calgary"); ("host", PStr "Dr. X")].


(** A record whose date names its weekday first. *)
Definition tuesday_event : dict :=
  [("title", PStr "Talk"); ("date", PStr "Tuesday, December 5, 2024")].

(** [isinstance(v, list)] and [isinstance(v, dict)]. *)
Definition is_list (v : pyval) : bool :=
  match v with PList _ => true | _ => false end.

Definition is_dict (v : pyval) : bool :=
  match v with PDict _ => true | _ => false end.

(** What [date_parts] gives for a parsed date. *)
Definition parts_of_date (d : datetime) : pyval * pyval :=
  (PStr (nth (Z.to_nat (weekday d)) day_name ""),
   PStr (nth (Z.to_nat (month d)) month_name "" ++ " " ++ str_of_int (day d))).

(** The year, the month and the day collected so far. *)
Definition ymd (p : parsed) : option Z * Z * Z := (p_year p, p_month p, p_day p).

(** The text of an optional text: nothing is the empty text. *)
Definition text_of (v : pyval) : string :=
  match v with
  | PStr s => s
  | _ => ""
  end.

(** A text that is not the empty text. *)
Definition nonempty (s : string) : bool := negb (s =? "")%string.

(** A record the digest builder is meant for: the title is a string or is
    missing; the date, the location and the host are strings, null or
    missing. *)
Definition digest_record (e : dict) : bool :=
  match dict_lookup e "title" with
  | None | Some (PStr _) => true
  | Some _ => false
  end
  && optional_text (get e "date")
  && optional_text (get e "location")
  && optional_text (get e "host").

(** The day name and the formatted date of a record, from the format
    inference on its raw date. *)
Definition inferred_date (e : dict) : string * string :=
  match date_parts (get_default e "date" (PStr "")) with
  | Ok (day_name, formatted_date) => (text_of day_name, text_of formatted_date)
  | Raise _ => ("", "")
  end.

(** The line of a record as the specification words it, for the title
    text [title]. *)
Definition digest_line (title : string) (e : dict) : string :=
  let '(day_name, formatted_date) := inferred_date e in
  (if nonempty day_name && nonempty formatted_date
   then day_name ++ ", " ++ formatted_date ++ ": " ++ title
   else if nonempty formatted_date
        then formatted_date ++ ": " ++ title
        else title)
  ++ (if present (get e "location")
      then " @ " ++ text_of (get e "location") else "")
  ++ (if present (get e "host")
      then " (" ++ text_of (get e "host") ++ ")" else "").

(** The title of the line: the field, or ["Event"] when the record has no
    title key. *)
Definition title_or_default (e : dict) : string :=
  text_of (get_default e "title" (PStr "Event")).

(** A record with an empty title and a date. *)
Definition untitled_event : dict :=
  [("title", PStr ""); ("date", PStr "2024-12-05")].

(** The report of the batch loop for one event: that of its own [try]
    body, or the exception that body raised. *)
Definition report_of (path_exists : string -> result bool)
    (serialize : SVG -> result string)
    (write_text : string -> string -> result unit)
    (dry_run : bool) (index : nat) (e : dict) : report :=
  match process_event path_exists serialize write_text dry_run index e with
  | Ok r => r
  | Raise ex => Failed ex
  end.

(** A batch of two text records. *)
Definition two_events : list dict := [sample_event; tuesday_event].

(** A response whose second record has a number for its date. *)
Definition numeric_date_batch : pyval :=
  PList [PDict [("title", PStr "A")]; PDict [("date", PInt 5)]].

(** A file system that refuses to write the second graphic. *)
Definition second_write_fails (file content : string) : result unit :=
  if (file =? "event_01.svg")%string then Raise OSError else Ok tt.

(** A text of white space only. *)
Fixpoint blank (s : string) : bool :=
  match s with
  | EmptyString => true
  | String c s' => isspace c && blank s'
  end.

(** [r] is [s] trimmed of surrounding white space: [s] is [r] with nothing
    but white space before it and after it, and [r] neither begins nor ends
    with white space. *)
Definition trimmed (s r : string) : Prop :=
  (exists before after,
      s = before ++ r ++ after /\ blank before = true /\ blank after = true) /\
  (forall c rest, r = String c rest -> isspace c = false) /\
  (forall init c, r = init ++ String c "" -> isspace c = false).

(** The code points below 256 that are white space: the controls from the
    tab to the carriage return, the four separators, the space, the next
    line and the no-break space. *)
Definition white_space_codes : list nat :=
  [9; 10; 11; 12; 13; 28; 29; 30; 31; 32; 133; 160]%nat.

(** A record whose title is null, and the same record with a date. *)
Definition null_title_event : dict := [("title", PNone)].

Definition null_title_dated_event : dict :=
  [("title", PNone); ("date", PStr "2024-12-05")].

(** A logo check that answers, and one that raises. *)
Definition logo_found (p : string) : result bool := Ok true.

Definition logo_missing (p : string) : result bool := Ok false.

Definition logo_unreadable (p : string) : result bool := Raise OSError.

(** The month and the day that the last part of [_ord2ymd] finds for the
    day [n] of a year, where 0 is January 1. *)
Definition month_day (leapyear : bool) (n : Z) : Z * Z :=
  let month := Z.shiftr (n + 50) 5 in
  let preceding :=
    nth (Z.to_nat month) DAYS_BEFORE_MONTH 0
    + (if (month >? 2) && leapyear then 1 else 0) in
  let '(month, preceding) :=
    if preceding >? n
    then (month - 1,
          preceding
          - (nth (Z.to_nat (month - 1)) DAYS_IN_MONTH 0
             + (if (month - 1 =? 2) && leapyear then 1 else 0)))
    else (month, preceding) in
  (month, n - preceding + 1).

(** The month and the day found for the day [n] of a year are a date of
    that year, and the date of that day. *)
Definition month_day_ok (leapyear : bool) (n : Z) : bool :=
  let '(m, d) := month_day leapyear n in
  (1 <=? m) && (m <=? 12) && (1 <=? d)
  && (d <=? (if (m =? 2) && leapyear then 29
             else nth (Z.to_nat m) DAYS_IN_MONTH 0))
  && (nth (Z.to_nat m) DAYS_BEFORE_MONTH 0
      + (if (m >? 2) && leapyear then 1 else 0) + d =? n + 1).

(** A datetime whose fields the [date] constructor accepts. *)
Definition valid_date (dt : datetime) : bool :=
  check_date_fields (year dt) (month dt) (day dt).

(** The text [YYYY-MM-DD] of a year, a month and a day, each written with
    all its digits. *)
Definition iso_date (y m d : Z) : string :=
  four_digits y ++ "-" ++ two_digits m ++ "-" ++ two_digits d.

(** The exception that a value of the [date] field makes
    [parse_date_without_time] raise, if any. *)
Definition date_error (v : pyval) : option exn :=
  if negb (truthy v) then None
  else match v with
       | PStr _ => None
       | PList _ | PDict _ => Some AttributeError
       | _ => Some TypeError
       end.

(** A value that is a [str]. *)
Definition is_str (v : pyval) : bool :=
  match v with PStr _ => true | _ => false end.

(** The offsets of the blocks of [ks], stacked from [start]. *)
Fixpoint offsets_from (start : float) (ks : list string) : list float :=
  match ks with
  | [] => []
  | k :: ks' => start :: offsets_from (start + block_height k)%float ks'
  end.

(** The y-coordinates of the content texts of the fields [ks]. *)
Definition content_ys (ks : list string) : list float :=
  map (fun offset => (content_start_y (total_height ks) + offset)%float)
      (offsets_from 0%float ks).

(** Every element is strictly below the one after it. *)
Fixpoint increasing (l : list float) : bool :=
  match l with
  | a :: (b :: _) as rest => PrimFloat.ltb a b && increasing rest
  | _ => true
  end.

(** Every element lies between [lo] and [hi]. *)
Definition all_within (lo hi : float) (l : list float) : bool :=
  forallb (fun v => PrimFloat.leb lo v && PrimFloat.leb v hi) l.

(** The sublists of a list, each in the order of the list. *)
Fixpoint sublists {A : Type} (l : list A) : list (list A) :=
  match l with
  | [] => [[]]
  | x :: l' => (map (cons x) (sublists l') ++ sublists l')%list
  end.

(* ================================================================== *)
(** * Strings: occurrences and prefixes *)
(* ================================================================== *)

Section StringFacts.

Lemma app_assoc_s (a b c : string) : (a ++ b) ++ c = a ++ (b ++ c).
Proof. induction a as [|x a IH]; simpl; [reflexivity | now rewrite IH]. Qed.

Lemma length_app_s (a b : string) :
  String.length (a ++ b) = (String.length a + String.length b)%nat.
Proof. induction a as [|x a IH]; simpl; [reflexivity | now rewrite IH]. Qed.

Lemma startswith_app (p post : string) : startswith p (p ++ post) = true.
Proof.
  induction p as [|a p IH]; simpl; [reflexivity |].
  now rewrite Ascii.eqb_refl, IH.
Qed.

Lemma startswith_inv (p s : string) :
  startswith p s = true -> exists post, s = p ++ post.
Proof.
  revert s; induction p as [|a p IH]; intros s H.
  - exists s; reflexivity.
  - destruct s as [|b s]; simpl in H; [discriminate |].
    apply andb_true_iff in H as [Hab Hps].
    apply Ascii.eqb_eq in Hab; subst b.
    destruct (IH _ Hps) as [post ->].
    exists post; reflexivity.
Qed.

Lemma take_app (pre rest : string) : take (String.length pre) (pre ++ rest) = pre.
Proof. induction pre as [|a pre IH]; simpl; [now destruct rest | now rewrite IH]. Qed.

(** What [find] returns is the length of the shortest text before an
    occurrence. *)
Lemma find_Some (p s : string) (n : nat) :
  find p s = Some n ->
  before_first p s (take n s) /\ String.length (take n s) = n.
Proof.
  revert n; induction s as [|c s IH]; intros n H.
  - simpl in H. destruct (startswith p "") eqn:E; [|discriminate].
    injection H as <-. simpl. split; [|reflexivity].
    split; [|intros; simpl; lia].
    destruct (startswith_inv _ _ E) as [post Hpost].
    exists post. exact Hpost.
  - simpl in H. destruct (startswith p (String c s)) eqn:E.
    + injection H as <-. simpl. split; [|reflexivity].
      split; [|intros; simpl; lia].
      destruct (startswith_inv _ _ E) as [post Hpost].
      exists post. exact Hpost.
    + destruct (find p s) as [m|] eqn:F; [|discriminate].
      injection H as <-. destruct (IH m eq_refl) as [[[post Hpost] Hmin] Hlen].
      simpl. split; [|now rewrite Hlen].
      split.
      * exists post. simpl. now rewrite <- Hpost.
      * intros pre' post' Heq. destruct pre' as [|c' pre'].
        -- simpl in Heq. rewrite Heq, startswith_app in E. discriminate.
        -- simpl in Heq. injection Heq as _ Heq.
           specialize (Hmin _ _ Heq). simpl. lia.
Qed.

Lemma find_None (p s : string) : find p s = None -> ~ occurs p s.
Proof.
  induction s as [|c s IH]; intros H [pre [post Heq]].
  - simpl in H. destruct (startswith p "") eqn:E; [discriminate|].
    destruct pre; [|discriminate].
    simpl in Heq. rewrite Heq, startswith_app in E. discriminate.
  - simpl in H. destruct (startswith p (String c s)) eqn:E; [discriminate|].
    destruct (find p s) eqn:F; [discriminate|].
    destruct pre as [|c' pre].
    + simpl in Heq. rewrite Heq, startswith_app in E. discriminate.
    + simpl in Heq. injection Heq as _ Heq.
      apply IH; [reflexivity|]. exists pre, post. exact Heq.
Qed.

Lemma contains_true (p s : string) : contains p s = true -> occurs p s.
Proof.
  unfold contains. destruct (find p s) as [n|] eqn:F; [|discriminate].
  intros _. destruct (find_Some _ _ _ F) as [[[post H] _] _].
  exists (take n s), post. exact H.
Qed.

Lemma contains_false (p s : string) : contains p s = false -> ~ occurs p s.
Proof.
  unfold contains. destruct (find p s) eqn:F; [discriminate|].
  intros _. now apply find_None.
Qed.

Lemma occurs_contains (p s : string) : occurs p s -> contains p s = true.
Proof.
  intros H. destruct (contains p s) eqn:E; [reflexivity|].
  now apply contains_false in E.
Qed.

(** Two prefixes of one string that have the same length are equal. *)
Lemma prefix_same_length (a b x y : string) :
  a ++ x = b ++ y -> String.length a = String.length b -> a = b.
Proof.
  revert b; induction a as [|c a IH]; intros [|d b] Heq Hlen;
    simpl in *; try discriminate; [reflexivity|].
  injection Heq as -> Heq. f_equal. apply IH; [exact Heq | lia].
Qed.

Lemma before_first_unique (p s pre1 pre2 : string) :
  before_first p s pre1 -> before_first p s pre2 -> pre1 = pre2.
Proof.
  intros [[post1 H1] M1] [[post2 H2] M2].
  apply (prefix_same_length _ _ (p ++ post1) (p ++ post2)).
  - now rewrite <- H1, <- H2.
  - pose proof (M1 _ _ H2). pose proof (M2 _ _ H1). lia.
Qed.

(** [s.split(p)[0]] is the text before the first occurrence of [p]. *)
Lemma split_head_before_first (p s pre : string) :
  before_first p s pre -> split_head p s = pre.
Proof.
  intros H. unfold split_head.
  destruct (find p s) as [n|] eqn:F.
  - destruct (find_Some _ _ _ F) as [H' _].
    exact (before_first_unique _ _ _ _ H' H).
  - exfalso. apply (find_None _ _ F).
    destruct H as [[post H] _]. exists pre, post. exact H.
Qed.

End StringFacts.

(* ================================================================== *)
(** * White space *)
(* ================================================================== *)

Section WhiteSpace.

Lemma isspace_codes (c : ascii) :
  isspace c = true <-> In (nat_of_ascii c) white_space_codes.
Proof.
  destruct c as [[] [] [] [] [] [] [] []]; vm_compute;
    (split;
     [ first [ discriminate
             | intros _; repeat first [left; reflexivity | right] ]
     | first [ reflexivity
             | intros H; repeat (destruct H as [H|H]; [discriminate H|]);
               destruct H ] ]).
Qed.

Lemma lstrip_suffix (s : string) :
  exists a, s = a ++ lstrip s /\ blank a = true.
Proof.
  induction s as [|c s (a & IH & Ha)]; cbn; [now exists ""|].
  destruct (isspace c) eqn:E; [|now exists ""].
  exists (String c a). cbn. rewrite E, Ha. now rewrite <- IH.
Qed.

Lemma rstrip_prefix (s : string) :
  exists b, s = rstrip s ++ b /\ blank b = true.
Proof.
  induction s as [|c s (b & IH & Hb)]; cbn; [now exists ""|].
  destruct (rstrip s) as [|x r] eqn:E.
  - cbn in IH. subst b.
    destruct (isspace c) eqn:Ec; [exists (String c s) | exists s];
      cbn; rewrite ?Ec, ?Hb; split; reflexivity.
  - exists b. cbn. split; [now rewrite IH at 1 | exact Hb].
Qed.

Lemma lstrip_head (s : string) (c : ascii) (rest : string) :
  lstrip s = String c rest -> isspace c = false.
Proof.
  induction s as [|a s IH]; cbn; [discriminate|].
  destruct (isspace a) eqn:E; [exact IH|].
  intros H. injection H as <- _. exact E.
Qed.

Lemma rstrip_head (s : string) (c : ascii) (rest : string) :
  rstrip s = String c rest -> exists rest', s = String c rest'.
Proof.
  destruct s as [|a s]; cbn; [discriminate|].
  destruct (rstrip s); [destruct (isspace a); [discriminate|]|];
    intros H; injection H as <- _; now exists s.
Qed.

Lemma rstrip_last (s : string) :
  forall init c, rstrip s = init ++ String c "" -> isspace c = false.
Proof.
  induction s as [|a s IH]; intros init c; cbn.
  - destruct init; discriminate.
  - destruct (rstrip s) as [|x r] eqn:E.
    + destruct (isspace a) eqn:Ea; [destruct init; discriminate|].
      destruct init as [|i init]; cbn; intros H.
      * injection H as <-. exact Ea.
      * injection H as _ H. destruct init; discriminate H.
    + destruct init as [|i init]; cbn; intros H; [discriminate H|].
      injection H as _ H. exact (IH init c H).
Qed.

(** [strip] trims: it removes white space only, and all of it at both
    ends. *)
Lemma strip_trimmed (s : string) : trimmed s (strip s).
Proof.
  unfold trimmed, strip.
  destruct (lstrip_suffix s) as (a & Ha & Hblank_a).
  destruct (rstrip_prefix (lstrip s)) as (b & Hb & Hblank_b).
  split; [|split].
  - exists a, b. split; [|split; assumption].
    rewrite <- Hb. exact Ha.
  - intros c rest H. destruct (rstrip_head _ _ _ H) as [rest' H'].
    exact (lstrip_head _ _ _ H').
  - intros init c H. exact (rstrip_last _ _ _ H).
Qed.

End WhiteSpace.

(* ================================================================== *)
(** * Time stripping *)
(* ================================================================== *)

Section TimeStripping.

Lemma cut_at_time_first (s : string) (earlier : list string) :
  forall (p : string) (later : list string) (pre : string),
  (forall q, In q earlier -> ~ occurs q s) ->
  before_first p s pre ->
  cut_at_time (earlier ++ p :: later) s = pre.
Proof.
  induction earlier as [|q earlier IH]; intros p later pre Hnone Hp; simpl.
  - assert (occurs p s) as Ho
      by (destruct Hp as [[post H] _]; now exists pre, post).
    rewrite (occurs_contains _ _ Ho).
    now apply split_head_before_first.
  - destruct (contains q s) eqn:E.
    + exfalso. apply (Hnone q); [now left | now apply contains_true].
    + apply IH; [|exact Hp]. intros q' Hq'. apply Hnone. now right.
Qed.

Lemma cut_at_time_none (s : string) (patterns : list string) :
  (forall q, In q patterns -> ~ occurs q s) ->
  cut_at_time patterns s = s.
Proof.
  induction patterns as [|q patterns IH]; intros Hnone; simpl; [reflexivity|].
  destruct (contains q s) eqn:E.
  - exfalso. apply (Hnone q); [now left | now apply contains_true].
  - apply IH. intros q' Hq'. apply Hnone. now right.
Qed.

Lemma truthy_str (s : string) : truthy (PStr s) = negb (s =? "")%string.
Proof. reflexivity. Qed.

Lemma parse_date_without_time_str (s : string) :
  parse_date_without_time (PStr s)
  = Ok (PStr (if (s =? "")%string then s
              else strip (cut_at_time time_patterns s))).
Proof.
  unfold parse_date_without_time. rewrite truthy_str.
  now destruct (s =? "")%string.
Qed.

(** C4.  On a string, [parse_date_without_time] looks for ["T"], [" at "]
    and [" @ "] in this order; for the first of them that occurs in the
    string it returns what comes before the first occurrence of that
    pattern, trimmed of surrounding white space; when none occurs it returns
    the string trimmed; the empty string gives the empty string.  Trimmed
    means: nothing but white space is removed, and the result neither begins
    nor ends with white space; the white space characters are those of the
    listed codes.  The three examples of the specification are instances,
    and so are two texts with white space to trim. *)
Theorem parse_date_without_time_spec :
  time_patterns = ["T"; " at "; " @ "] /\
  parse_date_without_time (PStr "") = Ok (PStr "") /\
  (forall c, isspace c = true <-> In (nat_of_ascii c) white_space_codes) /\
  (forall (s : string) (earlier : list string) (p : string)
          (later : list string) (pre : string),
      time_patterns = (earlier ++ p :: later)%list ->
      (forall q, In q earlier -> ~ occurs q s) ->
      before_first p s pre ->
      exists r,
        parse_date_without_time (PStr s) = Ok (PStr r) /\
        trimmed pre r /\ r = strip pre) /\
  (forall s : string,
      (forall q, In q time_patterns -> ~ occurs q s) ->
      exists r,
        parse_date_without_time (PStr s) = Ok (PStr r) /\
        trimmed s r /\ r = strip s) /\
  parse_date_without_time (PStr "2024-12-05T18:00:00") = Ok (PStr "2024-12-05") /\
  parse_date_without_time (PStr "Jan 10 at 7pm") = Ok (PStr "Jan 10") /\
  parse_date_without_time (PStr "2024-12-05") = Ok (PStr "2024-12-05") /\
  parse_date_without_time (PStr "  Jan 10  at 7pm") = Ok (PStr "Jan 10") /\
  parse_date_without_time (PStr (" " ++ LF ++ "2024-12-05 " ++ LF))
  = Ok (PStr "2024-12-05").
Proof.
  split; [reflexivity|]. split; [reflexivity|].
  split; [exact isspace_codes|]. split; [|split].
  - intros s earlier p later pre Hpats Hnone Hp.
    exists (strip pre). split; [|split; [apply strip_trimmed | reflexivity]].
    rewrite parse_date_without_time_str, Hpats.
    rewrite (cut_at_time_first s earlier p later pre Hnone Hp).
    destruct (s =? "")%string eqn:E; [|reflexivity].
    apply String.eqb_eq in E. subst s.
    destruct Hp as [[post H] _]. destruct pre; [reflexivity | discriminate].
  - intros s Hnone.
    exists (strip s). split; [|split; [apply strip_trimmed | reflexivity]].
    rewrite parse_date_without_time_str.
    rewrite (cut_at_time_none _ _ Hnone).
    destruct (s =? "")%string eqn:E; [|reflexivity].
    apply String.eqb_eq in E. now subst s.
  - repeat split; reflexivity.
Qed.

Lemma parse_date_without_time_spec_witness :
  (forall q, In q ["T"] -> ~ occurs q "  Jan 10  at 7pm") /\
  before_first " at " "  Jan 10  at 7pm" "  Jan 10 " /\
  (exists r,
      parse_date_without_time (PStr "  Jan 10  at 7pm") = Ok (PStr r) /\
      trimmed "  Jan 10 " r /\ r = "Jan 10") /\
  (forall q, In q time_patterns -> ~ occurs q " 2024-12-05 ") /\
  (exists r,
      parse_date_without_time (PStr " 2024-12-05 ") = Ok (PStr r) /\
      trimmed " 2024-12-05 " r /\ r = "2024-12-05").
Proof.
  assert (forall q, In q ["T"] -> ~ occurs q "  Jan 10  at 7pm") as Hnone.
  { intros q [<- | []]. apply find_None. reflexivity. }
  assert (before_first " at " "  Jan 10  at 7pm" "  Jan 10 ") as Hfirst.
  { exact (proj1 (find_Some " at " "  Jan 10  at 7pm" 9 eq_refl)). }
  assert (forall q, In q time_patterns -> ~ occurs q " 2024-12-05 ") as Hplain.
  { intros q [<- | [<- | [<- | []]]]; apply find_None; reflexivity. }
  destruct parse_date_without_time_spec as (_ & _ & _ & Hcut & Hkeep & _).
  split; [exact Hnone|]. split; [exact Hfirst|].
  split; [exact (Hcut _ ["T"] " at " [" @ "] _ eq_refl Hnone Hfirst)|].
  split; [exact Hplain|].
  exact (Hkeep _ Hplain).
Defined.

End TimeStripping.

(* ================================================================== *)
(** * The layout engine *)
(* ================================================================== *)

Section Layout.

Lemma optional_text_truthy (v : pyval) :
  optional_text v = true -> truthy v = present v.
Proof. destruct v; simpl; intros H; try discriminate; reflexivity. Qed.

Lemma event_record_fields (e : dict) :
  event_record e = true ->
  optional_text (get e "title") = true /\
  optional_text (get e "subtitle") = true /\
  optional_text (get e "host") = true /\
  optional_text (get e "date") = true /\
  optional_text (get e "location") = true.
Proof.
  unfold event_record, field_order. simpl.
  rewrite !andb_true_iff. tauto.
Qed.

(** The five field sections of [generate_svg] build the stack of the
    present fields. *)
Lemma collect_content_stacked (e : dict) :
  event_record e = true ->
  collect_content e
  = Ok (stacked_blocks e 0%float (present_fields e),
        total_height (present_fields e)).
Proof.
  intros H. apply event_record_fields in H as (Ht & Hs & Hh & Hd & Hl).
  unfold collect_content, present_fields, field_order, total_height.
  cbn [filter].
  remember (get e "title") as t eqn:Et.
  remember (get e "subtitle") as s eqn:Es.
  remember (get e "host") as h eqn:Eh.
  remember (get e "date") as d eqn:Ed.
  remember (get e "location") as l eqn:El.
  destruct t as [| | | |[|? ?]| |]; try discriminate Ht;
  destruct s as [| | | |[|? ?]| |]; try discriminate Hs;
  destruct h as [| | | |[|? ?]| |]; try discriminate Hh;
  destruct d as [| | | |[|? ?]| |]; try discriminate Hd;
  destruct l as [| | | |[|? ?]| |]; try discriminate Hl;
  cbn [present negb String.eqb stacked_blocks]; unfold display_text;
  cbn [String.eqb Ascii.eqb Bool.eqb];
  rewrite <- ?Et, <- ?Es, <- ?Eh, <- ?Ed, <- ?El; reflexivity.
Qed.

Lemma stacked_font_size (e : dict) (ks : list string) :
  forall off, map b_font_size (stacked_blocks e off ks) = map field_font_size ks.
Proof. induction ks as [|k ks IH]; intros off; simpl; [|rewrite IH]; reflexivity. Qed.

Lemma stacked_font_weight (e : dict) (ks : list string) :
  forall off,
    map b_font_weight (stacked_blocks e off ks) = map field_font_weight ks.
Proof. induction ks as [|k ks IH]; intros off; simpl; [|rewrite IH]; reflexivity. Qed.

Lemma stacked_text (e : dict) (ks : list string) :
  forall off, map b_text (stacked_blocks e off ks) = map (display_text e) ks.
Proof. induction ks as [|k ks IH]; intros off; simpl; [|rewrite IH]; reflexivity. Qed.

Lemma stacked_length (e : dict) (ks : list string) :
  forall off, List.length (stacked_blocks e off ks) = List.length ks.
Proof. induction ks as [|k ks IH]; intros off; simpl; [|rewrite IH]; reflexivity. Qed.

Lemma stacked_fill (e : dict) (ks : list string) :
  forall off b, In b (stacked_blocks e off ks) -> b_fill b = TEXT_COLOUR.
Proof.
  induction ks as [|k ks IH]; intros off b; simpl; [tauto|].
  intros [<- | H]; [reflexivity | exact (IH _ _ H)].
Qed.

(** The offset of the block at position [i] is the sum of the heights of
    the blocks before it. *)
Lemma stacked_offset (e : dict) (ks : list string) :
  forall off i b,
    nth_error (stacked_blocks e off ks) i = Some b ->
    b_y_offset b = heights_from off (firstn i ks).
Proof.
  induction ks as [|k ks IH]; intros off i b H.
  - destruct i; discriminate H.
  - destruct i as [|i]; simpl in H.
    + injection H as <-. reflexivity.
    + simpl. exact (IH _ _ _ H).
Qed.

(** The logo check comes first: its exception is that of [generate_svg],
    and its answer reaches the log only. *)
Lemma generate_svg_checked (path_exists : string -> result bool) (e : dict)
    (logo_path : string) :
  snd (generate_svg path_exists e logo_path)
  = bind (path_exists logo_path)
      (fun _ => snd (generate_svg logo_found e logo_path)).
Proof.
  unfold generate_svg, logo_found.
  destruct (path_exists logo_path); reflexivity.
Qed.

(** The document of an event record, in terms of the stack of its present
    fields. *)
Lemma generate_svg_stacked (path_exists : string -> result bool) (e : dict)
    (logo_path : string) :
  event_record e = true ->
  snd (generate_svg path_exists e logo_path)
  = bind (path_exists logo_path) (fun _ =>
      Ok {| Svg.width := 1024;
            Svg.height := 1024;
            viewBox := "0 0 1024 1024";
            elements :=
              [background; logo logo_path; events_text]
              ++ map Text
                   (map (block_attrs
                           (content_start_y (total_height (present_fields e))))
                        (stacked_blocks e 0%float (present_fields e))) |}).
Proof.
  intros H. rewrite generate_svg_checked. f_equal.
  unfold generate_svg, logo_found. cbn [snd].
  rewrite (collect_content_stacked e H). cbn [bind].
  rewrite map_map. reflexivity.
Qed.

End Layout.

Section LayoutClaims.

(** C1.  For an event record, [generate_svg] returns a document whose
    elements are the background rectangle, the logo image and the header
    text, followed by one text per present field (a field that is a
    non-empty string), in the order title, subtitle, host, date, location,
    with the font sizes 72, 48, 40, 40, 40 and bold weight for the title
    only; a field that is missing, null or empty gives no text, and with no
    field present the document has the three fixed elements only.  The
    document is returned whatever the logo check answers; only when that
    check itself raises is its exception raised instead. *)
Theorem generate_svg_elements (path_exists : string -> result bool) (e : dict)
    (logo_path : string) :
  event_record e = true ->
  exists doc texts,
    snd (generate_svg path_exists e logo_path)
    = bind (path_exists logo_path) (fun _ => Ok doc) /\
    elements doc
    = ([Rect 0 0 1024 1024 "#000000";
        Image logo_path 40 40 120 120 "xMidYMid meet";
        events_text] ++ map Text texts)%list /\
    present_fields e = filter (fun k => present (get e k))
                         ["title"; "subtitle"; "host"; "date"; "location"] /\
    List.length texts = List.length (present_fields e) /\
    map font_size texts = map field_font_size (present_fields e) /\
    map font_weight texts = map field_font_weight (present_fields e) /\
    map text texts = map (display_text e) (present_fields e) /\
    map field_font_size ["title"; "subtitle"; "host"; "date"; "location"]
    = [72; 48; 40; 40; 40] /\
    map field_font_weight ["title"; "subtitle"; "host"; "date"; "location"]
    = [Some "bold"; None; None; None; None] /\
    (present_fields e = [] -> List.length (elements doc) = 3%nat).
Proof.
  intros H.
  eexists. eexists. split; [apply (generate_svg_stacked _ _ _ H)|].
  cbn [elements].
  split; [reflexivity|]. split; [reflexivity|].
  split; [now rewrite length_map, stacked_length|].
  split; [rewrite map_map; apply stacked_font_size|].
  split; [rewrite map_map; apply stacked_font_weight|].
  split; [rewrite map_map; apply stacked_text|].
  split; [reflexivity|]. split; [reflexivity|].
  intros E. rewrite E. reflexivity.
Qed.

Lemma generate_svg_elements_witness :
  event_record sample_event = true /\
  exists doc texts,
    snd (generate_svg logo_found sample_event default_logo_path) = Ok doc /\
    elements doc
    = ([Rect 0 0 1024 1024 "#000000";
        Image default_logo_path 40 40 120 120 "xMidYMid meet";
        events_text] ++ map Text texts)%list /\
    present_fields sample_event
    = filter (fun k => present (get sample_event k))
        ["title"; "subtitle"; "host"; "date"; "location"] /\
    List.length texts = List.length (present_fields sample_event) /\
    map font_size texts = map field_font_size (present_fields sample_event) /\
    map font_weight texts = map field_font_weight (present_fields sample_event) /\
    map text texts = map (display_text sample_event) (present_fields sample_event) /\
    map field_font_size ["title"; "subtitle"; "host"; "date"; "location"]
    = [72; 48; 40; 40; 40] /\
    map field_font_weight ["title"; "subtitle"; "host"; "date"; "location"]
    = [Some "bold"; None; None; None; None] /\
    (present_fields sample_event = [] -> List.length (elements doc) = 3%nat).
Proof.
  split; [reflexivity|].
  apply (generate_svg_elements logo_found sample_event default_logo_path).
  reflexivity.
Defined.

(** C2.  For an event record, the text of the block at position [i] has the
    y-coordinate [start_y + offset], where the offset is the sum of
    [font_size * 1.2] over the blocks before it, the total height is that
    sum over all the blocks, and [start_y] is [(1024 - total) / 2]; every
    block has x = 512, the anchor [middle] and the white fill.  The document
    is returned whatever the logo check answers; only when that check itself
    raises is its exception raised instead. *)
Theorem generate_svg_positions (path_exists : string -> result bool) (e : dict)
    (logo_path : string) :
  event_record e = true ->
  exists doc texts,
    snd (generate_svg path_exists e logo_path)
    = bind (path_exists logo_path) (fun _ => Ok doc) /\
    elements doc
    = ([background; logo logo_path; events_text] ++ map Text texts)%list /\
    List.length texts = List.length (present_fields e) /\
    (forall k, block_height k = (to_float (field_font_size k) * 1.2)%float) /\
    forall i t, nth_error texts i = Some t ->
      let offset := total_height (firstn i (present_fields e)) in
      let total := total_height (present_fields e) in
      let start_y := ((1024 - total) / 2)%float in
      y t = (start_y + offset)%float /\
      x t = 512%float /\
      text_anchor t = Some "middle" /\
      fill t = "#FFFFFF".
Proof.
  intros H.
  eexists. eexists. split; [apply (generate_svg_stacked _ _ _ H)|].
  cbn [elements].
  split; [reflexivity|].
  split; [now rewrite length_map, stacked_length|].
  split; [reflexivity|].
  intros i t Hi. cbv zeta.
  rewrite nth_error_map in Hi.
  destruct (nth_error (stacked_blocks e 0 (present_fields e)) i) as [b|] eqn:Hb;
    [|discriminate Hi].
  injection Hi as <-. cbn [y x text_anchor fill block_attrs].
  rewrite (stacked_offset _ _ _ _ _ Hb).
  rewrite (stacked_fill _ _ _ _ (nth_error_In _ _ Hb)).
  repeat split; reflexivity.
Qed.

Lemma generate_svg_positions_witness :
  event_record sample_event = true /\
  exists doc texts,
    snd (generate_svg logo_missing sample_event default_logo_path) = Ok doc /\
    elements doc
    = ([background; logo default_logo_path; events_text] ++ map Text texts)%list /\
    List.length texts = List.length (present_fields sample_event) /\
    (forall k, block_height k = (to_float (field_font_size k) * 1.2)%float) /\
    forall i t, nth_error texts i = Some t ->
      let offset := total_height (firstn i (present_fields sample_event)) in
      let total := total_height (present_fields sample_event) in
      let start_y := ((1024 - total) / 2)%float in
      y t = (start_y + offset)%float /\
      x t = 512%float /\
      text_anchor t = Some "middle" /\
      fill t = "#FFFFFF".
Proof.
  split; [reflexivity|].
  apply (generate_svg_positions logo_missing sample_event default_logo_path).
  reflexivity.
Defined.

(** C9, as stated, fails: the result of [generate_svg] does not depend on
    the record and the logo path alone.  On the same record and the same logo
    path it returns a document when the logo check answers, and raises
    [OSError] when the check cannot examine the path. *)
Lemma logo_check_decides_result :
  (exists doc,
      snd (generate_svg logo_found sample_event default_logo_path) = Ok doc) /\
  snd (generate_svg logo_unreadable sample_event default_logo_path)
  = Raise OSError /\
  snd (generate_svg logo_found sample_event default_logo_path)
  <> snd (generate_svg logo_unreadable sample_event default_logo_path).
Proof.
  split; [eexists; reflexivity|]. split; [reflexivity | discriminate].
Qed.

(** C9, amended.  The result of [generate_svg] is a function of the five
    fields of the record, of the logo path, and of whether the logo check
    goes through.  Two calls on records with the same five fields and the
    same logo path give the same result whenever the check answers in both,
    whatever it answers (the answer reaches the log only), and no other key
    of the record reaches the document.  When the check raises, its
    exception is the result, whatever the record. *)
Theorem generate_svg_deterministic
    (path_exists1 path_exists2 : string -> result bool)
    (e1 e2 : dict) (logo_path : string) :
  (forall k, In k field_order -> get e1 k = get e2 k) ->
  (forall found1 found2,
      path_exists1 logo_path = Ok found1 ->
      path_exists2 logo_path = Ok found2 ->
      snd (generate_svg path_exists1 e1 logo_path)
      = snd (generate_svg path_exists2 e2 logo_path)) /\
  (forall ex,
      path_exists1 logo_path = Raise ex ->
      snd (generate_svg path_exists1 e1 logo_path) = Raise ex).
Proof.
  intros H. split.
  - intros found1 found2 H1 H2.
    rewrite (generate_svg_checked path_exists1), (generate_svg_checked path_exists2).
    rewrite H1, H2. cbn [bind].
    unfold generate_svg, logo_found, collect_content. cbn [snd].
    rewrite (H "title"), (H "subtitle"), (H "host"), (H "date"), (H "location");
      [reflexivity| | | | |]; unfold field_order; simpl; tauto.
  - intros ex Hex. rewrite generate_svg_checked, Hex. reflexivity.
Qed.

Lemma generate_svg_deterministic_witness :
  snd (generate_svg logo_found sample_event default_logo_path)
  = snd (generate_svg logo_missing
           (("location", PStr "Calgary") :: ("id", PInt 7) :: sample_event)
           default_logo_path) /\
  snd (generate_svg logo_unreadable sample_event default_logo_path)
  = Raise OSError.
Proof.
  assert (forall k, In k field_order ->
            get sample_event k
            = get (("location", PStr "Calgary") :: ("id", PInt 7) :: sample_event) k)
    as Hsame.
  { intros k Hk. unfold field_order in Hk. simpl in Hk.
    destruct Hk as [<-|[<-|[<-|[<-|[<-|[]]]]]]; reflexivity. }
  split.
  - exact (proj1 (generate_svg_deterministic logo_found logo_missing
                    sample_event _ default_logo_path Hsame)
             true false eq_refl eq_refl).
  - exact (proj2 (generate_svg_deterministic logo_unreadable logo_missing
                    sample_event _ default_logo_path Hsame)
             OSError eq_refl).
Defined.




End LayoutClaims.

(* ================================================================== *)
(** * Batch validation *)
(* ================================================================== *)

Section Validation.

Lemma validate_loop_dicts (ds : list dict) :
  forall acc, validate_loop acc (map PDict ds) = Ok (acc ++ ds)%list.
Proof.
  induction ds as [|d ds IH]; intros acc; simpl.
  - now rewrite app_nil_r.
  - rewrite IH, <- app_assoc. reflexivity.
Qed.

Lemma validate_loop_not_dict (l : list pyval) :
  forall acc v, In v l -> is_dict v = false ->
    validate_loop acc l = Raise ValueError.
Proof.
  induction l as [|x l IH]; intros acc v Hin Hv; [destruct Hin|].
  simpl. destruct Hin as [-> | Hin].
  - destruct v; try reflexivity; discriminate Hv.
  - destruct x; try reflexivity. exact (IH _ v Hin Hv).
Qed.

(** C7.  A response that is not a list, or a list with an element that is
    not a dictionary, makes [validate_api_response] raise [ValueError], and
    [main] then ends with status 1 having processed no event and written no
    digest, whatever its surroundings; on a list of dictionaries
    [validate_api_response] returns the dictionaries, unchanged and in
    order. *)
Theorem validate_api_response_spec :
  (forall response, is_list response = false ->
     validate_api_response response = Raise ValueError) /\
  (forall l v, In v l -> is_dict v = false ->
     validate_api_response (PList l) = Raise ValueError) /\
  (forall str_other path_exists serialize write_text dry_run response,
     validate_api_response response = Raise ValueError ->
     main str_other path_exists serialize write_text dry_run response
     = mkOutcome [] None 1) /\
  (forall events : list dict,
     validate_api_response (PList (map PDict events)) = Ok events).
Proof.
  split; [|split; [|split]].
  - intros response H. destruct response; try reflexivity. discriminate H.
  - intros l v Hin Hv. exact (validate_loop_not_dict l [] v Hin Hv).
  - intros so pe ser wt dry response H. unfold main. now rewrite H.
  - intros events. exact (validate_loop_dicts events []).
Qed.

Lemma validate_api_response_spec_witness :
  validate_api_response (PDict [("events", PList [])]) = Raise ValueError /\
  validate_api_response (PList [PDict sample_event; PStr "x"]) = Raise ValueError /\
  main (fun _ => "") logo_found (fun _ => Ok "") (fun _ _ => Ok tt) false
       (PList [PDict sample_event; PStr "x"])
  = mkOutcome [] None 1 /\
  validate_api_response (PList (map PDict [sample_event; []]))
  = Ok [sample_event; []].
Proof.
  destruct validate_api_response_spec as (H1 & H2 & H3 & H4).
  split; [apply H1; reflexivity|].
  split; [apply (H2 _ (PStr "x")); [right; left; reflexivity | reflexivity]|].
  split; [apply H3; apply (H2 _ (PStr "x"));
          [right; left; reflexivity | reflexivity]|].
  apply H4.
Defined.

End Validation.

(* ================================================================== *)
(** * Date format inference *)
(* ================================================================== *)

Section DateInference.

(** On a string, [strptime] returns a date or raises [ValueError]. *)
Lemma strptime_str_cases (s format : string) :
  (exists d, strptime_str s format = Ok d)
  \/ strptime_str s format = Raise ValueError.
Proof.
  unfold strptime_str.
  destruct (pattern format) as [r|]; [|now right].
  destruct (rmatch r s) as [|[g rest] ?]; [now right|].
  destruct (rest =? "")%string; [|now right].
  unfold date_of_parsed.
  destruct (check_date_fields _ _ _); [left; eexists; reflexivity | now right].
Qed.

Lemma try_formats_first (s : string) (earlier : list string) :
  forall fmt later d,
    (forall f, In f earlier -> strptime (PStr s) f = Raise ValueError) ->
    strptime (PStr s) fmt = Ok d ->
    try_formats (PStr s) (earlier ++ fmt :: later) = Ok (Some d).
Proof.
  induction earlier as [|f0 earlier IH]; intros fmt later d Hfail Hok; simpl.
  - simpl in Hok. now rewrite Hok.
  - pose proof (Hfail f0 (or_introl eq_refl)) as H0. simpl in H0. rewrite H0.
    apply IH; [|exact Hok]. intros f Hf. apply Hfail. now right.
Qed.

Lemma try_formats_none (s : string) (formats : list string) :
  (forall f, In f formats -> strptime (PStr s) f = Raise ValueError) ->
  try_formats (PStr s) formats = Ok None.
Proof.
  induction formats as [|f0 formats IH]; intros Hfail; simpl; [reflexivity|].
  pose proof (Hfail f0 (or_introl eq_refl)) as H0. simpl in H0. rewrite H0.
  apply IH. intros f Hf. apply Hfail. now right.
Qed.

(** The loop over the formats ends, on a string, with the date of the first
    format that parses or with no date, and raises nothing. *)
Lemma try_formats_str (s : string) (formats : list string) :
  (exists earlier fmt later d,
      formats = (earlier ++ fmt :: later)%list /\
      (forall f, In f earlier -> strptime (PStr s) f = Raise ValueError) /\
      strptime (PStr s) fmt = Ok d /\
      try_formats (PStr s) formats = Ok (Some d))
  \/ ((forall f, In f formats -> strptime (PStr s) f = Raise ValueError) /\
      try_formats (PStr s) formats = Ok None).
Proof.
  induction formats as [|f0 formats IH].
  - right. split; [intros f []|reflexivity].
  - destruct (strptime_str_cases s f0) as [[d Hd] | Hf0].
    + left. exists [], f0, formats, d. simpl. rewrite Hd.
      repeat split. intros f [].
    + destruct IH as [(earlier & fmt & later & d & -> & Hfail & Hok & Htry)
                     | [Hfail Htry]].
      * left. exists (f0 :: earlier), fmt, later, d. simpl. rewrite Hf0.
        repeat split; [|exact Hok|exact Htry].
        intros f [<- | Hf]; [exact Hf0 | now apply Hfail].
      * right. simpl. rewrite Hf0. split; [|exact Htry].
        intros f [<- | Hf]; [exact Hf0 | now apply Hfail].
Qed.

Lemma date_parts_first (s : string) (earlier : list string) (fmt : string)
    (later : list string) (d : datetime) :
  s <> "" ->
  date_formats = (earlier ++ fmt :: later)%list ->
  (forall f, In f earlier -> strptime (PStr s) f = Raise ValueError) ->
  strptime (PStr s) fmt = Ok d ->
  date_parts (PStr s) = Ok (parts_of_date d).
Proof.
  intros Hs Hfmts Hfail Hok. unfold date_parts. rewrite truthy_str.
  apply String.eqb_neq in Hs. rewrite Hs. cbn [negb].
  rewrite Hfmts, (try_formats_first s earlier fmt later d Hfail Hok).
  reflexivity.
Qed.

Lemma date_parts_none (s : string) :
  (forall f, In f date_formats -> strptime (PStr s) f = Raise ValueError) ->
  date_parts (PStr s) = Ok (PStr "", PStr s).
Proof.
  intros Hfail. unfold date_parts. rewrite truthy_str.
  destruct (s =? "")%string eqn:E; cbn [negb].
  - apply String.eqb_eq in E. now subst s.
  - now rewrite (try_formats_none s date_formats Hfail).
Qed.

Lemma date_parts_total (s : string) :
  exists day_name formatted_date,
    date_parts (PStr s) = Ok (PStr day_name, PStr formatted_date).
Proof.
  unfold date_parts. rewrite truthy_str.
  destruct (s =? "")%string eqn:E; cbn [negb].
  - exists "", s. reflexivity.
  - destruct (try_formats_str s date_formats)
      as [(earlier & fmt & later & d & _ & _ & _ & Htry) | [_ Htry]];
      rewrite Htry; cbn [bind]; eexists; eexists; reflexivity.
Qed.

(** ** A weekday written in the input *)

Lemma set_group_ymd (p p' : parsed) (kv : ascii * string) :
  ymd p = ymd p' -> ymd (set_group p kv) = ymd (set_group p' kv).
Proof.
  destruct p as [y m d w], p' as [y' m' d' w'], kv as [k v].
  unfold ymd. cbn [p_year p_month p_day]. intros H. injection H as -> -> ->.
  unfold set_group. cbn [p_year p_month p_day p_weekday].
  repeat match goal with |- context [if ?b then _ else _] => destruct b end;
    reflexivity.
Qed.

Lemma fold_set_group_ymd (g : groupdict) :
  forall p p', ymd p = ymd p' ->
    ymd (fold_left set_group g p) = ymd (fold_left set_group g p').
Proof.
  induction g as [|kv g IH]; intros p p' H; simpl; [exact H|].
  apply IH. now apply set_group_ymd.
Qed.

Lemma date_of_parsed_ymd (p p' : parsed) :
  ymd p = ymd p' -> date_of_parsed p = date_of_parsed p'.
Proof.
  destruct p as [y m d w], p' as [y' m' d' w']. unfold ymd.
  cbn [p_year p_month p_day]. intros H. injection H as -> -> ->. reflexivity.
Qed.

(** The group of [%A] takes a weekday name and nothing else. *)
Lemma rmatch_weekday (w rest : string) :
  In w day_name -> rmatch (seqToRE f_weekday) (w ++ rest) = [([], rest)].
Proof.
  unfold day_name. simpl.
  intros [<-|[<-|[<-|[<-|[<-|[<-|[<-|[]]]]]]]]; reflexivity.
Qed.

Lemma pattern_weekday_first (format : string) :
  pattern (String "%" (String "A" format))
  = match pattern format with
    | Some k => Some (Cat (Group "A" (seqToRE f_weekday)) k)
    | None => None
    end.
Proof. reflexivity. Qed.

(** A format that begins with [%A] gives the same result whichever weekday
    the string begins with. *)
Lemma strptime_weekday_ignored (format w1 w2 rest : string) :
  In w1 day_name -> In w2 day_name ->
  strptime_str (w1 ++ rest) (String "%" (String "A" format))
  = strptime_str (w2 ++ rest) (String "%" (String "A" format)).
Proof.
  intros H1 H2. unfold strptime_str. rewrite pattern_weekday_first.
  destruct (pattern format) as [k|]; [|reflexivity].
  cbn [rmatch]. rewrite (rmatch_weekday w1 rest H1), (rmatch_weekday w2 rest H2).
  cbn [map flat_map]. rewrite !app_nil_r.
  destruct (rmatch k rest) as [|[g r] others]; [reflexivity|].
  cbn [map]. destruct (r =? "")%string; [|reflexivity].
  apply date_of_parsed_ymd. cbn [fold_left app].
  apply fold_set_group_ymd. reflexivity.
Qed.

(** The five formats without a weekday refuse a string that begins with a
    weekday name. *)
Lemma strptime_weekday_refused (w rest f : string) :
  In w day_name -> In f (firstn 5 date_formats) ->
  strptime_str (w ++ rest) f = Raise ValueError.
Proof.
  unfold day_name, date_formats. simpl.
  intros [<-|[<-|[<-|[<-|[<-|[<-|[<-|[]]]]]]]]
         [<-|[<-|[<-|[<-|[<-|[]]]]]]; reflexivity.
Qed.

Lemma try_formats_weekday_ignored (w1 w2 rest : string) :
  In w1 day_name -> In w2 day_name ->
  try_formats (PStr (w1 ++ rest)) date_formats
  = try_formats (PStr (w2 ++ rest)) date_formats.
Proof.
  intros H1 H2. unfold date_formats. cbn [try_formats strptime].
  assert (forall w f, In w day_name -> In f (firstn 5 date_formats) ->
            strptime_str (w ++ rest) f = Raise ValueError) as R
    by (intros; now apply strptime_weekday_refused).
  rewrite !(R w1 "%Y-%m-%d"), !(R w1 "%B %d, %Y"), !(R w1 "%b %d, %Y"),
    !(R w1 "%m/%d/%Y"), !(R w1 "%d/%m/%Y"),
    !(R w2 "%Y-%m-%d"), !(R w2 "%B %d, %Y"), !(R w2 "%b %d, %Y"),
    !(R w2 "%m/%d/%Y"), !(R w2 "%d/%m/%Y");
    try assumption; try (unfold date_formats; simpl; tauto).
  rewrite (strptime_weekday_ignored _ w1 w2 rest H1 H2).
  destruct (strptime_str (w2 ++ rest) "%A, %B %d, %Y") as [d|[]];
    try reflexivity.
  now rewrite (strptime_weekday_ignored _ w1 w2 rest H1 H2).
Qed.

(** C3.  For a non-empty date string, the formats are tried in the order
    [%Y-%m-%d], [%B %d, %Y], [%b %d, %Y], [%m/%d/%Y], [%d/%m/%Y],
    [%A, %B %d, %Y], [%A, %b %d, %Y], and the first that parses gives the
    date: the day name is the weekday of that date and the formatted date is
    the full month name, a space and the day number; a weekday written in the
    string does not change the date found; when no format parses, the day
    name is empty and the formatted date is the string itself; in every case
    a pair of strings is returned and nothing is raised. *)
Theorem date_inference (s : string) :
  s <> "" ->
  date_formats
  = ["%Y-%m-%d"; "%B %d, %Y"; "%b %d, %Y"; "%m/%d/%Y"; "%d/%m/%Y";
     "%A, %B %d, %Y"; "%A, %b %d, %Y"] /\
  (forall earlier fmt later d,
      date_formats = (earlier ++ fmt :: later)%list ->
      (forall f, In f earlier -> strptime (PStr s) f = Raise ValueError) ->
      strptime (PStr s) fmt = Ok d ->
      date_parts (PStr s)
      = Ok (PStr (strftime_A d),
            PStr (strftime_B d ++ " " ++ str_of_int (day d)))) /\
  (forall d, strftime_A d
             = nth (Z.to_nat ((ymd2ord (year d) (month d) (day d) + 6) mod 7))
                   day_name "") /\
  (forall w w' rest,
      s = w ++ rest -> In w day_name -> In w' day_name ->
      try_formats (PStr (w' ++ rest)) date_formats
      = try_formats (PStr s) date_formats) /\
  ((forall f, In f date_formats -> strptime (PStr s) f = Raise ValueError) ->
   date_parts (PStr s) = Ok (PStr "", PStr s)) /\
  (exists day_name formatted_date,
      date_parts (PStr s) = Ok (PStr day_name, PStr formatted_date)).
Proof.
  intros Hs. split; [reflexivity|]. split; [|split; [|split; [|split]]].
  - intros earlier fmt later d Hfmts Hfail Hok.
    exact (date_parts_first s earlier fmt later d Hs Hfmts Hfail Hok).
  - intros d. reflexivity.
  - intros w w' rest -> Hw Hw'. now apply try_formats_weekday_ignored.
  - apply date_parts_none.
  - apply date_parts_total.
Qed.

Lemma date_inference_witness :
  "Wednesday, December 5, 2024" <> "" /\
  date_parts (PStr "Wednesday, December 5, 2024")
  = Ok (PStr "Thursday", PStr "December 5") /\
  try_formats (PStr "Thursday, December 5, 2024") date_formats
  = try_formats (PStr "Wednesday, December 5, 2024") date_formats.
Proof.
  split; [discriminate|].
  destruct (date_inference "Wednesday, December 5, 2024")
    as (_ & Hfirst & _ & Hweekday & _); [discriminate|].
  split.
  - apply (Hfirst ["%Y-%m-%d"; "%B %d, %Y"; "%b %d, %Y"; "%m/%d/%Y"; "%d/%m/%Y"]
                  "%A, %B %d, %Y" ["%A, %b %d, %Y"] (mkDatetime 2024 12 5)).
    + reflexivity.
    + intros f Hf. simpl in Hf.
      destruct Hf as [<-|[<-|[<-|[<-|[<-|[]]]]]]; reflexivity.
    + reflexivity.
  - apply (Hweekday "Wednesday" "Thursday" ", December 5, 2024").
    + reflexivity.
    + simpl. tauto.
    + simpl. tauto.
Defined.

(** The examples of the specification. *)
Example date_parts_iso :
  date_parts (PStr "2024-12-05") = Ok (PStr "Thursday", PStr "December 5").
Proof. reflexivity. Qed.

Example date_parts_full_month :
  date_parts (PStr "December 5, 2024") = Ok (PStr "Thursday", PStr "December 5").
Proof. reflexivity. Qed.

Example date_parts_short_month :
  date_parts (PStr "Dec 5, 2024") = Ok (PStr "Thursday", PStr "December 5").
Proof. reflexivity. Qed.

Example date_parts_unparseable :
  date_parts (PStr "sometime next week")
  = Ok (PStr "", PStr "sometime next week").
Proof. reflexivity. Qed.

(** The month comes first when both readings of a slashed date are
    possible, and the day comes first only when the month-first reading is
    refused. *)
Example date_parts_slashes :
  date_parts (PStr "05/12/2024") = Ok (PStr "Sunday", PStr "May 12") /\
  date_parts (PStr "13/05/2024") = Ok (PStr "Monday", PStr "May 13").
Proof. split; reflexivity. Qed.

End DateInference.

(* ================================================================== *)
(** * The digest *)
(* ================================================================== *)

Section Digest.

Variable str_other : pyval -> string.

Lemma app_empty_r (s : string) : s ++ "" = s.
Proof. induction s as [|c s IH]; simpl; [reflexivity | now rewrite IH]. Qed.

Lemma event_line_title (e : dict) (title : string) :
  digest_record e = true ->
  get_default e "title" (PStr "Event") = PStr title ->
  event_line str_other e = Ok (digest_line title e).
Proof.
  unfold digest_record. rewrite !andb_true_iff.
  intros [[[_ Hd] Hl] Hh] Ht.
  unfold event_line, digest_line, inferred_date. rewrite Ht.
  unfold get, get_default in *.
  assert (exists dn fd,
             date_parts match dict_lookup e "date" with
                        | Some v => v
                        | None => PStr ""
                        end = Ok (PStr dn, fd)
             /\ optional_text fd = true) as (dn & fd & -> & Hfd).
  { destruct (dict_lookup e "date") as [[| | | |s| |]|]; try discriminate Hd.
    - exists "", PNone. split; reflexivity.
    - destruct (date_parts_total s) as (dn & fd & ->).
      exists dn, (PStr fd). split; reflexivity.
    - exists "", (PStr ""). split; reflexivity. }
  cbn [bind text_of].
  destruct fd as [| | | |fd| |]; try discriminate Hfd;
  destruct (dict_lookup e "location") as [[| | | |l| |]|]; try discriminate Hl;
  destruct (dict_lookup e "host") as [[| | | |h| |]|]; try discriminate Hh;
  unfold nonempty; cbn [truthy present text_of Py.str andb];
  repeat match goal with
         | |- context [(?x =? "")%string] =>
             is_var x; destruct (x =? "")%string
         end;
  cbn [negb andb app join_values strings_of bind join];
  simpl; rewrite ?app_empty_r; reflexivity.
Qed.

(** The line of a digest record is the line the specification words, with
    the title of the record or the default. *)
Lemma event_line_digest (e : dict) :
  digest_record e = true ->
  event_line str_other e = Ok (digest_line (title_or_default e) e).
Proof.
  intros H. apply event_line_title; [exact H|].
  unfold digest_record in H. unfold title_or_default, get_default.
  destruct (dict_lookup e "title") as [[| | | |t| |]|];
    try discriminate H; reflexivity.
Qed.

Lemma content_loop_digest (events : list dict) :
  Forall (fun e => digest_record e = true) events ->
  forall lines,
    content_loop str_other lines events
    = Ok (lines ++ map (fun e => digest_line (title_or_default e) e) events)%list.
Proof.
  induction 1 as [|e events He _ IH]; intros lines; simpl.
  - now rewrite app_nil_r.
  - rewrite (event_line_digest e He). cbn [bind].
    rewrite IH, <- app_assoc. reflexivity.
Qed.

End Digest.

Section DigestClaims.

(** C5.  The code at the failing input.  A record whose title is null is an
    event record, and [generate_svg] treats the null title as not present: the
    document has the three fixed elements only.  The digest builder does not:
    with a date the line prints [None] for the title, and without one the
    title itself is the only part of the line, [join] raises [TypeError] on
    it, the builder raises, and [main] ends with status 1 and no digest after
    both graphics were created.  A null location, host or date is treated as
    not present in the same line. *)
Theorem null_title_loses_digest (str_other : pyval -> string) :
  event_record null_title_event = true /\
  event_record null_title_dated_event = true /\
  event_line str_other null_title_event = Raise TypeError /\
  generate_content_txt str_other [sample_event; null_title_event]
  = Raise TypeError /\
  main str_other logo_found (fun _ => Ok "<svg/>") (fun _ _ => Ok tt) false
       (PList [PDict sample_event; PDict null_title_event])
  = mkOutcome [Created "event_00.svg" "<svg/>"; Created "event_01.svg" "<svg/>"]
              None 1 /\
  event_line str_other null_title_dated_event
  = Ok "Thursday, December 5: None" /\
  event_line str_other
    [("title", PStr "Talk"); ("date", PNone); ("location", PNone);
     ("host", PNone)]
  = Ok "Talk" /\
  exists doc,
    snd (generate_svg logo_found null_title_event default_logo_path) = Ok doc /\
    elements doc = [background; logo default_logo_path; events_text].
Proof.
  repeat split; try reflexivity. eexists. split; reflexivity.
Qed.

(** X19.  For a sequence of digest records, the digest is the lines of the
    events in input order, each as the specification words it: the day name,
    a comma, the formatted date, a colon and the title when both date parts
    are non-empty; the formatted date, a colon and the title when only the
    formatted date is; else the title; then [" @ "] and the location when
    the location is present, and the host in parentheses when the host is
    present.  The lines are followed by an empty line, the attribution line,
    an empty line and the hashtag line, and all are joined with line feeds.
    The record of the specification's example gives its line. *)
Theorem generate_content_txt_spec (str_other : pyval -> string)
    (events : list dict) :
  Forall (fun e => digest_record e = true) events ->
  generate_content_txt str_other events
  = Ok (join LF
          (map (fun e => digest_line (title_or_default e) e) events
           ++ [""; "For more information: see https://albertapaleo.org/events/calendar";
               ""; "#palaeontology #paleontology #fossils #dinosaurs #events"])%list) /\
  sample_event
  = [("title", PStr "Talk"); ("date", PStr "2024-12-05");
     ("location", PStr "Calgary"); ("host", PStr "Dr. X")] /\
  event_line str_other sample_event
  = Ok "Thursday, December 5: Talk @ Calgary (Dr. X)".
Proof.
  intros H. split; [|split; reflexivity].
  unfold generate_content_txt.
  rewrite (content_loop_digest str_other events H []). reflexivity.
Qed.

Lemma generate_content_txt_spec_witness :
  Forall (fun e => digest_record e = true) [sample_event; []] /\
  generate_content_txt (fun _ => "") [sample_event; []]
  = Ok (join LF
          ["Thursday, December 5: Talk @ Calgary (Dr. X)"; "Event"; "";
           "For more information: see https://albertapaleo.org/events/calendar";
           ""; "#palaeontology #paleontology #fossils #dinosaurs #events"]).
Proof.
  assert (Forall (fun e => digest_record e = true) [sample_event; []]) as H
    by (repeat constructor).
  split; [exact H|].
  exact (proj1 (generate_content_txt_spec (fun _ => "") [sample_event; []] H)).
Defined.

(** C8.  The code at the failing input.  A title that is the empty string is
    not replaced by ["Event"]: the line keeps the empty title, while a record
    without a title key gets ["Event"].  The same line treats an empty
    location and an empty host as not present, and [generate_svg] treats the
    empty title as not present: the document of the record has the date
    block only. *)
Theorem empty_title_not_defaulted :
  digest_record untitled_event = true /\
  dict_lookup untitled_event "title" = Some (PStr "") /\
  digest_line "Event" untitled_event = "Thursday, December 5: Event" /\
  event_line (fun _ => "") untitled_event = Ok "Thursday, December 5: " /\
  event_line (fun _ => "") untitled_event
  <> Ok (digest_line "Event" untitled_event) /\
  event_line (fun _ => "") [("date", PStr "2024-12-05")]
  = Ok "Thursday, December 5: Event" /\
  event_line (fun _ => "")
    (("location", PStr "") :: ("host", PStr "") :: untitled_event)
  = Ok "Thursday, December 5: " /\
  exists doc t,
    snd (generate_svg logo_found untitled_event default_logo_path) = Ok doc /\
    elements doc
    = [background; logo default_logo_path; events_text; Text t] /\
    text t = PStr "2024-12-05".
Proof.
  repeat split; try reflexivity; try discriminate.
  eexists. eexists. repeat split; reflexivity.
Qed.

End DigestClaims.

(* ================================================================== *)
(** * The batch *)
(* ================================================================== *)

Section Batch.

Variable str_other : pyval -> string.
Variable path_exists : string -> result bool.
Variable serialize : SVG -> result string.
Variable write_text : string -> string -> result unit.

Lemma batch_loop_length (dry_run : bool) (events : list dict) :
  forall index,
    List.length (batch_loop path_exists serialize write_text dry_run index events)
    = List.length events.
Proof.
  induction events as [|e events IH]; intros index; simpl;
    [reflexivity | now rewrite IH].
Qed.

Lemma batch_loop_nth (dry_run : bool) (events : list dict) :
  forall index j e,
    nth_error events j = Some e ->
    nth_error (batch_loop path_exists serialize write_text dry_run index events) j
    = Some (report_of path_exists serialize write_text dry_run (index + j) e).
Proof.
  induction events as [|e0 events IH]; intros index j e H.
  - destruct j; discriminate H.
  - destruct j as [|j]; simpl in H |- *.
    + injection H as <-. now rewrite Nat.add_0_r.
    + rewrite (IH (S index) j e H). now rewrite Nat.add_succ_r.
Qed.

(** [generate_svg] raises on a date that is truthy and is not a string,
    whatever the logo check does. *)
Lemma generate_svg_raises (e : dict) (logo_path : string) :
  truthy (get e "date") = true -> is_str (get e "date") = false ->
  exists ex, snd (generate_svg path_exists e logo_path) = Raise ex.
Proof.
  intros Ht Hs. rewrite generate_svg_checked.
  destruct (path_exists logo_path) as [found|ex]; [|now exists ex].
  cbn [bind]. unfold generate_svg, logo_found, collect_content. cbn [snd].
  destruct (truthy (get e "title")), (truthy (get e "subtitle")),
    (truthy (get e "host")), (truthy (get e "location"));
    rewrite Ht; unfold parse_date_without_time; rewrite Ht; cbn [negb];
    destruct (get e "date"); try discriminate Hs; cbn [bind];
    eexists; reflexivity.
Qed.

(** On such a date the digest builder raises too: [strptime] refuses an
    argument that is not a string with a [TypeError], which the loop over
    the formats does not catch. *)
Lemma event_line_raises (e : dict) :
  truthy (get e "date") = true -> is_str (get e "date") = false ->
  event_line str_other e = Raise TypeError.
Proof.
  unfold event_line, get, get_default.
  destruct (dict_lookup e "date") as [v|]; [|discriminate].
  intros Ht Hs. unfold date_parts. rewrite Ht.
  destruct v; try reflexivity. discriminate Hs.
Qed.

Lemma content_loop_raises (events : list dict) (e : dict) (ex : exn) :
  In e events -> event_line str_other e = Raise ex ->
  forall lines, exists ex', content_loop str_other lines events = Raise ex'.
Proof.
  induction events as [|e0 events IH]; intros Hin Hex lines; [destruct Hin|].
  simpl. destruct Hin as [-> | Hin].
  - rewrite Hex. now exists ex.
  - destruct (event_line str_other e0) as [line|ex0]; cbn [bind].
    + exact (IH Hin Hex _).
    + now exists ex0.
Qed.

(** [main] on a valid response with at least one event: the loop, then the
    digest. *)
Lemma main_valid (dry_run : bool) (e0 : dict) (events : list dict) :
  main str_other path_exists serialize write_text dry_run
       (PList (map PDict (e0 :: events)))
  = let reports :=
      batch_loop path_exists serialize write_text dry_run 0 (e0 :: events) in
    match generate_content_txt str_other (e0 :: events) with
    | Raise _ => mkOutcome reports None 1
    | Ok text =>
        if dry_run then mkOutcome reports (Some text) 0
        else match write_text "content.txt" text with
             | Ok _ => mkOutcome reports (Some text) 0
             | Raise _ => mkOutcome reports None 1
             end
    end.
Proof.
  unfold main, validate_api_response.
  rewrite (validate_loop_dicts (e0 :: events) []). reflexivity.
Qed.

Lemma main_reports (dry_run : bool) (events : list dict) :
  events <> [] ->
  reports (main str_other path_exists serialize write_text dry_run
                (PList (map PDict events)))
  = batch_loop path_exists serialize write_text dry_run 0 events.
Proof.
  intros Hne. destruct events as [|e0 events]; [now destruct Hne|].
  rewrite main_valid. cbv zeta.
  destruct (generate_content_txt str_other (e0 :: events)) as [text|];
    [|reflexivity].
  destruct dry_run; [reflexivity|].
  destruct (write_text "content.txt" text); reflexivity.
Qed.

End Batch.

Section BatchClaims.

(** C6.  The code at the failing input.  When the second record has a
    number for its date, [generate_svg] raises on it, the loop reports the
    failure and the first graphic is written, but the digest builder, which
    runs on the same records outside the loop, raises on that record too, and
    [main] ends with status 1 without a digest.  The loop over the formats
    catches the [ValueError] of a text that is no date, so the same batch
    with the text ["5"] for the date has its digest; it does not catch the
    [TypeError] of a date that is not a text. *)
Theorem numeric_date_loses_digest :
  snd (generate_svg logo_found [("date", PInt 5)] default_logo_path)
  = Raise TypeError /\
  validate_api_response numeric_date_batch
  = Ok [[("title", PStr "A")]; [("date", PInt 5)]] /\
  generate_content_txt (fun _ => "") [[("title", PStr "A")]; [("date", PInt 5)]]
  = Raise TypeError /\
  main (fun _ => "") logo_found (fun _ => Ok "<svg/>") (fun _ _ => Ok tt)
       false numeric_date_batch
  = mkOutcome [Created "event_00.svg" "<svg/>"; Failed TypeError] None 1 /\
  generate_content_txt (fun _ => "") [[("title", PStr "A")]; [("date", PStr "5")]]
  = Ok (join LF (["A"; "5: Event"] ++ footer)%list).
Proof. repeat split; reflexivity. Qed.

(** X20.  In a batch, each event gets the report of its own processing: an
    exception raised while one event is processed (by the logo check, the
    layout, the serializer or the write) is caught by the loop and becomes
    the report of that event, and every other event is processed as it would
    be alone.  The digest is built from all the records after the loop: for
    a batch of digest records it has one line per event, whatever the loop
    reported, and it is the content written.  A record whose date is truthy
    and is not a string fails its own graphic and makes the digest builder
    raise on the batch: [main] then ends with status 1 and no digest. *)
Theorem batch_isolation (str_other : pyval -> string)
    (path_exists : string -> result bool) (serialize : SVG -> result string)
    (write_text : string -> string -> result unit) (dry_run : bool)
    (events : list dict) :
  events <> [] ->
  let out := main str_other path_exists serialize write_text dry_run
                  (PList (map PDict events)) in
  List.length (reports out) = List.length events /\
  (forall j e, nth_error events j = Some e ->
     nth_error (reports out) j
     = Some (report_of path_exists serialize write_text dry_run j e)) /\
  (Forall (fun e => digest_record e = true) events ->
   let text := join LF (map (fun e => digest_line (title_or_default e) e) events
                        ++ footer)%list in
   generate_content_txt str_other events = Ok text /\
   (dry_run = true \/ write_text "content.txt" text = Ok tt ->
    content_txt out = Some text /\ exit_status out = 0)) /\
  (forall j e, nth_error events j = Some e ->
     truthy (get e "date") = true -> is_str (get e "date") = false ->
     (exists ex, nth_error (reports out) j = Some (Failed ex)) /\
     (exists ex', generate_content_txt str_other events = Raise ex') /\
     content_txt out = None /\ exit_status out = 1).
Proof.
  intros Hne. cbv zeta.
  rewrite (main_reports str_other path_exists serialize write_text dry_run
             events Hne).
  split; [apply batch_loop_length|]. split; [|split].
  - intros j e Hj.
    exact (batch_loop_nth path_exists serialize write_text dry_run events 0 j e Hj).
  - intros Hrec.
    assert (generate_content_txt str_other events
            = Ok (join LF
                    (map (fun e => digest_line (title_or_default e) e) events
                     ++ footer)%list)) as Htext.
    { unfold generate_content_txt.
      now rewrite (content_loop_digest str_other events Hrec []). }
    split; [exact Htext|].
    destruct events as [|e0 events']; [now destruct Hne|].
    rewrite main_valid, Htext. cbv zeta.
    intros [-> | Hw]; [split; reflexivity|].
    destruct dry_run; [split; reflexivity|]. rewrite Hw. split; reflexivity.
  - intros j e Hj Ht Hs. split.
    + rewrite (batch_loop_nth path_exists serialize write_text dry_run
                 events 0 j e Hj).
      destruct (generate_svg_raises path_exists e default_logo_path Ht Hs)
        as [ex Hex].
      exists ex. unfold report_of, process_event. rewrite Hex. reflexivity.
    + pose proof (event_line_raises str_other e Ht Hs) as Hline.
      destruct (content_loop_raises str_other events e _
                  (nth_error_In _ _ Hj) Hline []) as [ex' Hloop].
      assert (generate_content_txt str_other events = Raise ex') as Hgen
        by (unfold generate_content_txt; now rewrite Hloop).
      split; [now exists ex'|].
      destruct events as [|e0 events']; [now destruct Hne|].
      rewrite main_valid, Hgen. split; reflexivity.
Qed.

Lemma batch_isolation_witness :
  two_events <> [] /\
  (let out := main (fun _ => "") logo_unreadable (fun _ => Ok "<svg/>")
                   (fun _ _ => Ok tt) false (PList (map PDict two_events)) in
   nth_error (reports out) 0 = Some (Failed OSError) /\
   nth_error (reports out) 1 = Some (Failed OSError) /\
   content_txt out
   = Some (join LF ["Thursday, December 5: Talk @ Calgary (Dr. X)";
                    "Thursday, December 5: Talk"; "";
                    "For more information: see https://albertapaleo.org/events/calendar";
                    ""; "#palaeontology #paleontology #fossils #dinosaurs #events"])) /\
  (let out := main (fun _ => "") logo_found (fun _ => Ok "<svg/>")
                   second_write_fails false (PList (map PDict two_events)) in
   nth_error (reports out) 0 = Some (Created "event_00.svg" "<svg/>") /\
   nth_error (reports out) 1 = Some (Failed OSError) /\
   exit_status out = 0).
Proof.
  assert (two_events <> []) as Hne by discriminate.
  assert (Forall (fun e => digest_record e = true) two_events) as Hrec
    by (repeat constructor).
  split; [exact Hne|]. split.
  - destruct (batch_isolation (fun _ => "") logo_unreadable (fun _ => Ok "<svg/>")
                (fun _ _ => Ok tt) false two_events Hne)
      as (_ & Hnth & Hdigest & _).
    split; [exact (Hnth 0%nat sample_event eq_refl)|].
    split; [exact (Hnth 1%nat tuesday_event eq_refl)|].
    destruct (Hdigest Hrec) as [_ Hout].
    exact (proj1 (Hout (or_intror eq_refl))).
  - destruct (batch_isolation (fun _ => "") logo_found (fun _ => Ok "<svg/>")
                second_write_fails false two_events Hne)
      as (_ & Hnth & Hdigest & _).
    split; [exact (Hnth 0%nat sample_event eq_refl)|].
    split; [exact (Hnth 1%nat tuesday_event eq_refl)|].
    destruct (Hdigest Hrec) as [_ Hout].
    exact (proj2 (Hout (or_intror eq_refl))).
Defined.

End BatchClaims.

(* ================================================================== *)
(** * The proleptic Gregorian calendar *)
(* ================================================================== *)

Section CalendarFacts.

Ltac zbool :=
  repeat match goal with
         | |- context [?a =? ?b] => destruct (Z.eqb_spec a b)
         | H : context [?a =? ?b] |- _ => destruct (Z.eqb_spec a b)
         end; cbn [andb orb negb] in *.

Lemma month_day_checked :
  forallb (fun n => month_day_ok true (Z.of_nat n) && month_day_ok false (Z.of_nat n))
          (seq 0 365) = true.
Proof. vm_compute. reflexivity. Qed.

Lemma month_day_spec (leapyear : bool) (n : Z) :
  0 <= n <= 364 -> month_day_ok leapyear n = true.
Proof.
  intros Hn. pose proof month_day_checked as H.
  rewrite forallb_forall in H.
  specialize (H (Z.to_nat n)).
  rewrite Z2Nat.id in H by lia.
  assert (In (Z.to_nat n) (seq 0 365)) as Hin by (apply in_seq; lia).
  apply H in Hin. apply andb_true_iff in Hin as [Ht Hf].
  now destruct leapyear.
Qed.

Lemma is_leap_of_parts (a b c e : Z) :
  0 <= a -> 0 <= b <= 3 -> 0 <= c <= 24 -> 0 <= e <= 3 ->
  is_leap (400 * a + 100 * b + 4 * c + e + 1)
  = (e =? 3) && (negb (c =? 24) || (b =? 3)).
Proof.
  intros. unfold is_leap.
  zbool; try reflexivity; exfalso; Z.div_mod_to_equations; lia.
Qed.

Lemma days_before_year_of_parts (a b c e : Z) :
  0 <= a -> 0 <= b <= 3 -> 0 <= c <= 24 -> 0 <= e <= 3 ->
  days_before_year (400 * a + 100 * b + 4 * c + e + 1)
  = 146097 * a + 36524 * b + 1461 * c + 365 * e.
Proof.
  intros. unfold days_before_year. cbv zeta.
  Z.div_mod_to_equations; lia.
Qed.

Lemma ord2ymd_month_day (n : Z) :
  let n0 := n - 1 in
  let a := n0 / 146097 in
  let r1 := n0 mod 146097 in
  let b := r1 / 36524 in
  let r2 := r1 mod 36524 in
  let c := r2 / 1461 in
  let r3 := r2 mod 1461 in
  let e := r3 / 365 in
  let r4 := r3 mod 365 in
  let y := a * 400 + 1 + b * 100 + c * 4 + e in
  ord2ymd n
  = if (e =? 4) || (b =? 4) then (y - 1, 12, 31)
    else let leapyear := (e =? 3) && (negb (c =? 24) || (b =? 3)) in
         (y, fst (month_day leapyear r4), snd (month_day leapyear r4)).
Proof.
  cbv zeta. unfold ord2ymd, month_day, DI400Y, DI100Y, DI4Y. cbv zeta.
  destruct ((_ =? 4) || (_ =? 4)); [reflexivity|].
  destruct (_ >? _); reflexivity.
Qed.

(** [_ord2ymd] gives a date the [date] constructor accepts, and the date
    whose ordinal is [n]. *)
Lemma ord2ymd_spec (n : Z) :
  1 <= n <= MAXORDINAL ->
  exists y m d,
    ord2ymd n = (y, m, d) /\
    check_date_fields y m d = true /\
    ymd2ord y m d = n.
Proof.
  intros Hn. unfold MAXORDINAL in Hn.
  rewrite ord2ymd_month_day. cbv zeta.
  pose proof (Z.div_mod (n - 1) 146097 ltac:(lia)) as E1.
  pose proof (Z.mod_pos_bound (n - 1) 146097 ltac:(lia)) as B1.
  remember ((n - 1) / 146097) as a eqn:Ea.
  remember ((n - 1) mod 146097) as r1 eqn:Er1.
  pose proof (Z.div_mod r1 36524 ltac:(lia)) as E2.
  pose proof (Z.mod_pos_bound r1 36524 ltac:(lia)) as B2.
  remember (r1 / 36524) as b eqn:Eb.
  remember (r1 mod 36524) as r2 eqn:Er2.
  pose proof (Z.div_mod r2 1461 ltac:(lia)) as E3.
  pose proof (Z.mod_pos_bound r2 1461 ltac:(lia)) as B3.
  remember (r2 / 1461) as c eqn:Ec.
  remember (r2 mod 1461) as r3 eqn:Er3.
  pose proof (Z.div_mod r3 365 ltac:(lia)) as E4.
  pose proof (Z.mod_pos_bound r3 365 ltac:(lia)) as B4.
  remember (r3 / 365) as e eqn:Ee.
  remember (r3 mod 365) as r4 eqn:Er4.
  clear Ea Er1 Eb Er2 Ec Er3 Ee Er4.
  assert (0 <= a <= 24) as Ha by lia.
  assert (0 <= b <= 4) as Hb by lia.
  assert (0 <= c <= 24) as Hc by lia.
  assert (0 <= e <= 4) as He by lia.
  destruct ((e =? 4) || (b =? 4)) eqn:Hsp.
  - eexists; eexists; eexists. split; [reflexivity|].
    apply orb_true_iff in Hsp.
    unfold check_date_fields, ymd2ord, MINYEAR, MAXYEAR.
    change (days_in_month ?y 12) with 31.
    change (days_before_month ?y 12)
      with (334 + (if is_leap y then 1 else 0)).
    unfold days_before_year, is_leap. cbv zeta.
    destruct Hsp as [H4 | H4]; apply Z.eqb_eq in H4; subst;
      (split;
       [repeat (apply andb_true_iff; split); apply Z.leb_le; lia
       | zbool; Z.div_mod_to_equations; lia]).
  - apply orb_false_iff in Hsp as [He4 Hb4].
    apply Z.eqb_neq in He4, Hb4.
    pose proof (month_day_spec ((e =? 3) && (negb (c =? 24) || (b =? 3))) r4
                  ltac:(lia)) as Hmd.
    unfold month_day_ok in Hmd.
    destruct (month_day ((e =? 3) && (negb (c =? 24) || (b =? 3))) r4)
      as [m d] eqn:Emd.
    cbn [fst snd]. eexists; eexists; eexists. split; [reflexivity|].
    replace (a * 400 + 1 + b * 100 + c * 4 + e)
      with (400 * a + 100 * b + 4 * c + e + 1) by lia.
    unfold check_date_fields, ymd2ord, days_before_month, days_in_month.
    rewrite (is_leap_of_parts a b c e) by lia.
    rewrite (days_before_year_of_parts a b c e) by lia.
    unfold MINYEAR, MAXYEAR.
    rewrite !andb_true_iff in Hmd.
    destruct Hmd as [[[[Hm1 Hm2] Hd1] Hd2] Hsum].
    rewrite Hm1, Hm2, Hd1, Hd2. cbn [andb].
    apply Z.eqb_eq in Hsum.
    split; [|lia].
    rewrite !andb_true_r. apply andb_true_iff. split; apply Z.leb_le; lia.
Qed.

Lemma check_date_fields_inv (y m d : Z) :
  check_date_fields y m d = true ->
  1 <= y <= 9999 /\ 1 <= m <= 12 /\ 1 <= d <= days_in_month y m.
Proof.
  unfold check_date_fields, MINYEAR, MAXYEAR.
  rewrite !andb_true_iff, !Z.leb_le. tauto.
Qed.

Ltac table :=
  repeat match goal with
         | |- context [nth (Z.to_nat ?k) ?l 0] =>
             let v := eval vm_compute in (nth (Z.to_nat k) l 0) in
             change (nth (Z.to_nat k) l 0) with v
         | H : context [nth (Z.to_nat ?k) ?l 0] |- _ =>
             let v := eval vm_compute in (nth (Z.to_nat k) l 0) in
             change (nth (Z.to_nat k) l 0) with v in H
         end.

Ltac calc :=
  cbn [andb orb negb Z.eqb Z.gtb Z.ltb Z.leb Z.compare Pos.eqb Pos.compare
       Pos.compare_cont] in *.

Ltac enum_month m H :=
  let E := fresh "E" in
  assert (m = 1 \/ m = 2 \/ m = 3 \/ m = 4 \/ m = 5 \/ m = 6 \/ m = 7
          \/ m = 8 \/ m = 9 \/ m = 10 \/ m = 11 \/ m = 12) as E by lia;
  clear H;
  destruct E as [E|[E|[E|[E|[E|[E|[E|[E|[E|[E|[E|E]]]]]]]]]]]; subst m.

(** The day of the year of a date is between 1 and the length of the
    year. *)
Lemma day_of_year_bounds (y m d : Z) :
  check_date_fields y m d = true ->
  1 <= days_before_month y m + d <= 365 + (if is_leap y then 1 else 0).
Proof.
  intros H. apply check_date_fields_inv in H as (_ & Hm & Hd).
  unfold days_before_month, days_in_month in *.
  enum_month m Hm; table; calc; destruct (is_leap y); calc; lia.
Qed.

Lemma days_before_year_succ (y : Z) :
  1 <= y ->
  days_before_year (y + 1)
  = days_before_year y + 365 + (if is_leap y then 1 else 0).
Proof.
  intros Hy. unfold days_before_year, is_leap. cbv zeta.
  replace (y + 1 - 1) with y by lia.
  zbool; Z.div_mod_to_equations; lia.
Qed.

Lemma days_before_year_mono (y y' : Z) :
  1 <= y <= y' -> days_before_year y <= days_before_year y'.
Proof.
  intros H. unfold days_before_year. cbv zeta. Z.div_mod_to_equations; lia.
Qed.

Lemma toordinal_year_lt (a b : datetime) :
  valid_date a = true -> valid_date b = true ->
  year a < year b -> toordinal a < toordinal b.
Proof.
  unfold valid_date, toordinal, ymd2ord. intros Ha Hb Hlt.
  pose proof (day_of_year_bounds _ _ _ Ha) as Da.
  pose proof (day_of_year_bounds _ _ _ Hb) as Db.
  apply check_date_fields_inv in Ha as (Hya & _).
  pose proof (days_before_year_succ (year a) ltac:(lia)) as Hs.
  pose proof (days_before_year_mono (year a + 1) (year b) ltac:(lia)) as Hmono.
  lia.
Qed.

Lemma toordinal_month_lt (y m d m' d' : Z) :
  check_date_fields y m d = true -> check_date_fields y m' d' = true ->
  m < m' -> ymd2ord y m d < ymd2ord y m' d'.
Proof.
  intros H H' Hlt.
  apply check_date_fields_inv in H as (_ & Hm & Hd).
  apply check_date_fields_inv in H' as (_ & Hm' & Hd').
  unfold ymd2ord, days_before_month, days_in_month in *.
  enum_month m Hm; enum_month m' Hm'; try lia;
    table; calc; destruct (is_leap y); calc; lia.
Qed.

(** Dates are ordered as their ordinals are. *)
Lemma datetime_cmp_toordinal (a b : datetime) :
  valid_date a = true -> valid_date b = true ->
  datetime_cmp a b = (toordinal a ?= toordinal b).
Proof.
  intros Ha Hb. unfold datetime_cmp.
  destruct (Z.compare_spec (year a) (year b)) as [Ey | Hy | Hy].
  - destruct a as [ya ma da], b as [yb mb db]. cbn [year month day] in *.
    subst yb. unfold valid_date in *. cbn [year month day] in *.
    destruct (Z.compare_spec ma mb) as [Em | Hm | Hm].
    + subst mb. unfold toordinal, ymd2ord. cbn [year month day].
      destruct (Z.compare_spec da db);
        symmetry; [apply Z.compare_eq_iff | apply Z.compare_lt_iff
                  | apply Z.compare_gt_iff]; lia.
    + symmetry. apply Z.compare_lt_iff. unfold toordinal. cbn [year month day].
      now apply toordinal_month_lt.
    + symmetry. apply Z.compare_gt_iff. unfold toordinal. cbn [year month day].
      now apply toordinal_month_lt.
  - symmetry. apply Z.compare_lt_iff. now apply toordinal_year_lt.
  - symmetry. apply Z.compare_gt_iff. now apply toordinal_year_lt.
Qed.

Lemma datetime_gt_toordinal (a b : datetime) :
  valid_date a = true -> valid_date b = true ->
  datetime_gt a b = (toordinal b <? toordinal a).
Proof.
  intros Ha Hb. unfold datetime_gt. rewrite (datetime_cmp_toordinal a b Ha Hb).
  rewrite Z.ltb_compare, (Z.compare_antisym (toordinal a) (toordinal b)).
  now destruct (toordinal a ?= toordinal b).
Qed.

End CalendarFacts.

(* ================================================================== *)
(** * Dates written with all their digits *)
(* ================================================================== *)

Section CanonicalDates.

Lemma in_range (x : Z) (lo len : nat) :
  Z.of_nat lo <= x < Z.of_nat lo + Z.of_nat len ->
  In x (map Z.of_nat (seq lo len)).
Proof.
  intros H. replace x with (Z.of_nat (Z.to_nat x)) by lia.
  apply in_map, in_seq. lia.
Qed.

Ltac enum x lo len :=
  let H := fresh "H" in
  assert (In x (map Z.of_nat (seq lo len))) as H by (apply in_range; lia);
  cbn in H;
  repeat (destruct H as [<- | H]); [.. | destruct H].

Lemma digit_facts (k : Z) :
  0 <= k <= 9 ->
  isspace (digit k) = false /\
  digit_value (digit k) = k /\
  forall rest, rmatch Digit (String (digit k) rest) = [([], rest)].
Proof.
  intros H. enum k 0%nat 10%nat; repeat split; reflexivity.
Qed.

Lemma rmatch_cat_single (r1 r2 : regex) (s s1 : string) (g1 : groupdict) :
  rmatch r1 s = [(g1, s1)] ->
  rmatch (Cat r1 r2) s
  = map (fun '(g2, s2) => ((g1 ++ g2)%list, s2)) (rmatch r2 s1).
Proof. intros H. cbn [rmatch]. rewrite H. cbn [flat_map]. apply app_nil_r. Qed.

Lemma rmatch_year (k1 k2 k3 k4 : Z) (rest : string) :
  0 <= k1 <= 9 -> 0 <= k2 <= 9 -> 0 <= k3 <= 9 -> 0 <= k4 <= 9 ->
  rmatch re_Y
    (String (digit k1) (String (digit k2) (String (digit k3)
       (String (digit k4) rest))))
  = [([], rest)].
Proof.
  intros H1 H2 H3 H4.
  destruct (digit_facts k1 H1) as (_ & _ & D1).
  destruct (digit_facts k2 H2) as (_ & _ & D2).
  destruct (digit_facts k3 H3) as (_ & _ & D3).
  destruct (digit_facts k4 H4) as (_ & _ & D4).
  unfold re_Y.
  rewrite (rmatch_cat_single _ _ _ _ _ (D1 _)).
  rewrite (rmatch_cat_single _ _ _ _ _ (D2 _)).
  rewrite (rmatch_cat_single _ _ _ _ _ (D3 _)).
  rewrite D4. reflexivity.
Qed.

Lemma four_digits_chars (y : Z) :
  four_digits y
  = String (digit (y / 100 / 10)) (String (digit ((y / 100) mod 10))
      (String (digit (y mod 100 / 10)) (String (digit ((y mod 100) mod 10)) ""))).
Proof. reflexivity. Qed.

Lemma int_four_digits (y : Z) : 0 <= y <= 9999 -> int (four_digits y) = y.
Proof.
  intros H. rewrite four_digits_chars. unfold int. cbn [int_from].
  destruct (digit_facts (y / 100 / 10)) as (-> & -> & _);
    [Z.div_mod_to_equations; lia|].
  destruct (digit_facts ((y / 100) mod 10)) as (-> & -> & _);
    [Z.div_mod_to_equations; lia|].
  destruct (digit_facts (y mod 100 / 10)) as (-> & -> & _);
    [Z.div_mod_to_equations; lia|].
  destruct (digit_facts ((y mod 100) mod 10)) as (-> & -> & _);
    [Z.div_mod_to_equations; lia|].
  Z.div_mod_to_equations; lia.
Qed.

Lemma pattern_year_first (format : string) :
  pattern (String "%" (String "Y" format))
  = match pattern format with
    | Some k => Some (Cat (Group "Y" re_Y) k)
    | None => None
    end.
Proof. reflexivity. Qed.

(** A text that begins with the four digits of a year, read by a format
    that begins with [%Y]: the rest of the format reads the rest of the
    text, and the year is that year. *)
Lemma strptime_year_first (y : Z) (tail format : string) :
  0 <= y <= 9999 ->
  strptime_str (four_digits y ++ tail) (String "%" (String "Y" format))
  = match pattern format with
    | None => Raise ValueError
    | Some k =>
        match rmatch k tail with
        | [] => Raise ValueError
        | (g, rest) :: _ =>
            if (rest =? "")%string
            then date_of_parsed
                   (fold_left set_group g (mkParsed (Some y) 1 1 None))
            else Raise ValueError
        end
    end.
Proof.
  intros H. unfold strptime_str. rewrite pattern_year_first.
  destruct (pattern format) as [k|]; [|reflexivity].
  assert (rmatch (Group "Y" re_Y) (four_digits y ++ tail)
          = [([("Y"%char, four_digits y)], tail)]) as Hy.
  { rewrite four_digits_chars. cbn [append rmatch].
    rewrite rmatch_year by (Z.div_mod_to_equations; lia).
    cbn [map]. unfold consumed. cbn [String.length].
    replace (S (S (S (S (String.length tail)))) - String.length tail)%nat
      with 4%nat by lia.
    reflexivity. }
  rewrite (rmatch_cat_single _ _ _ _ _ Hy).
  destruct (rmatch k tail) as [|[g rest] others]; [reflexivity|].
  cbn [map app]. destruct (rest =? "")%string; [|reflexivity].
  cbn [fold_left]. unfold set_group at 2. cbn [Ascii.eqb Bool.eqb].
  cbn [parsed_init p_month p_day p_weekday].
  now rewrite (int_four_digits y H).
Qed.

(** [strptime] with [%Y-%m-%d] on the text of a year, a month from 1 to 12
    and a day from 1 to 31: the date, when the [date] constructor accepts
    it, and a [ValueError] otherwise. *)
Lemma strptime_iso_date (y m d : Z) :
  0 <= y <= 9999 -> 1 <= m <= 12 -> 1 <= d <= 31 ->
  strptime_str (iso_date y m d) "%Y-%m-%d"
  = if check_date_fields y m d then Ok (mkDatetime y m d)
    else Raise ValueError.
Proof.
  intros Hy Hm Hd. unfold iso_date.
  rewrite (strptime_year_first y _ "-%m-%d" Hy).
  enum m 1%nat 12%nat; enum d 1%nat 31%nat; reflexivity.
Qed.

End CanonicalDates.

(* ================================================================== *)
(** * Validation of a date argument *)
(* ================================================================== *)

Section DateValidation.

Lemma strptime_str_valid (s format : string) (dt : datetime) :
  strptime_str s format = Ok dt -> valid_date dt = true.
Proof.
  unfold strptime_str, date_of_parsed, valid_date.
  destruct (pattern format) as [r|]; [|discriminate].
  destruct (rmatch r s) as [|[g rest] ?]; [discriminate|].
  destruct (rest =? "")%string; [|discriminate].
  destruct (check_date_fields _ _ _) eqn:E; [|discriminate].
  intros H. injection H as <-. exact E.
Qed.

(** X1.  On the text [YYYY-MM-DD] of a year up to 9999, a month from 1 to 12
    and a day from 1 to 31, all digits written, [validate_date_format]
    returns the text unchanged when the year is at least 1 and the month of
    that year has that day, and raises [ValueError] otherwise; an argument
    that is not a string raises [TypeError]. *)
Theorem validate_date_format_iso (y m d : Z) :
  0 <= y <= 9999 -> 1 <= m <= 12 -> 1 <= d <= 31 ->
  validate_date_format (PStr (iso_date y m d))
  = (if (1 <=? y) && (d <=? days_in_month y m)
     then Ok (PStr (iso_date y m d))
     else Raise ValueError)
  /\ validate_date_format PNone = Raise TypeError
  /\ validate_date_format (PInt y) = Raise TypeError.
Proof.
  intros Hy Hm Hd. split; [|split; reflexivity].
  unfold validate_date_format, strptime.
  rewrite (strptime_iso_date y m d Hy Hm Hd).
  unfold check_date_fields, MINYEAR, MAXYEAR.
  replace (y <=? 9999) with true by (symmetry; apply Z.leb_le; lia).
  replace (1 <=? m) with true by (symmetry; apply Z.leb_le; lia).
  replace (m <=? 12) with true by (symmetry; apply Z.leb_le; lia).
  replace (1 <=? d) with true by (symmetry; apply Z.leb_le; lia).
  rewrite !andb_true_r.
  destruct ((1 <=? y) && (d <=? days_in_month y m)); reflexivity.
Qed.

Lemma validate_date_format_iso_witness :
  validate_date_format (PStr "2024-02-29") = Ok (PStr "2024-02-29")
  /\ validate_date_format (PStr "2023-02-29") = Raise ValueError
  /\ validate_date_format (PStr "0000-01-01") = Raise ValueError.
Proof.
  split; [|split].
  - exact (proj1 (validate_date_format_iso 2024 2 29
                    ltac:(lia) ltac:(lia) ltac:(lia))).
  - exact (proj1 (validate_date_format_iso 2023 2 29
                    ltac:(lia) ltac:(lia) ltac:(lia))).
  - exact (proj1 (validate_date_format_iso 0 1 1
                    ltac:(lia) ltac:(lia) ltac:(lia))).
Defined.

End DateValidation.

(* ================================================================== *)
(** * Date ranges and the default end date *)
(* ================================================================== *)

Section DateRanges.

Lemma validate_date_range_parsed (s e : string) (a b : datetime) :
  strptime (PStr s) "%Y-%m-%d" = Ok a ->
  strptime (PStr e) "%Y-%m-%d" = Ok b ->
  validate_date_range (PStr s) (PStr e)
  = if toordinal a <=? toordinal b then Ok (PStr s, PStr e)
    else Raise ValueError.
Proof.
  intros Ha Hb. unfold validate_date_range. rewrite Ha, Hb. cbn [bind].
  rewrite (datetime_gt_toordinal a b
             (strptime_str_valid _ _ _ Ha) (strptime_str_valid _ _ _ Hb)).
  rewrite Z.leb_antisym. now destruct (toordinal b <? toordinal a).
Qed.

(** X2.  When both texts parse, [validate_date_range] returns the two texts
    unchanged if the start date is not later than the end date, counted in
    days, equal dates included, and raises [ValueError] if it is later; a
    text that does not parse raises [ValueError], the start text first. *)
Theorem validate_date_range_spec (s e : string) :
  (forall a b,
      strptime (PStr s) "%Y-%m-%d" = Ok a ->
      strptime (PStr e) "%Y-%m-%d" = Ok b ->
      validate_date_range (PStr s) (PStr e)
      = if toordinal a <=? toordinal b then Ok (PStr s, PStr e)
        else Raise ValueError) /\
  (strptime (PStr s) "%Y-%m-%d" = Raise ValueError ->
   validate_date_range (PStr s) (PStr e) = Raise ValueError) /\
  (forall a,
      strptime (PStr s) "%Y-%m-%d" = Ok a ->
      strptime (PStr e) "%Y-%m-%d" = Raise ValueError ->
      validate_date_range (PStr s) (PStr e) = Raise ValueError).
Proof.
  split; [|split].
  - apply validate_date_range_parsed.
  - intros Ha. unfold validate_date_range. now rewrite Ha.
  - intros a Ha Hb. unfold validate_date_range. now rewrite Ha, Hb.
Qed.

Lemma validate_date_range_spec_witness :
  validate_date_range (PStr "2024-02-28") (PStr "2024-03-01")
  = Ok (PStr "2024-02-28", PStr "2024-03-01") /\
  validate_date_range (PStr "2025-01-20") (PStr "2025-01-15")
  = Raise ValueError /\
  validate_date_range (PStr "01/15/2025") (PStr "2025-01-15")
  = Raise ValueError.
Proof.
  split; [|split].
  - exact (proj1 (validate_date_range_spec "2024-02-28" "2024-03-01")
             (mkDatetime 2024 2 28) (mkDatetime 2024 3 1) eq_refl eq_refl).
  - exact (proj1 (validate_date_range_spec "2025-01-20" "2025-01-15")
             (mkDatetime 2025 1 20) (mkDatetime 2025 1 15) eq_refl eq_refl).
  - exact (proj1 (proj2 (validate_date_range_spec "01/15/2025" "2025-01-15"))
             eq_refl).
Defined.

Lemma fromordinal_spec (n : Z) :
  1 <= n <= MAXORDINAL ->
  exists b, fromordinal n = Ok b /\ valid_date b = true /\ toordinal b = n.
Proof.
  intros H. destruct (ord2ymd_spec n H) as (y & m & d & E & Hc & Ho).
  exists (mkDatetime y m d). unfold fromordinal. rewrite E, Hc.
  repeat split; assumption.
Qed.

Lemma valid_date_year_le (a b : datetime) :
  valid_date a = true -> valid_date b = true ->
  toordinal a <= toordinal b -> year a <= year b.
Proof.
  intros Ha Hb Hle.
  destruct (Z.le_gt_cases (year a) (year b)) as [H|H]; [exact H|].
  pose proof (toordinal_year_lt b a Hb Ha ltac:(lia)). lia.
Qed.

Lemma toordinal_positive (a : datetime) :
  valid_date a = true -> 1 <= toordinal a.
Proof.
  intros Hva. unfold toordinal, ymd2ord. unfold valid_date in Hva.
  pose proof (day_of_year_bounds _ _ _ Hva).
  apply check_date_fields_inv in Hva as (Hya & _).
  pose proof (days_before_year_mono 1 (year a) ltac:(lia)) as Hm.
  change (days_before_year 1) with 0 in Hm. lia.
Qed.

Lemma strftime_Ymd_iso (small_year : Z -> string) (dt : datetime) :
  1000 <= year dt ->
  strftime_Ymd small_year dt = iso_date (year dt) (month dt) (day dt).
Proof.
  intros H. unfold strftime_Ymd, strftime_Y, iso_date.
  replace (1000 <=? year dt) with true by (symmetry; apply Z.leb_le; lia).
  reflexivity.
Qed.

Lemma days_in_month_le_31 (y m : Z) : 1 <= m <= 12 -> days_in_month y m <= 31.
Proof.
  intros Hm. unfold days_in_month.
  destruct ((m =? 2) && is_leap y); [lia|].
  assert (In m (map Z.of_nat (seq 1 12))) as Hin by (apply in_range; lia).
  cbn in Hin.
  repeat (destruct Hin as [<- | Hin]; [vm_compute; discriminate|]).
  destruct Hin.
Qed.

(** The text [YYYY-MM-DD] of a date is read by [strptime] as that date. *)
Lemma strptime_iso_valid (dt : datetime) :
  valid_date dt = true ->
  strptime_str (iso_date (year dt) (month dt) (day dt)) "%Y-%m-%d" = Ok dt.
Proof.
  intros Hv. pose proof Hv as Hv'. unfold valid_date in Hv'.
  apply check_date_fields_inv in Hv' as (Hy' & Hm & Hd).
  pose proof (days_in_month_le_31 (year dt) (month dt) Hm).
  rewrite strptime_iso_date by lia.
  unfold valid_date in Hv. rewrite Hv. now destruct dt.
Qed.

(** The end date of a start date: the date seven days later, written as
    [YYYY-MM-DD]. *)
Lemma calculate_end_date_later (small_year : Z -> string) (s : string)
    (a : datetime) :
  strptime (PStr s) "%Y-%m-%d" = Ok a ->
  1000 <= year a ->
  toordinal a + 7 <= MAXORDINAL ->
  exists b,
    calculate_end_date small_year (PStr s)
    = Returns (iso_date (year b) (month b) (day b)) /\
    valid_date b = true /\
    toordinal b = toordinal a + 7 /\
    strptime (PStr (iso_date (year b) (month b) (day b))) "%Y-%m-%d" = Ok b.
Proof.
  intros Ha Hy Hmax.
  pose proof (strptime_str_valid _ _ _ Ha) as Hva.
  pose proof (toordinal_positive a Hva) as Hpos.
  destruct (fromordinal_spec (toordinal a + 7) ltac:(lia)) as (b & Hb & Hvb & Hob).
  exists b.
  assert (1000 <= year b) as Hyb.
  { pose proof (valid_date_year_le a b Hva Hvb ltac:(lia)). lia. }
  unfold calculate_end_date. rewrite Ha. cbn [lift and_then].
  unfold add_days.
  replace ((0 <? toordinal a + 7) && (toordinal a + 7 <=? MAXORDINAL))
    with true
    by (symmetry; apply andb_true_iff; split;
        [apply Z.ltb_lt | apply Z.leb_le]; lia).
  rewrite Hb. cbn [lift and_then].
  rewrite (strftime_Ymd_iso small_year b Hyb).
  repeat split; try assumption.
  cbn [strptime]. now apply strptime_iso_valid.
Qed.

Lemma calculate_end_date_overflow (small_year : Z -> string) (s : string)
    (a : datetime) :
  strptime (PStr s) "%Y-%m-%d" = Ok a ->
  MAXORDINAL < toordinal a + 7 ->
  calculate_end_date small_year (PStr s) = Raises OverflowError.
Proof.
  intros Ha Hover. unfold calculate_end_date. rewrite Ha.
  cbn [lift and_then]. unfold add_days.
  replace (toordinal a + 7 <=? MAXORDINAL) with false
    by (symmetry; apply Z.leb_gt; lia).
  now rewrite andb_false_r.
Qed.

(** X3.  For a start text that parses to a date of the year 1000 or later
    and at least seven days before the last day of the year 9999,
    [calculate_end_date] returns the text [YYYY-MM-DD] of the date exactly
    seven days later, and that text parses back to that date. *)
Theorem calculate_end_date_spec (small_year : Z -> string) (s : string)
    (a : datetime) :
  strptime (PStr s) "%Y-%m-%d" = Ok a ->
  1000 <= year a ->
  toordinal a + 7 <= MAXORDINAL ->
  exists b,
    calculate_end_date small_year (PStr s)
    = Returns (iso_date (year b) (month b) (day b)) /\
    valid_date b = true /\
    toordinal b = toordinal a + 7 /\
    strptime (PStr (iso_date (year b) (month b) (day b))) "%Y-%m-%d" = Ok b.
Proof. apply calculate_end_date_later. Qed.

Lemma calculate_end_date_spec_witness :
  strptime (PStr "2024-12-28") "%Y-%m-%d" = Ok (mkDatetime 2024 12 28) /\
  exists b,
    calculate_end_date (fun _ => "") (PStr "2024-12-28")
    = Returns (iso_date (year b) (month b) (day b)) /\
    valid_date b = true /\
    toordinal b = toordinal (mkDatetime 2024 12 28) + 7 /\
    strptime (PStr (iso_date (year b) (month b) (day b))) "%Y-%m-%d" = Ok b.
Proof.
  split; [reflexivity|].
  apply (calculate_end_date_spec (fun _ => "") "2024-12-28"
           (mkDatetime 2024 12 28)).
  - reflexivity.
  - cbn [year]. lia.
  - apply Z.leb_le. reflexivity.
Defined.

(** X4.  [calculate_end_date] raises [ValueError] on a start text that does
    not parse, and [OverflowError] when the seventh day after the start lies
    beyond December 31 of the year 9999: December 24 of that year is the
    last start date with an end date, and the starts from December 25 on
    raise. *)
Theorem calculate_end_date_errors (small_year : Z -> string) (s : string) :
  (strptime (PStr s) "%Y-%m-%d" = Raise ValueError ->
   calculate_end_date small_year (PStr s) = Raises (Builtin ValueError)) /\
  (forall a,
      strptime (PStr s) "%Y-%m-%d" = Ok a ->
      MAXORDINAL < toordinal a + 7 ->
      calculate_end_date small_year (PStr s) = Raises OverflowError) /\
  calculate_end_date small_year (PStr "9999-12-24") = Returns "9999-12-31" /\
  (forall d, 25 <= d <= 31 ->
     calculate_end_date small_year (PStr (iso_date 9999 12 d))
     = Raises OverflowError).
Proof.
  split; [|split; [|split]].
  - intros H. unfold calculate_end_date. now rewrite H.
  - apply calculate_end_date_overflow.
  - reflexivity.
  - intros d Hd. unfold calculate_end_date. cbn [strptime].
    rewrite strptime_iso_date by lia.
    assert (In d (map Z.of_nat (seq 25 7))) as Hin by (apply in_range; lia).
    cbn in Hin.
    repeat (destruct Hin as [<- | Hin]; [reflexivity|]). destruct Hin.
Qed.

Lemma calculate_end_date_errors_witness :
  calculate_end_date (fun _ => "") (PStr "15/01/2025")
  = Raises (Builtin ValueError) /\
  calculate_end_date (fun _ => "") (PStr "9999-12-25") = Raises OverflowError /\
  calculate_end_date (fun _ => "") (PStr (iso_date 9999 12 31))
  = Raises OverflowError.
Proof.
  destruct (calculate_end_date_errors (fun _ => "") "15/01/2025")
    as (Hbad & _ & _ & Hlast).
  destruct (calculate_end_date_errors (fun _ => "") "9999-12-25")
    as (_ & Hover & _ & _).
  split; [exact (Hbad eq_refl)|].
  split; [apply (Hover (mkDatetime 9999 12 25) eq_refl); reflexivity|].
  apply Hlast. lia.
Defined.

Lemma calculate_end_date_inv (small_year : Z -> string) (s e : string)
    (a : datetime) :
  strptime (PStr s) "%Y-%m-%d" = Ok a ->
  calculate_end_date small_year (PStr s) = Returns e ->
  toordinal a + 7 <= MAXORDINAL.
Proof.
  intros Ha He.
  destruct (Z.le_gt_cases (toordinal a + 7) MAXORDINAL) as [H|H]; [exact H|].
  rewrite (calculate_end_date_overflow small_year s a Ha ltac:(lia)) in He.
  discriminate He.
Qed.

(** The end text of a start date, once returned: its date, seven days
    later. *)
Lemma calculate_end_date_returned (small_year : Z -> string) (s e : string)
    (a : datetime) :
  strptime (PStr s) "%Y-%m-%d" = Ok a ->
  1000 <= year a ->
  calculate_end_date small_year (PStr s) = Returns e ->
  exists b,
    strptime (PStr e) "%Y-%m-%d" = Ok b /\
    toordinal b = toordinal a + 7.
Proof.
  intros Ha Hy He.
  pose proof (calculate_end_date_inv small_year s e a Ha He) as Hmax.
  destruct (calculate_end_date_later small_year s a Ha Hy Hmax)
    as (b & Hb & Hvb & Hob & Hpb).
  rewrite Hb in He. injection He as <-. now exists b.
Qed.

(** X5.  When [calculate_end_date] returns an end text for a start date of
    the year 1000 or later, that text passes [validate_date_format], the
    pair of the start and the end text passes [validate_date_range], and
    the end date falls on the same day of the week as the start date. *)
Theorem calculate_end_date_week (small_year : Z -> string) (s e : string)
    (a : datetime) :
  strptime (PStr s) "%Y-%m-%d" = Ok a ->
  1000 <= year a ->
  calculate_end_date small_year (PStr s) = Returns e ->
  validate_date_format (PStr e) = Ok (PStr e) /\
  validate_date_range (PStr s) (PStr e) = Ok (PStr s, PStr e) /\
  exists b,
    strptime (PStr e) "%Y-%m-%d" = Ok b /\
    weekday b = weekday a /\
    strftime_A b = strftime_A a.
Proof.
  intros Ha Hy He.
  destruct (calculate_end_date_returned small_year s e a Ha Hy He)
    as (b & Hpb & Hob).
  assert (weekday b = weekday a) as Hw.
  { unfold weekday. rewrite Hob.
    replace (toordinal a + 7 + 6) with (toordinal a + 6 + 1 * 7) by lia.
    apply Z.mod_add. lia. }
  split; [unfold validate_date_format; now rewrite Hpb|].
  split.
  - rewrite (validate_date_range_parsed s e a b Ha Hpb).
    replace (toordinal a <=? toordinal b) with true
      by (symmetry; apply Z.leb_le; lia).
    reflexivity.
  - exists b. split; [exact Hpb|]. split; [exact Hw|].
    unfold strftime_A. now rewrite Hw.
Qed.

Lemma calculate_end_date_week_witness :
  strptime (PStr "2025-01-15") "%Y-%m-%d" = Ok (mkDatetime 2025 1 15) /\
  calculate_end_date (fun _ => "") (PStr "2025-01-15") = Returns "2025-01-22" /\
  validate_date_range (PStr "2025-01-15") (PStr "2025-01-22")
  = Ok (PStr "2025-01-15", PStr "2025-01-22").
Proof.
  split; [reflexivity|]. split; [reflexivity|].
  apply (calculate_end_date_week (fun _ => "") "2025-01-15" "2025-01-22"
           (mkDatetime 2025 1 15)).
  - reflexivity.
  - cbn [year]. lia.
  - reflexivity.
Defined.

End DateRanges.

(* ================================================================== *)
(** * The date range and the fetch step of the command line *)
(* ================================================================== *)

Section CommandLine.

(** X6.  When the date handling of [main] returns, for a start date of the
    year 1000 or later, the start text is the one given, the end text
    parses, and the end date is not earlier than the start date; an end
    text that was given and is not empty is returned as it is, and without
    one (or with the empty text, which counts as no end date) the end date
    is the seventh day after the start. *)
Theorem date_range_sound (small_year : Z -> string) (s : string)
    (end_date : option string) (s' e' : string) (a : datetime) :
  strptime (PStr s) "%Y-%m-%d" = Ok a ->
  1000 <= year a ->
  date_range small_year s end_date = Returns (s', e') ->
  s' = s /\
  (exists b,
      strptime (PStr e') "%Y-%m-%d" = Ok b /\
      toordinal a <= toordinal b /\
      (end_date = None \/ end_date = Some "" ->
       toordinal b = toordinal a + 7)) /\
  (forall given, end_date = Some given -> given <> "" -> e' = given) /\
  date_range small_year s (Some "") = date_range small_year s None.
Proof.
  intros Ha Hy Hret.
  assert (forall r,
             and_then (calculate_end_date small_year (PStr s))
               (fun computed => Returns (s, computed)) = Returns r ->
             fst r = s /\
             exists b, strptime (PStr (snd r)) "%Y-%m-%d" = Ok b /\
                       toordinal b = toordinal a + 7) as Hdefault.
  { intros r Hr.
    destruct (calculate_end_date small_year (PStr s)) as [e|] eqn:He;
      [|discriminate Hr].
    cbn [and_then] in Hr. injection Hr as <-. cbn [fst snd].
    split; [reflexivity|].
    exact (calculate_end_date_returned small_year s e a Ha Hy He). }
  unfold date_range in Hret. unfold validate_date_format at 1 in Hret.
  rewrite Ha in Hret. cbn [lift and_then] in Hret.
  destruct end_date as [given|].
  - rewrite truthy_str in Hret.
    destruct (given =? "")%string eqn:Eg; cbn [negb] in Hret.
    + apply String.eqb_eq in Eg. subst given.
      destruct (Hdefault _ Hret) as [Hs (b & Hb & Hob)]. cbn [fst snd] in *.
      split; [exact Hs|]. split; [|split; [|reflexivity]].
      * exists b. split; [exact Hb|]. split; [lia|]. intros _. exact Hob.
      * intros given [= <-] Hne. now destruct Hne.
    + apply String.eqb_neq in Eg.
      unfold validate_date_format in Hret.
      destruct (strptime_str_cases given "%Y-%m-%d") as [[b Hb] | Hb];
        cbn [strptime] in Hret; rewrite Hb in Hret;
        [|discriminate Hret].
      cbn [lift and_then] in Hret.
      rewrite (validate_date_range_parsed s given a b Ha Hb) in Hret.
      destruct (toordinal a <=? toordinal b) eqn:Hle; [|discriminate Hret].
      cbn [lift and_then] in Hret. injection Hret as <- <-.
      apply Z.leb_le in Hle.
      split; [reflexivity|]. split; [|split; [|reflexivity]].
      * exists b. split; [exact Hb|]. split; [exact Hle|].
        intros [H|H]; [discriminate H|]. injection H as ->. now destruct Eg.
      * intros g [= <-] _. reflexivity.
  - destruct (Hdefault _ Hret) as [Hs (b & Hb & Hob)]. cbn [fst snd] in *.
    split; [exact Hs|]. split; [|split; [|reflexivity]].
    + exists b. split; [exact Hb|]. split; [lia|]. intros _. exact Hob.
    + intros given H. discriminate H.
Qed.

Lemma date_range_sound_witness :
  date_range (fun _ => "") "2025-01-15" None
  = Returns ("2025-01-15", "2025-01-22") /\
  exists b,
    strptime (PStr "2025-01-22") "%Y-%m-%d" = Ok b /\
    toordinal (mkDatetime 2025 1 15) <= toordinal b.
Proof.
  split; [reflexivity|].
  destruct (date_range_sound (fun _ => "") "2025-01-15" None
              "2025-01-15" "2025-01-22" (mkDatetime 2025 1 15))
    as (_ & (b & Hb & Hle & _) & _).
  - reflexivity.
  - cbn [year]. lia.
  - reflexivity.
  - exists b. split; assumption.
Defined.

Lemma get_events_error_status (status_code : Z) (body : option pyval) :
  400 <= status_code < 600 ->
  get_events (Response status_code body) = Raises RequestException.
Proof.
  intros H. cbn [get_events]. unfold raises_for_status.
  destruct (status_code =? 404); [reflexivity|].
  destruct (status_code =? 401); [reflexivity|].
  destruct (status_code =? 403); [reflexivity|].
  destruct (Z.leb_spec 400 status_code); [|lia].
  destruct (Z.ltb_spec status_code 500); [reflexivity|].
  destruct (Z.leb_spec 500 status_code); [|lia].
  destruct (Z.ltb_spec status_code 600); [reflexivity|lia].
Qed.

Lemma get_events_other_status (status_code : Z) (body : option pyval) :
  status_code < 400 \/ 600 <= status_code ->
  get_events (Response status_code body)
  = match body with
    | None => Raises (Builtin ValueError)
    | Some events =>
        match len events with
        | None => Raises (Builtin TypeError)
        | Some _ => Returns events
        end
    end.
Proof.
  intros H. cbn [get_events]. unfold raises_for_status.
  destruct (Z.eqb_spec status_code 404); [lia|].
  destruct (Z.eqb_spec status_code 401); [lia|].
  destruct (Z.eqb_spec status_code 403); [lia|].
  destruct (Z.leb_spec 400 status_code), (Z.ltb_spec status_code 500),
    (Z.leb_spec 500 status_code), (Z.ltb_spec status_code 600);
    try lia; reflexivity.
Qed.

Lemma get_events_returns (response : http_result) (events : pyval) :
  get_events response = Returns events ->
  exists status_code,
    response = Response status_code (Some events) /\
    (status_code < 400 \/ 600 <= status_code) /\
    len events <> None.
Proof.
  destruct response as [| | |st body]; try discriminate.
  intros H. destruct (Z.lt_ge_cases st 400) as [Hlo|Hlo];
    [|destruct (Z.lt_ge_cases st 600) as [Hhi|Hhi]].
  - rewrite get_events_other_status in H by lia.
    destruct body as [v|]; [|discriminate H].
    destruct (len v) eqn:E; [|discriminate H]. injection H as <-.
    exists st. rewrite E. repeat split; [lia | discriminate].
  - rewrite get_events_error_status in H by lia. discriminate H.
  - rewrite get_events_other_status in H by lia.
    destruct body as [v|]; [|discriminate H].
    destruct (len v) eqn:E; [|discriminate H]. injection H as <-.
    exists st. rewrite E. repeat split; [lia | discriminate].
Qed.

(** X7.  [get_events] raises [RequestException] when the request fails and
    on every status from 400 to 599.  On any other status it returns the
    JSON body unchanged when the body has a length (a list, an object or a
    string), raises [TypeError] on a body that is a number, a boolean or
    null, and raises [ValueError] on a body that is not JSON.  It returns in
    no other case. *)
Theorem get_events_spec :
  get_events Timeout = Raises RequestException /\
  get_events ConnectionError = Raises RequestException /\
  get_events OtherRequestException = Raises RequestException /\
  (forall status_code body,
      400 <= status_code < 600 ->
      get_events (Response status_code body) = Raises RequestException) /\
  (forall status_code body,
      status_code < 400 \/ 600 <= status_code ->
      get_events (Response status_code body)
      = match body with
        | None => Raises (Builtin ValueError)
        | Some (PStr _ as events) | Some (PList _ as events)
        | Some (PDict _ as events) => Returns events
        | Some _ => Raises (Builtin TypeError)
        end) /\
  (forall response events,
      get_events response = Returns events ->
      exists status_code,
        response = Response status_code (Some events) /\
        (status_code < 400 \/ 600 <= status_code)).
Proof.
  split; [reflexivity|]. split; [reflexivity|]. split; [reflexivity|].
  split; [apply get_events_error_status|]. split.
  - intros st body H. rewrite (get_events_other_status st body H).
    destruct body as [[| | | | | |]|]; reflexivity.
  - intros response events H.
    destruct (get_events_returns response events H) as (st & Hr & Hst & _).
    now exists st.
Qed.

Lemma get_events_spec_witness :
  get_events (Response 503 (Some (PList []))) = Raises RequestException /\
  get_events (Response 200 (Some (PInt 5))) = Raises (Builtin TypeError) /\
  get_events (Response 200 (Some (PDict [("events", PList [])])))
  = Returns (PDict [("events", PList [])]).
Proof.
  destruct get_events_spec as (_ & _ & _ & Herr & Hok & _).
  split; [apply Herr; lia|].
  split; [exact (Hok 200 (Some (PInt 5)) ltac:(lia))|].
  exact (Hok 200 (Some (PDict [("events", PList [])])) ltac:(lia)).
Defined.

Lemma validate_loop_inv (l : list pyval) :
  forall acc events,
    validate_loop acc l = Ok events ->
    exists ds, l = map PDict ds /\ events = (acc ++ ds)%list.
Proof.
  induction l as [|v l IH]; intros acc events H.
  - cbn in H. injection H as <-. exists []. now rewrite app_nil_r.
  - cbn in H. destruct v; try discriminate H.
    destruct (IH _ _ H) as (ds & -> & ->).
    exists (d :: ds). split; [reflexivity|]. now rewrite <- app_assoc.
Qed.

(** X8.  The fetch step of [main] returns events exactly when the server
    answered with a status outside 400 to 599 and a JSON list whose elements
    are all objects, and the events are then those objects in order; every
    other answer ends the step with an exception, before any event is
    processed. *)
Theorem fetch_events_spec (response : http_result) (events : list dict) :
  fetch_events response = Returns events <->
  exists status_code,
    response = Response status_code (Some (PList (map PDict events))) /\
    (status_code < 400 \/ 600 <= status_code).
Proof.
  unfold fetch_events. split.
  - intros H. destruct (get_events response) as [v|] eqn:Hv; [|discriminate H].
    cbn [and_then] in H.
    destruct (get_events_returns response v Hv) as (st & -> & Hst & _).
    exists st. split; [|exact Hst].
    unfold validate_api_response in H.
    destruct v; try discriminate H.
    destruct (validate_loop [] l) as [evs|] eqn:El; [|discriminate H].
    cbn [lift] in H. injection H as <-.
    destruct (validate_loop_inv l [] evs El) as (ds & -> & ->).
    reflexivity.
  - intros (st & -> & Hst).
    rewrite (get_events_other_status st _ Hst). cbn [len and_then].
    unfold validate_api_response. rewrite (validate_loop_dicts events []).
    reflexivity.
Qed.

End CommandLine.

(* ================================================================== *)
(** * When the graphic and the digest line raise *)
(* ================================================================== *)

Section ErrorBehaviour.

(** X9.  [generate_svg] raises in exactly two cases.  The logo check
    raises: its exception leaves the function, whatever the record.  Or the
    check answers and the date of the record is truthy and is not a string:
    [TypeError] for a number or a boolean, [AttributeError] for a list or an
    object.  No other field, whatever its type, makes it raise. *)
Theorem generate_svg_raises_iff (path_exists : string -> result bool)
    (e : dict) (logo_path : string) (ex : exn) :
  snd (generate_svg path_exists e logo_path) = Raise ex
  <-> path_exists logo_path = Raise ex
      \/ ((exists found, path_exists logo_path = Ok found)
          /\ date_error (get e "date") = Some ex).
Proof.
  rewrite generate_svg_checked.
  assert (snd (generate_svg logo_found e logo_path) = Raise ex
          <-> date_error (get e "date") = Some ex) as Hdate.
  { unfold generate_svg, logo_found, collect_content, date_error. cbn [snd].
    destruct (truthy (get e "title")), (truthy (get e "subtitle")),
      (truthy (get e "host")), (truthy (get e "location"));
      destruct (truthy (get e "date")) eqn:Ed; cbn [bind negb];
      try (split; discriminate);
      unfold parse_date_without_time; rewrite Ed; cbn [negb];
      destruct (get e "date"); cbn [bind];
      split; intros H; try discriminate H; try (injection H as <-); reflexivity. }
  destruct (path_exists logo_path) as [found|ex0]; cbn [bind].
  - rewrite Hdate. split.
    + intros H. right. split; [now exists found | exact H].
    + intros [H | [_ H]]; [discriminate H | exact H].
  - split.
    + intros H. injection H as ->. now left.
    + intros [H | [[found H] _]]; [now injection H as -> | discriminate H].
Qed.

Lemma generate_svg_raises_iff_witness :
  snd (generate_svg logo_found
         [("title", PInt 7); ("date", PList [PStr "T"])] default_logo_path)
  = Raise AttributeError /\
  snd (generate_svg logo_unreadable sample_event default_logo_path)
  = Raise OSError.
Proof.
  split.
  - apply (proj2 (generate_svg_raises_iff logo_found
                    [("title", PInt 7); ("date", PList [PStr "T"])]
                    default_logo_path AttributeError)).
    right. split; [exists true; reflexivity | reflexivity].
  - apply (proj2 (generate_svg_raises_iff logo_unreadable sample_event
                    default_logo_path OSError)).
    left. reflexivity.
Defined.

Lemma append_space_nonempty (a b : string) :
  ((a ++ " " ++ b) =? "")%string = false.
Proof. destruct a; reflexivity. Qed.

(** On a non-empty string the formatted date is never empty. *)
Lemma date_parts_truthy (s : string) :
  s <> "" ->
  exists day_name formatted_date,
    date_parts (PStr s) = Ok (PStr day_name, PStr formatted_date) /\
    formatted_date <> "".
Proof.
  intros Hs. unfold date_parts. rewrite truthy_str.
  apply String.eqb_neq in Hs. rewrite Hs. cbn [negb].
  apply String.eqb_neq in Hs.
  destruct (try_formats_str s date_formats)
    as [(earlier & fmt & later & d & _ & _ & _ & Htry) | [_ Htry]];
    rewrite Htry; cbn [bind].
  - eexists; eexists. split; [reflexivity|].
    apply String.eqb_neq. apply append_space_nonempty.
  - exists "", s. split; [reflexivity | exact Hs].
Qed.

Lemma strings_of_tail (str_other : pyval -> string) (location host : pyval)
    (head : string) :
  exists line,
    join_values " "
      (let parts := [PStr head] in
       let parts :=
         if truthy location
         then (parts ++ [PStr ("@ " ++ Py.str str_other location)])%list
         else parts in
       if truthy host
       then (parts ++ [PStr ("(" ++ Py.str str_other host ++ ")")])%list
       else parts)
    = Ok line.
Proof.
  cbv zeta. destruct (truthy location), (truthy host);
    eexists; reflexivity.
Qed.

(** X10.  The line of an event in the digest raises exactly in two cases,
    and then a [TypeError]: the date is truthy and is not a string, or the
    date is falsy (missing, null or empty) and the title, ["Event"] when the
    key is missing, is not a string.  A null title therefore breaks the
    digest for an event without a date only; the location and the host never
    do. *)
Theorem event_line_raises_iff (str_other : pyval -> string) (e : dict)
    (ex : exn) :
  let date := get_default e "date" (PStr "") in
  let title := get_default e "title" (PStr "Event") in
  event_line str_other e = Raise ex
  <-> ex = TypeError /\
      ((truthy date = true /\ is_str date = false)
       \/ (truthy date = false /\ is_str title = false)).
Proof.
  cbv zeta. unfold event_line.
  set (date := get_default e "date" (PStr "")).
  set (title := get_default e "title" (PStr "Event")).
  set (location := get_default e "location" (PStr "")).
  set (host := get_default e "host" (PStr "")).
  destruct (truthy date) eqn:Ed.
  - destruct date as [| | | |s| |] eqn:Edate; try discriminate Ed;
      try (unfold date_parts; rewrite Ed; cbn; split;
           [intros H; injection H as <-; split; [reflexivity|left; split; reflexivity]
           | intros [-> _]; reflexivity]).
    assert (s <> "") as Hs by (intros ->; discriminate Ed).
    destruct (date_parts_truthy s Hs) as (dn & fd & -> & Hfd).
    cbn [bind]. rewrite !truthy_str.
    apply String.eqb_neq in Hfd. rewrite Hfd. cbn [negb].
    split.
    + intros H. exfalso.
      destruct (dn =? "")%string; cbn [negb andb app] in H.
      * destruct (strings_of_tail str_other location host
                    (Py.str str_other (PStr fd) ++ ": " ++ Py.str str_other title))
          as [line Hl].
        cbv zeta in Hl. cbn [app] in Hl. rewrite Hl in H. discriminate H.
      * destruct (strings_of_tail str_other location host
                    (Py.str str_other (PStr dn) ++ ", "
                     ++ Py.str str_other (PStr fd) ++ ": "
                     ++ Py.str str_other title))
          as [line Hl].
        cbv zeta in Hl. cbn [app] in Hl. rewrite Hl in H. discriminate H.
    + intros [_ [[_ H] | [H _]]]; discriminate H.
  - assert (date_parts date = Ok (PStr "", date)) as Hparts
      by (unfold date_parts; now rewrite Ed).
    rewrite Hparts. cbn [bind]. rewrite Ed. cbn [truthy String.eqb negb andb app].
    destruct title as [| | | |t| |] eqn:Et;
      try (destruct (truthy location), (truthy host); cbn;
           (split;
            [intros H; injection H as <-; split;
             [reflexivity | right; split; reflexivity]
            | intros [-> _]; reflexivity])).
    split.
    + intros H. exfalso.
      destruct (strings_of_tail str_other location host t) as [line Hl].
      cbv zeta in Hl. cbn [app] in Hl. rewrite Hl in H. discriminate H.
    + intros [_ [[H _] | [_ H]]]; discriminate H.
Qed.

Lemma event_line_raises_iff_witness :
  event_line (fun _ => "") [("title", PNone)] = Raise TypeError.
Proof.
  apply (proj2 (event_line_raises_iff (fun _ => "") [("title", PNone)]
                  TypeError)).
  split; [reflexivity|]. right. split; reflexivity.
Defined.

End ErrorBehaviour.

(* ================================================================== *)
(** * Dry runs and file names *)
(* ================================================================== *)

Section BatchFacts.

Lemma process_event_dry_run (path_exists : string -> result bool)
    (serialize : SVG -> result string)
    (write_text write_text' : string -> string -> result unit)
    (index : nat) (e : dict) :
  process_event path_exists serialize write_text true index e
  = process_event path_exists serialize write_text' true index e
  /\ forall file content,
       process_event path_exists serialize write_text true index e
       <> Ok (Created file content).
Proof.
  unfold process_event.
  destruct (snd (generate_svg path_exists e default_logo_path)) as [svg|];
    cbn [bind]; [|split; [reflexivity | discriminate]].
  destruct (serialize svg); cbn [bind]; split;
    try reflexivity; discriminate.
Qed.

Lemma batch_loop_dry_run (path_exists : string -> result bool)
    (serialize : SVG -> result string)
    (write_text write_text' : string -> string -> result unit)
    (events : list dict) :
  forall index,
    batch_loop path_exists serialize write_text true index events
    = batch_loop path_exists serialize write_text' true index events
    /\ forall file content,
         ~ In (Created file content)
              (batch_loop path_exists serialize write_text true index events).
Proof.
  induction events as [|e events IH]; intros index; cbn [batch_loop].
  - split; [reflexivity | intros ? ? []].
  - destruct (IH (S index)) as [IHeq IHin].
    destruct (process_event_dry_run path_exists serialize write_text
                write_text' index e) as [Heq Hne].
    rewrite Heq, IHeq. split; [reflexivity|].
    intros file content [H|H].
    + rewrite <- Heq in H.
      destruct (process_event path_exists serialize write_text true index e)
        as [r|] eqn:Er; [|discriminate H].
      subst r. exact (Hne file content eq_refl).
    + rewrite <- IHeq in H. exact (IHin file content H).
Qed.

(** X11.  A dry run never writes: the outcome of [main] with [--dry-run]
    is the same whatever the file system would do with a write, and no report
    of the run is that of a created file. *)
Theorem dry_run_writes_nothing (str_other : pyval -> string)
    (path_exists : string -> result bool) (serialize : SVG -> result string)
    (write_text write_text' : string -> string -> result unit)
    (response : pyval) :
  main str_other path_exists serialize write_text true response
  = main str_other path_exists serialize write_text' true response
  /\ forall file content,
       ~ In (Created file content)
            (reports (main str_other path_exists serialize write_text true
                           response)).
Proof.
  unfold main.
  destruct (validate_api_response response) as [events|];
    [|split; [reflexivity | intros ? ? []]].
  destruct events as [|e events]; [split; [reflexivity | intros ? ? []]|].
  destruct (batch_loop_dry_run path_exists serialize write_text write_text'
              (e :: events) 0) as [Heq Hin].
  rewrite Heq.
  destruct (generate_content_txt str_other (e :: events));
    (split; [reflexivity|]); cbn [reports]; rewrite <- Heq; exact Hin.
Qed.

Lemma int_of_string_str_of_int (z : Z) :
  NilZero.int_of_string (str_of_int z) = Some (Z.to_int z).
Proof.
  unfold str_of_int. apply NilZero.isi.
  - destruct z; cbn; try discriminate.
    intros E. injection E as E. exact (DecimalPos.Unsigned.to_uint_nonnil _ E).
  - destruct z; cbn; try discriminate.
    intros E. injection E as E. exact (DecimalPos.Unsigned.to_uint_nonnil _ E).
Qed.

Lemma str_of_int_inj (a b : Z) : str_of_int a = str_of_int b -> a = b.
Proof.
  intros H. pose proof (int_of_string_str_of_int a) as Pa.
  rewrite H, int_of_string_str_of_int in Pa. injection Pa as E.
  rewrite <- (DecimalZ.of_to a), <- (DecimalZ.of_to b). now rewrite E.
Qed.

Lemma append_inj_l (p a b : string) : p ++ a = p ++ b -> a = b.
Proof. induction p; cbn; intros H; [exact H|]. injection H as H. auto. Qed.

Lemma append_inj_r (a b q : string) : a ++ q = b ++ q -> a = b.
Proof.
  revert b. induction a as [|c a IH]; intros [|d b] H; cbn in H.
  - reflexivity.
  - exfalso. apply (f_equal String.length) in H. cbn in H.
    rewrite length_app_s in H. lia.
  - exfalso. apply (f_equal String.length) in H. cbn in H.
    rewrite length_app_s in H. lia.
  - injection H as -> H. f_equal. now apply IH.
Qed.

(** X12.  The file names of a batch are pairwise different: two positions
    with the same file name are the same position, so no graphic of a run
    overwrites another. *)
Theorem filename_injective (i j : nat) : filename i = filename j -> i = j.
Proof.
  unfold filename. intros H.
  apply append_inj_l, append_inj_r in H.
  assert (forall n m : nat, (n < 10)%nat -> (10 <= m)%nat ->
            "0" ++ str_of_int (Z.of_nat n) <> str_of_int (Z.of_nat m)) as Hmixed.
  { intros n m Hn Hm E.
    apply (f_equal NilZero.int_of_string) in E.
    rewrite int_of_string_str_of_int in E.
    assert (exists k, NilZero.int_of_string ("0" ++ str_of_int (Z.of_nat n))
                      = Some k /\ Z.of_int k < 10) as (k & Hk & Hlt).
    { do 10 (destruct n as [|n];
             [eexists; split; [reflexivity | vm_compute; reflexivity]|]).
      lia. }
    rewrite Hk in E. injection E as ->.
    rewrite DecimalZ.of_to in Hlt. lia. }
  destruct (Nat.ltb_spec i 10), (Nat.ltb_spec j 10).
  - apply append_inj_l in H. apply str_of_int_inj in H. lia.
  - exfalso. exact (Hmixed i j ltac:(lia) ltac:(lia) H).
  - exfalso. exact (Hmixed j i ltac:(lia) ltac:(lia) (eq_sym H)).
  - apply str_of_int_inj in H. lia.
Qed.

Lemma filename_injective_witness : 12%nat = 12%nat.
Proof. apply filename_injective. reflexivity. Defined.

End BatchFacts.

(* ================================================================== *)
(** * Canonical dates in the digest *)
(* ================================================================== *)

Section IsoDates.

Ltac enum x lo len :=
  let H := fresh "H" in
  assert (In x (map Z.of_nat (seq lo len))) as H by (apply in_range; lia);
  cbn in H;
  repeat (destruct H as [<- | H]); [.. | destruct H].

(** X13.  For the text [YYYY-MM-DD] of a calendar date, the digest shows
    the weekday of that date and the full month name followed by the day
    number without a leading zero: the first format of the list reads the
    text. *)
Theorem date_parts_iso_date (y m d : Z) :
  check_date_fields y m d = true ->
  date_parts (PStr (iso_date y m d))
  = Ok (PStr (nth (Z.to_nat ((ymd2ord y m d + 6) mod 7)) day_name ""),
        PStr (nth (Z.to_nat m) month_name "" ++ " " ++ str_of_int d)).
Proof.
  intros Hv.
  pose proof (strptime_iso_valid (mkDatetime y m d) Hv) as Hp.
  cbn [year month day] in Hp.
  unfold date_parts. rewrite truthy_str.
  replace (iso_date y m d =? "")%string with false by reflexivity.
  cbn [negb]. unfold date_formats. cbn [try_formats strptime].
  rewrite Hp. reflexivity.
Qed.

Lemma date_parts_iso_date_witness :
  date_parts (PStr (iso_date 2024 2 29))
  = Ok (PStr "Thursday", PStr "February 29").
Proof. apply (date_parts_iso_date 2024 2 29). reflexivity. Defined.

(** X14.  [validate_date_format] also accepts a month and a day written
    with one digit, and returns the text as it was typed, not rewritten as
    [YYYY-MM-DD]. *)
Theorem validate_date_format_one_digit (y m d : Z) :
  1 <= y <= 9999 -> 1 <= m <= 9 -> 1 <= d <= 9 ->
  let text := four_digits y ++ "-" ++ String (digit m) ""
              ++ "-" ++ String (digit d) "" in
  validate_date_format (PStr text) = Ok (PStr text) /\
  strptime (PStr text) "%Y-%m-%d" = Ok (mkDatetime y m d).
Proof.
  intros Hy Hm Hd. cbv zeta.
  assert (strptime_str
            (four_digits y ++ "-" ++ String (digit m) ""
             ++ "-" ++ String (digit d) "") "%Y-%m-%d"
          = Ok (mkDatetime y m d)) as Hp.
  { rewrite (strptime_year_first y _ "-%m-%d") by lia.
    assert (check_date_fields y m d = true) as Hc.
    { unfold check_date_fields, MINYEAR, MAXYEAR.
      assert (28 <= days_in_month y m).
      { unfold days_in_month. destruct ((m =? 2) && is_leap y); [lia|].
        enum m 1%nat 9%nat; vm_compute; discriminate. }
      repeat (apply andb_true_iff; split); apply Z.leb_le; lia. }
    enum m 1%nat 9%nat; enum d 1%nat 9%nat;
      match goal with
      | |- _ = Ok (mkDatetime _ ?mm ?dd) =>
          transitivity (if check_date_fields y mm dd
                        then Ok (mkDatetime y mm dd) else Raise ValueError);
          [reflexivity | now rewrite Hc]
      end. }
  unfold validate_date_format. cbn [strptime]. rewrite Hp. split; reflexivity.
Qed.

Lemma validate_date_format_one_digit_witness :
  validate_date_format (PStr "2025-1-5") = Ok (PStr "2025-1-5") /\
  strptime (PStr "2025-1-5") "%Y-%m-%d" = Ok (mkDatetime 2025 1 5).
Proof.
  exact (validate_date_format_one_digit 2025 1 5
           ltac:(lia) ltac:(lia) ltac:(lia)).
Defined.

End IsoDates.

(* ================================================================== *)
(** * Bounds of the layout *)
(* ================================================================== *)

Section LayoutBounds.

Lemma filter_in_sublists {A : Type} (f : A -> bool) (l : list A) :
  In (filter f l) (sublists l).
Proof.
  induction l as [|x l IH]; cbn [filter sublists]; [now left|].
  apply in_or_app. destruct (f x); [left | right; exact IH].
  now apply in_map.
Qed.

Lemma stacked_offsets (e : dict) (ks : list string) :
  forall off, map b_y_offset (stacked_blocks e off ks) = offsets_from off ks.
Proof.
  induction ks as [|k ks IH]; intros off; cbn; [reflexivity|].
  now rewrite IH.
Qed.

Lemma content_ys_checked :
  forallb (fun ks => all_within 368 608 (content_ys ks)
                     && increasing (content_ys ks))
          (sublists field_order) = true.
Proof. vm_compute. reflexivity. Qed.

(** X15.  In the document of an event record the content texts are stacked
    downwards, each strictly below the one before, and all of them between
    y = 368 and y = 608: below the logo and the header, and inside the
    canvas.  The document is returned whatever the logo check answers; only
    when that check itself raises is its exception raised instead. *)
Theorem content_layout_bounds (path_exists : string -> result bool) (e : dict)
    (logo_path : string) :
  event_record e = true ->
  exists doc texts,
    snd (generate_svg path_exists e logo_path)
    = bind (path_exists logo_path) (fun _ => Ok doc) /\
    elements doc
    = ([background; logo logo_path; events_text] ++ map Text texts)%list /\
    all_within 368 608 (map y texts) = true /\
    increasing (map y texts) = true.
Proof.
  intros H. eexists. eexists.
  split; [apply (generate_svg_stacked _ _ _ H)|].
  cbn [elements]. split; [reflexivity|].
  rewrite map_map.
  assert (map (fun b => y (block_attrs
                             (content_start_y (total_height (present_fields e))) b))
              (stacked_blocks e 0 (present_fields e))
          = content_ys (present_fields e)) as Hys.
  { unfold content_ys. rewrite <- (stacked_offsets e (present_fields e) 0).
    rewrite map_map. reflexivity. }
  rewrite Hys.
  pose proof content_ys_checked as Hall. rewrite forallb_forall in Hall.
  specialize (Hall (present_fields e) (filter_in_sublists _ _)).
  now apply andb_true_iff in Hall.
Qed.

Lemma content_layout_bounds_witness :
  event_record sample_event = true /\
  exists doc texts,
    snd (generate_svg logo_found sample_event default_logo_path) = Ok doc /\
    elements doc
    = ([background; logo default_logo_path; events_text] ++ map Text texts)%list /\
    all_within 368 608 (map y texts) = true /\
    increasing (map y texts) = true.
Proof.
  split; [reflexivity|].
  apply (content_layout_bounds logo_found sample_event default_logo_path).
  reflexivity.
Defined.

End LayoutBounds.

(* ================================================================== *)
(** * What the time stripping returns *)
(* ================================================================== *)

Section TimeStrippingOutput.

Lemma take_prefix (n : nat) (s : string) : exists b, s = take n s ++ b.
Proof.
  revert n. induction s as [|c s IH]; intros [|n]; cbn.
  - now exists "".
  - now exists "".
  - now exists (String c s).
  - destruct (IH n) as [b Hb]. exists b. now rewrite <- Hb.
Qed.

Lemma occurs_inside (p r s a b : string) :
  occurs p r -> s = a ++ r ++ b -> occurs p s.
Proof.
  intros (pre & post & ->) ->.
  exists (a ++ pre), (post ++ b).
  now rewrite !app_assoc_s.
Qed.

Lemma cut_at_time_prefix (patterns : list string) (s : string) :
  exists b, s = cut_at_time patterns s ++ b.
Proof.
  induction patterns as [|p patterns IH]; cbn.
  - exists "". now rewrite app_empty_r.
  - destruct (contains p s); [|exact IH].
    unfold split_head. destruct (find p s) as [n|].
    + apply take_prefix.
    + exists "". now rewrite app_empty_r.
Qed.

Lemma before_first_free (p s pre : string) :
  p <> "" -> before_first p s pre -> ~ occurs p pre.
Proof.
  intros Hp [[post Hs] Hmin] (x & y & Hpre).
  specialize (Hmin x (y ++ p ++ post)).
  rewrite Hs, Hpre, !app_assoc_s in Hmin. specialize (Hmin eq_refl).
  rewrite !length_app_s in Hmin.
  destruct p; [now destruct Hp|]. cbn in Hmin. lia.
Qed.

Lemma cut_at_time_no_T (s : string) : ~ occurs "T" (cut_at_time time_patterns s).
Proof.
  unfold time_patterns. cbn [cut_at_time].
  destruct (contains "T" s) eqn:ET.
  - unfold split_head. unfold contains in ET.
    destruct (find "T" s) as [n|] eqn:F; [|discriminate ET].
    destruct (find_Some _ _ _ F) as [Hbf _].
    apply (before_first_free "T" s); [discriminate | exact Hbf].
  - apply contains_false in ET. intros Ho. apply ET.
    destruct (cut_at_time_prefix [" at "; " @ "] s) as [b Hb].
    apply (occurs_inside "T" _ s "" b Ho). exact Hb.
Qed.

(** X16.  On every string [parse_date_without_time] returns a contiguous part
    of the string that contains no letter T and that neither begins nor
    ends with white space. *)
Theorem parse_date_without_time_output (s : string) :
  exists r,
    parse_date_without_time (PStr s) = Ok (PStr r) /\
    (exists a b, s = a ++ r ++ b) /\
    ~ occurs "T" r /\
    (forall c rest, r = String c rest -> isspace c = false) /\
    (forall init c, r = init ++ String c "" -> isspace c = false).
Proof.
  rewrite parse_date_without_time_str.
  destruct (s =? "")%string eqn:E.
  - apply String.eqb_eq in E. subst s. exists "".
    split; [reflexivity|]. split; [now exists "", ""|].
    split; [|split].
    + intros (pre & post & H). destruct pre; discriminate H.
    + discriminate.
    + intros init c H. destruct init; discriminate H.
  - set (cut := cut_at_time time_patterns s).
    exists (strip cut). split; [reflexivity|].
    assert (exists a b, cut = a ++ strip cut ++ b) as (a & b & Hcut).
    { unfold strip. destruct (lstrip_suffix cut) as (a & Ha & _).
      destruct (rstrip_prefix (lstrip cut)) as (b & Hb & _).
      exists a, b. now rewrite <- Hb. }
    split; [|split; [|split]].
    + destruct (cut_at_time_prefix time_patterns s) as [tail Ht].
      fold cut in Ht. exists a, (b ++ tail).
      rewrite Ht at 1. rewrite Hcut at 1. now rewrite !app_assoc_s.
    + intros Ho. apply (cut_at_time_no_T s). fold cut.
      exact (occurs_inside "T" _ cut a b Ho Hcut).
    + intros c rest H. unfold strip in H.
      destruct (rstrip_head _ _ _ H) as [rest' H'].
      exact (lstrip_head _ _ _ H').
    + intros init c H. exact (rstrip_last _ _ _ H).
Qed.

End TimeStrippingOutput.

(* ================================================================== *)
(** * Timestamps in the graphic and in the digest *)
(* ================================================================== *)

Section Timestamps.

Ltac enum x lo len :=
  let H := fresh "H" in
  assert (In x (map Z.of_nat (seq lo len))) as H by (apply in_range; lia);
  cbn in H;
  repeat (destruct H as [<- | H]); [.. | destruct H].

Lemma digit_skipped (k : Z) (t : string) :
  0 <= k <= 9 ->
  find "T" (String (digit k) t) = option_map S (find "T" t) /\
  lstrip (String (digit k) t) = String (digit k) t.
Proof. intros H. enum k 0%nat 10%nat; split; reflexivity. Qed.

Lemma rstrip_keep (s : string) (c : ascii) :
  isspace c = false -> rstrip (s ++ String c "") = s ++ String c "".
Proof.
  intros Hc. induction s as [|a s IH]; cbn.
  - now rewrite Hc.
  - rewrite IH. destruct s; reflexivity.
Qed.

Lemma iso_date_chars (y m d : Z) (tail : string) :
  iso_date y m d ++ tail
  = String (digit (y / 100 / 10)) (String (digit ((y / 100) mod 10))
      (String (digit (y mod 100 / 10)) (String (digit ((y mod 100) mod 10))
        (String "-" (String (digit (m / 10)) (String (digit (m mod 10))
          (String "-" (String (digit (d / 10)) (String (digit (d mod 10))
            tail))))))))).
Proof. reflexivity. Qed.

(** The graphic side: the text of a date followed by [T] and anything is
    cut back to the text of the date. *)
Lemma parse_date_without_time_timestamp (y m d : Z) (rest : string) :
  0 <= y <= 9999 -> 0 <= m <= 99 -> 0 <= d <= 99 ->
  parse_date_without_time (PStr (iso_date y m d ++ "T" ++ rest))
  = Ok (PStr (iso_date y m d)).
Proof.
  intros Hy Hm Hd. rewrite parse_date_without_time_str.
  rewrite iso_date_chars. cbn [String.eqb Ascii.eqb Bool.eqb].
  assert (0 <= y / 100 / 10 <= 9 /\ 0 <= (y / 100) mod 10 <= 9
          /\ 0 <= y mod 100 / 10 <= 9 /\ 0 <= (y mod 100) mod 10 <= 9
          /\ 0 <= m / 10 <= 9 /\ 0 <= m mod 10 <= 9
          /\ 0 <= d / 10 <= 9 /\ 0 <= d mod 10 <= 9)
    as (H1 & H2 & H3 & H4 & H5 & H6 & H7 & H8)
    by (repeat split; Z.div_mod_to_equations; lia).
  destruct (digit_facts _ H1) as (S1 & _).
  destruct (digit_facts _ H8) as (S8 & _).
  unfold time_patterns. cbn [cut_at_time]. unfold contains, split_head.
  assert (find "T"
            (String (digit (y / 100 / 10)) (String (digit ((y / 100) mod 10))
              (String (digit (y mod 100 / 10))
                (String (digit ((y mod 100) mod 10))
                  (String "-" (String (digit (m / 10))
                    (String (digit (m mod 10))
                      (String "-" (String (digit (d / 10))
                        (String (digit (d mod 10)) ("T" ++ rest)))))))))))
          = Some 10%nat) as Hfind.
  { rewrite (proj1 (digit_skipped _ _ H1)), (proj1 (digit_skipped _ _ H2)),
      (proj1 (digit_skipped _ _ H3)), (proj1 (digit_skipped _ _ H4)).
    change (find "T" (String "-" ?t)) with (option_map S (find "T" t)).
    rewrite (proj1 (digit_skipped _ _ H5)), (proj1 (digit_skipped _ _ H6)).
    change (find "T" (String "-" ?t)) with (option_map S (find "T" t)).
    rewrite (proj1 (digit_skipped _ _ H7)), (proj1 (digit_skipped _ _ H8)).
    reflexivity. }
  rewrite Hfind. cbn [take]. unfold strip.
  rewrite (proj2 (digit_skipped _ _ H1)).
  rewrite <- (app_empty_r (iso_date y m d)), iso_date_chars.
  exact (f_equal (fun s => Ok (PStr s))
           (rstrip_keep
              (String (digit (y / 100 / 10)) (String (digit ((y / 100) mod 10))
                (String (digit (y mod 100 / 10))
                  (String (digit ((y mod 100) mod 10))
                    (String "-" (String (digit (m / 10))
                      (String (digit (m mod 10))
                        (String "-" (String (digit (d / 10)) "")))))))))
              (digit (d mod 10)) S8)).
Qed.

Lemma strptime_iso_timestamp (y m d : Z) (rest : string) :
  0 <= y <= 9999 -> 1 <= m <= 12 -> 1 <= d <= 31 ->
  strptime_str (iso_date y m d ++ "T" ++ rest) "%Y-%m-%d" = Raise ValueError.
Proof.
  intros Hy Hm Hd. unfold iso_date. rewrite !app_assoc_s.
  rewrite (strptime_year_first y _ "-%m-%d" Hy).
  enum m 1%nat 12%nat; enum d 1%nat 31%nat; reflexivity.
Qed.

Lemma strptime_name_first_digit (k : Z) (tail format : string) :
  0 <= k <= 9 ->
  In format ["%B %d, %Y"; "%b %d, %Y"; "%A, %B %d, %Y"; "%A, %b %d, %Y"] ->
  strptime_str (String (digit k) tail) format = Raise ValueError.
Proof.
  intros Hk Hf. cbn in Hf.
  destruct Hf as [<-|[<-|[<-|[<-|[]]]]]; enum k 0%nat 10%nat; reflexivity.
Qed.

Lemma flat_map_nil {A B : Type} (f : A -> list B) (l : list A) :
  (forall x, In x l -> f x = []) -> flat_map f l = [].
Proof.
  induction l as [|x l IH]; intros H; cbn; [reflexivity|].
  rewrite (H x (or_introl eq_refl)), IH; [reflexivity|].
  intros x' Hx'. apply H. now right.
Qed.

Lemma slash_refuses_digit (k : Z) (t : string) (K : regex) :
  0 <= k <= 9 -> rmatch (Cat (Chr "/") K) (String (digit k) t) = [].
Proof. intros H. enum k 0%nat 10%nat; reflexivity. Qed.

(** What a month or a day takes from two digits leaves a digit in front,
    or nothing of the two. *)
Lemma number_rests (r : regex) (k1 k2 : Z) (tail : string) :
  r = re_m \/ r = re_d -> 0 <= k1 <= 9 -> 0 <= k2 <= 9 ->
  forall g s1,
    In (g, s1) (rmatch r (String (digit k1) (String (digit k2) tail))) ->
    s1 = String (digit k2) tail \/ s1 = tail.
Proof.
  intros Hr H1 H2 g s1.
  destruct Hr as [-> | ->]; enum k1 0%nat 10%nat; enum k2 0%nat 10%nat;
    intros Hin; vm_compute in Hin;
    repeat match goal with
           | H : _ \/ _ |- _ => destruct H
           | H : (_, _) = (_, _) |- _ => injection H as _ <-
           | H : False |- _ => destruct H
           end; auto.
Qed.

Lemma rmatch_cat (r1 r2 : regex) (s : string) :
  rmatch (Cat r1 r2) s
  = flat_map (fun '(g1, s1) =>
                map (fun '(g2, s2) => ((g1 ++ g2)%list, s2)) (rmatch r2 s1))
             (rmatch r1 s).
Proof. reflexivity. Qed.

Lemma rmatch_group (name : ascii) (r : regex) (s : string) :
  rmatch (Group name r) s
  = map (fun '(g, rest) => ((name, consumed s rest) :: g, rest)) (rmatch r s).
Proof. reflexivity. Qed.

Lemma slash_after_number (c : ascii) (r K : regex) (k1 k2 k3 : Z)
    (tail : string) :
  r = re_m \/ r = re_d -> 0 <= k1 <= 9 -> 0 <= k2 <= 9 -> 0 <= k3 <= 9 ->
  rmatch (Cat (Group c r) (Cat (Chr "/") K))
    (String (digit k1) (String (digit k2) (String (digit k3) tail)))
  = [].
Proof.
  intros Hr H1 H2 H3. rewrite rmatch_cat, rmatch_group. apply flat_map_nil.
  intros [g1 s1] Hin. apply in_map_iff in Hin as ([g0 s0] & Heq & Hin0).
  injection Heq as _ <-.
  destruct (number_rests r k1 k2 _ Hr H1 H2 _ _ Hin0) as [-> | ->].
  - rewrite (slash_refuses_digit k2 _ K H2). reflexivity.
  - rewrite (slash_refuses_digit k3 _ K H3). reflexivity.
Qed.

Lemma strptime_slash_digits (k1 k2 k3 : Z) (tail format : string) :
  0 <= k1 <= 9 -> 0 <= k2 <= 9 -> 0 <= k3 <= 9 ->
  In format ["%m/%d/%Y"; "%d/%m/%Y"] ->
  strptime_str
    (String (digit k1) (String (digit k2) (String (digit k3) tail))) format
  = Raise ValueError.
Proof.
  intros H1 H2 H3 Hf. cbn in Hf. unfold strptime_str.
  destruct Hf as [<-|[<-|[]]].
  - change (pattern "%m/%d/%Y")
      with (match pattern "%d/%Y" with
            | Some k => Some (Cat (Group "m" re_m) (Cat (Chr "/") k))
            | None => None
            end).
    destruct (pattern "%d/%Y") as [K|]; [|reflexivity].
    rewrite slash_after_number by (auto; lia). reflexivity.
  - change (pattern "%d/%m/%Y")
      with (match pattern "%m/%Y" with
            | Some k => Some (Cat (Group "d" re_d) (Cat (Chr "/") k))
            | None => None
            end).
    destruct (pattern "%m/%Y") as [K|]; [|reflexivity].
    rewrite slash_after_number by (auto; lia). reflexivity.
Qed.

(** X17.  For the text [YYYY-MM-DD] of a calendar date followed by the
    letter T and anything (a timestamp), the graphic shows the date alone,
    while the digest finds no format that reads the text: it has no weekday
    and shows the whole timestamp as it is. *)
Theorem timestamp_graphic_and_digest (y m d : Z) (rest : string) :
  check_date_fields y m d = true ->
  let timestamp := iso_date y m d ++ "T" ++ rest in
  parse_date_without_time (PStr timestamp) = Ok (PStr (iso_date y m d)) /\
  date_parts (PStr timestamp) = Ok (PStr "", PStr timestamp).
Proof.
  intros Hv. cbv zeta.
  apply check_date_fields_inv in Hv as (Hy & Hm & Hd).
  pose proof (days_in_month_le_31 y m Hm) as Hdim.
  split; [apply parse_date_without_time_timestamp; lia|].
  apply date_parts_none. intros f Hf.
  unfold date_formats in Hf. cbn [strptime].
  assert (0 <= y / 100 / 10 <= 9 /\ 0 <= (y / 100) mod 10 <= 9
          /\ 0 <= y mod 100 / 10 <= 9)
    as (H1 & H2 & H3) by (repeat split; Z.div_mod_to_equations; lia).
  destruct Hf as [<-|[<-|[<-|[<-|[<-|[<-|[<-|[]]]]]]]];
    try (apply strptime_iso_timestamp; lia);
    rewrite iso_date_chars;
    try (apply strptime_name_first_digit; [exact H1 | cbn; tauto]);
    (apply strptime_slash_digits; [exact H1 | exact H2 | exact H3 | cbn; tauto]).
Qed.

Lemma timestamp_graphic_and_digest_witness :
  parse_date_without_time (PStr "2024-12-05T18:00:00")
  = Ok (PStr "2024-12-05") /\
  date_parts (PStr "2024-12-05T18:00:00")
  = Ok (PStr "", PStr "2024-12-05T18:00:00").
Proof.
  exact (timestamp_graphic_and_digest 2024 12 5 "18:00:00" eq_refl).
Defined.

End Timestamps.

(* ================================================================== *)
(** * The shape of the digest *)
(* ================================================================== *)

Section DigestShape.

Lemma content_loop_inv (str_other : pyval -> string) (events : list dict) :
  forall lines result,
    content_loop str_other lines events = Ok result ->
    exists added,
      Forall2 (fun e line => event_line str_other e = Ok line) events added /\
      result = (lines ++ added)%list.
Proof.
  induction events as [|e events IH]; intros lines result H; cbn in H.
  - injection H as <-. exists []. split; [constructor | now rewrite app_nil_r].
  - destruct (event_line str_other e) as [line|] eqn:El; [|discriminate H].
    cbn [bind] in H. destruct (IH _ _ H) as (added & Hall & ->).
    exists (line :: added). split; [now constructor|].
    now rewrite <- app_assoc.
Qed.

(** X18.  The digest is all or nothing.  When [generate_content_txt]
    returns, its text is one line per event, each the line of that event and
    in input order, followed by the four footer lines, all joined by line
    feeds; and when the line of any one event raises, the whole call raises
    and there is no digest. *)
Theorem digest_all_or_nothing (str_other : pyval -> string)
    (events : list dict) :
  (forall text,
      generate_content_txt str_other events = Ok text ->
      exists lines,
        Forall2 (fun e line => event_line str_other e = Ok line) events lines /\
        List.length lines = List.length events /\
        text = join LF (lines ++ footer)%list) /\
  (forall e ex,
      In e events -> event_line str_other e = Raise ex ->
      exists ex', generate_content_txt str_other events = Raise ex').
Proof.
  split.
  - intros text H. unfold generate_content_txt in H.
    destruct (content_loop str_other [] events) as [lines|] eqn:El;
      [|discriminate H].
    cbn [bind] in H. injection H as <-.
    destruct (content_loop_inv str_other events [] lines El) as (added & Hall & ->).
    exists added. cbn [app]. split; [exact Hall|]. split; [|reflexivity].
    symmetry. exact (Forall2_length Hall).
  - intros e ex Hin Hex.
    destruct (content_loop_raises str_other events e ex Hin Hex []) as [ex' H].
    exists ex'. unfold generate_content_txt. now rewrite H.
Qed.

Lemma digest_all_or_nothing_witness :
  exists ex',
    generate_content_txt (fun _ => "") [sample_event; [("title", PNone)]]
    = Raise ex'.
Proof.
  apply (proj2 (digest_all_or_nothing (fun _ => "")
                  [sample_event; [("title", PNone)]])
           [("title", PNone)] TypeError).
  - right. left. reflexivity.
  - reflexivity.
Defined.

End DigestShape.
